(** * facebook_api.mixins: social-signal mixins and their reconciliation

    A shallow embedding of [facebook_api/mixins.py].  Python objects are
    attribute maps, the relational rows the mixins touch are lists of
    records, exceptions are values of [exn], and a method body is a
    function in the state-and-exception type [M].  Everything the module
    imports from elsewhere (the Graph API client, the date parser, the
    resolver of small resources, the framework's [save]) is a member of
    the class [Host]. *)

From stdpp Require Import gmap strings list fin_maps sorting.
From Stdlib Require Import ZArith Ascii.

Local Open Scope Z_scope.

(** ** Python values, exceptions and method bodies *)

(** The values a count attribute can hold: the fields are declared
    [PositiveIntegerField(null=True)]. *)
Inductive pyval :=
| PyNone
| PyInt (n : Z).

#[global] Instance pyval_eq_dec : EqDecision pyval.
Proof. solve_decision. Defined.

Inductive exn :=
| AttributeError (name : string)
| KeyError (key : string)
| TypeError
| ValueError
| UnknownResourceType.

#[global] Instance exn_eq_dec : EqDecision exn.
Proof. solve_decision. Defined.

Inductive res (A : Type) :=
| Ok (a : A)
| Raise (e : exn).
Arguments Ok {A} a.
Arguments Raise {A} e.

(** A method body: it reads and writes a state [S] and either returns or
    raises; what it wrote before raising stays written. *)
Definition M (S A : Type) : Type := S → res A * S.

Definition ret {S A} (a : A) : M S A := λ s, (Ok a, s).

Definition raise {S A} (e : exn) : M S A := λ s, (Raise e, s).

Definition bind {S A B} (m : M S A) (k : A → M S B) : M S B :=
  λ s, match m s with
       | (Ok a, s') => k a s'
       | (Raise e, s') => (Raise e, s')
       end.

Notation "'letM' x ':=' m 'in' k" := (bind m (λ x, k))
  (at level 10, x pattern, m at level 100, k at level 200, only parsing).
Notation "m ';;;' k" := (bind m (λ _, k))
  (at level 100, k at level 200, right associativity, only parsing).

Definition gets {S A} (f : S → A) : M S A := λ s, (Ok (f s), s).

Definition modify {S} (f : S → S) : M S unit := λ s, (Ok tt, f s).

Definition lift_res {S A} (r : res A) : M S A := λ s, (r, s).

(** [try: m except <handled>: ...]: [handler e] is the except clause
    chosen for [e], if there is one. *)
Definition try_except {S A} (m : M S A) (handler : exn → option (M S A)) : M S A :=
  λ s, match m s with
       | (Ok a, s') => (Ok a, s')
       | (Raise e, s') =>
           match handler e with
           | Some k => k s'
           | None => (Raise e, s')
           end
       end.

Definition except_UnknownResourceType {S A} (k : M S A) (e : exn) : option (M S A) :=
  match e with UnknownResourceType => Some k | _ => None end.

Definition except_KeyError {S A} (k : M S A) (e : exn) : option (M S A) :=
  match e with KeyError _ => Some k | _ => None end.

(** [for x in l: body]. *)
Fixpoint for_each {S A} (l : list A) (body : A → M S unit) : M S unit :=
  match l with
  | [] => ret tt
  | x :: l' => body x ;;; for_each l' body
  end.

(** Truth value of a count, as [or] and [if] see it. *)
Definition truthy (v : pyval) : bool :=
  match v with
  | PyNone => false
  | PyInt n => negb (n =? 0)
  end.

(** [v or d]. *)
Definition py_or (v d : pyval) : pyval := if truthy v then v else d.

(** [a + b] on counts: adding [None] is a [TypeError]. *)
Definition py_add (a b : pyval) : res pyval :=
  match a, b with
  | PyInt x, PyInt y => Ok (PyInt (x + y))
  | _, _ => Raise TypeError
  end.

(** The builtin [sum] of a list: [0 + x1 + x2 + ...]. *)
Fixpoint py_sum_from (acc : pyval) (l : list pyval) : res pyval :=
  match l with
  | [] => Ok acc
  | x :: l' =>
      match py_add acc x with
      | Ok acc' => py_sum_from acc' l'
      | Raise e => Raise e
      end
  end.

Definition py_sum (l : list pyval) : res pyval := py_sum_from (PyInt 0) l.

(** [str.upper] and [str.lower] on ASCII text. *)
Definition ascii_upper (c : ascii) : ascii :=
  let n := nat_of_ascii c in
  if ((97 <=? n) && (n <=? 122))%nat then ascii_of_nat (n - 32) else c.

Definition ascii_lower (c : ascii) : ascii :=
  let n := nat_of_ascii c in
  if ((65 <=? n) && (n <=? 90))%nat then ascii_of_nat (n + 32) else c.

Fixpoint upper (s : string) : string :=
  match s with
  | EmptyString => EmptyString
  | String c s' => String (ascii_upper c) (upper s')
  end.

Fixpoint lower (s : string) : string :=
  match s with
  | EmptyString => EmptyString
  | String c s' => String (ascii_lower c) (lower s')
  end.

(** ** Rows and objects *)

Definition datetime : Type := Z.

(** A row of [facebook_users.User]: local primary key and remote id. *)
Record User := {
  user_pk : Z;
  user_graph_id : Z;
}.

#[global] Instance User_eq_dec : EqDecision User.
Proof. solve_decision. Defined.

(** A row of the through table of [shares_users]
    ([ManyToManyHistoryField]): the owning record, the user, and the
    validity window. *)
Record Edge := {
  e_obj : Z;
  e_user : Z;
  time_from : option datetime;
  time_to : option datetime;
}.

#[global] Instance Edge_eq_dec : EqDecision Edge.
Proof. solve_decision. Defined.

(** The record the mixins are mixed into ([self]).  [attrs] holds the
    count attributes by name, [rels] the current user set of each
    [..._users] relation that the code assigns as a whole. *)
Record Instance := {
  pk : Z;
  graph_id : string;
  created_time : option datetime;
  attrs : gmap string pyval;
  rels : gmap string (gset Z);
}.

Definition set_attrs (f : gmap string pyval → gmap string pyval) (i : Instance) : Instance :=
  {| pk := pk i; graph_id := graph_id i; created_time := created_time i;
     attrs := f (attrs i); rels := rels i |}.

Definition set_rels (f : gmap string (gset Z) → gmap string (gset Z)) (i : Instance) : Instance :=
  {| pk := pk i; graph_id := graph_id i; created_time := created_time i;
     attrs := attrs i; rels := f (rels i) |}.

(** [getattr(self, name)]. *)
Definition getattr (name : string) : M Instance pyval :=
  λ i, match attrs i !! name with
       | Some v => (Ok v, i)
       | None => (Raise (AttributeError name), i)
       end.

(** [getattr(self, name, d)]. *)
Definition getattr_default (name : string) (d : pyval) : M Instance pyval :=
  gets (λ i, default d (attrs i !! name)).

(** [setattr(self, name, v)] on a count attribute. *)
Definition setattr (name : string) (v : pyval) : M Instance unit :=
  modify (set_attrs <[name := v]>).

(** [setattr(self, name, instances)] on a relation: the assigned query set
    becomes the relation's current user set. *)
Definition setrel (name : string) (instances : gset Z) : M Instance unit :=
  modify (set_rels <[name := instances]>).

(** A remote entry of a page's [data]: its string-valued members, and the
    members of its ['from'] object when it has one. *)
Record Entry := {
  fields : gmap string string;
  entry_from : option (gmap string string);
}.

(** A page of a remote collection: [response['data']] and the cursor of
    the page after it, when there is one. *)
Record Response := {
  data : list Entry;
  paging_after : option string;
}.

(** What a fetch works on: the record, the user table, and the through
    table of [shares_users]. *)
Record State := {
  self : Instance;
  users : list User;
  through : list Edge;
}.

Definition set_self (f : Instance → Instance) (s : State) : State :=
  {| self := f (self s); users := users s; through := through s |}.

Definition set_users (f : list User → list User) (s : State) : State :=
  {| self := self s; users := f (users s); through := through s |}.

Definition set_through (f : list Edge → list Edge) (s : State) : State :=
  {| self := self s; users := users s; through := f (through s) |}.

(** Run a method of the record inside a fetch. *)
Definition on_self {A} (m : M Instance A) : M State A :=
  λ s, let '(r, i) := m (self s) in (r, set_self (λ _, i) s).

(** Run a query on the user table inside a fetch. *)
Definition on_users {A} (m : M (list User) A) : M State A :=
  λ s, let '(r, us) := m (users s) in (r, set_users (λ _, us) s).

(** ** What the module imports *)

Class Host := {
  (** [api_call(path, version=..., limit=..., **kwargs)]: a page, or
      nothing. *)
  api_call : string → option string → option Z → gmap string string → option Response;
  (** [dateutil.parser.parse]. *)
  datetime_parse : string → res datetime;
  (** The builtin [int] on a remote id. *)
  py_int : string → res Z;
  (** [utils.get_or_create_from_small_resource], on the user table. *)
  get_or_create_from_small_resource : gmap string string → M (list User) User;
  (** The [save] the record inherits from its other base classes. *)
  save : M Instance unit;
  (** Whether the class of the record has [LikableModelMixin] among its
      bases: no other class defines [update_count_and_get_like_users]. *)
  likable : bool;
}.

(** [d[key]] on a dictionary. *)
Definition getitem {S V} (d : gmap string V) (key : string) : M S V :=
  match d !! key with
  | Some v => ret v
  | None => raise (KeyError key)
  end.

(** ** ActionableModelMixin *)

Definition reaction_types : list string :=
  ["love"; "wow"; "haha"; "sad"; "angry"; "thankful"].

(** ['{0}s_count'.format(reaction)] and ['{0}s_users'.format(reaction)]. *)
Definition count_field (reaction : string) : string := reaction +:+ "s_count".
Definition users_field (reaction : string) : string := reaction +:+ "s_users".

(** [self.actions_count += getattr(self, '{0}s_count'.format(reaction), None)]. *)
Definition add_reaction_count (reaction : string) : M Instance unit :=
  letM current := getattr "actions_count" in
  letM count := getattr_default (count_field reaction) PyNone in
  letM total := lift_res (py_add current count) in
  setattr "actions_count" total.

Definition ActionableModelMixin_save : M Instance unit :=
  letM guarded := gets (λ i,
      map (λ field, py_or (default PyNone (attrs i !! field)) (PyInt 0))
          ["likes_count"; "shares_count"; "comments_count"]) in
  letM total := lift_res (py_sum guarded) in
  setattr "actions_count" total ;;;
  for_each reaction_types add_reaction_count.

(** ** LikableModelMixin *)

Section mixins.
Context `{Host}.

(** [instances.count()]. *)
Definition queryset_count (instances : gset Z) : pyval := PyInt (Z.of_nat (size instances)).

Definition update_count_and_get_like_users (instances : gset Z) : M Instance (gset Z) :=
  setrel "likes_users" instances ;;;
  setattr "likes_count" (queryset_count instances) ;;;
  save ;;;
  ret instances.

(** [User.objects.filter(pk__in=ids)]: the users of the table whose key
    is listed. *)
Definition User_objects_filter_pk_in (ids : list Z) : M State (gset Z) :=
  gets (λ s, list_to_set (filter (λ p, p ∈ ids) (user_pk <$> users s))).

Fixpoint fetch_likes_loop (resources : list Entry) (ids : list Z) : M State (list Z) :=
  match resources with
  | [] => ret ids
  | resource :: rest =>
      letM ids' := try_except
        (letM user := on_users (get_or_create_from_small_resource (fields resource)) in
         ret (ids ++ [user_pk user]))
        (except_UnknownResourceType (ret ids)) in
      fetch_likes_loop rest ids'
  end.

(** The body of [fetch_likes], one page. *)
Definition fetch_likes (limit : Z) (kwargs : gmap string string)
    : M State (gset Z * option Response) :=
  letM path := gets (λ s, graph_id (self s) +:+ "/likes") in
  let response := api_call path None (Some limit) kwargs in
  letM ids := match response with
              | Some r => fetch_likes_loop (data r) []
              | None => ret []
              end in
  letM instances := User_objects_filter_pk_in ids in
  ret (instances, response).

(** ** ReactionableModelMixin *)

(** [update_count_and_get_users_builder(reaction)]. *)
Definition update_count_and_get_reaction_users (reaction : string) (instances : gset Z)
    : M Instance (gset Z) :=
  setrel (users_field reaction) instances ;;;
  setattr (count_field reaction) (queryset_count instances) ;;;
  save ;;;
  ret instances.

(** [getattr(self, name)] on the methods
    [update_count_and_get_<type>_users]: the class body defines one for
    each reaction type; the one of the likes is there when the class of
    the record has [LikableModelMixin] among its bases, and [getattr]
    finds nothing otherwise. *)
Definition count_method_named (name : string) : option (gset Z → M Instance (gset Z)) :=
  if decide (name = "update_count_and_get_like_users")
  then if likable then Some update_count_and_get_like_users else None
  else
    match list_find (λ reaction, name = "update_count_and_get_" +:+ reaction +:+ "_users")
                    reaction_types with
    | Some (_, reaction) => Some (update_count_and_get_reaction_users reaction)
    | None => None
    end.

Definition fetch_reactions_step (reaction : option string) (resource : Entry)
    (ids : gmap string (list Z)) : M State (gmap string (list Z)) :=
  try_except
    (letM skip := match reaction with
                  | Some r =>
                      letM type := getitem (fields resource) "type" in
                      ret (negb (bool_decide (upper r = type)))
                  | None => ret false
                  end in
     if (skip : bool) then ret ids
     else
       try_except
         (letM user := on_users (get_or_create_from_small_resource (fields resource)) in
          letM type := getitem (fields resource) "type" in
          letM current := getitem ids type in
          ret (<[type := current ++ [user_pk user]]> ids))
         (except_UnknownResourceType (ret ids)))
    (except_KeyError (ret ids)).

Fixpoint fetch_reactions_loop (reaction : option string) (resources : list Entry)
    (ids : gmap string (list Z)) : M State (gmap string (list Z)) :=
  match resources with
  | [] => ret ids
  | resource :: rest =>
      letM ids' := fetch_reactions_step reaction resource ids in
      fetch_reactions_loop reaction rest ids'
  end.

(** The local [get_user_ids]. *)
Definition get_user_ids (ids : list Z) (response : option Response)
    : M State (gset Z * option Response) :=
  letM instances := User_objects_filter_pk_in ids in
  ret (instances, response).

(** Modelled from the spec: [decorators.fetch_all] is not among the
    sources.  Here it wraps [get_user_ids], which is handed its ids and
    the response positionally and requests nothing, so there is no further
    page to consume: the wrapped call yields the instances of that one
    call, and (as the source remarks) does not call [return_all]. *)
Definition fetch_all_get_user_ids
    (func : list Z → option Response → M State (gset Z * option Response))
    (ids : list Z) (response : option Response) : M State (gset Z) :=
  letM r := func ids response in
  ret r.1.

(** One iteration of the loop that fills [result]. *)
Definition fetch_reactions_result (reaction : option string) (response : option Response)
    (ids : gmap string (list Z)) (id_type : string)
    (result : gmap string (gset Z)) : M State (gmap string (gset Z)) :=
  if match reaction with
     | Some r => negb (bool_decide (upper r = upper id_type))
     | None => false
     end
  then ret result
  else
    let name := "update_count_and_get_" +:+ lower id_type +:+ "_users" in
    letM count_method := match count_method_named name with
                         | Some m => ret m
                         | None => raise (AttributeError name)
                         end in
    letM id_list := getitem ids (upper id_type) in
    letM instances := fetch_all_get_user_ids get_user_ids id_list response in
    let result' := <[upper id_type := instances]> result in
    on_self (count_method instances) ;;;
    ret result'.

Fixpoint fetch_reactions_results (reaction : option string) (response : option Response)
    (ids : gmap string (list Z)) (types : list string)
    (result : gmap string (gset Z)) : M State (gmap string (gset Z)) :=
  match types with
  | [] => ret result
  | id_type :: rest =>
      letM result' := fetch_reactions_result reaction response ids id_type result in
      fetch_reactions_results reaction response ids rest result'
  end.

(** What [fetch_reactions] returns: a dictionary, or one entry of it. *)
Inductive reactions_result :=
| AllReactions (result : gmap string (gset Z))
| OneReaction (instances : gset Z).

Definition fetch_reactions (reaction : option string) (limit : Z)
    (kwargs : gmap string string) : M State reactions_result :=
  let types := reaction_types ++ ["LIKE"] in
  let ids := foldl (λ ids id_type, <[upper id_type := []]> ids) ∅ types in
  letM path := gets (λ s, graph_id (self s) +:+ "/reactions") in
  let response := api_call path (Some "2.6") (Some limit) kwargs in
  letM ids := match response with
              | Some r => fetch_reactions_loop reaction (data r) ids
              | None => ret ids
              end in
  letM result := fetch_reactions_results reaction response ids types ∅ in
  match reaction with
  | Some r =>
      letM entry := getitem result (upper r) in
      ret (OneReaction entry)
  | None => ret (AllReactions result)
  end.

Fixpoint count_reactions_loop (names : list string) (count : pyval) : M Instance pyval :=
  match names with
  | [] => ret count
  | reaction :: rest =>
      letM value := getattr (count_field reaction) in
      letM count' := lift_res (py_add count value) in
      count_reactions_loop rest count'
  end.

Definition count_reactions : M Instance unit :=
  letM count := count_reactions_loop (reaction_types ++ ["like"]) (PyInt 0) in
  setattr "reactions_count" count ;;;
  save.

(** ** ShareableModelMixin *)

Definition update_count_and_get_shares_users (instances : gset Z) : M Instance (gset Z) :=
  letM shares_count := getattr "shares_count" in
  (if decide (shares_count = PyNone)
   then setattr "shares_count" (queryset_count instances) ;;; save
   else ret tt) ;;;
  ret instances.

(** [post.get('from')] as a condition: the entry has a ['from'] object
    and it is not empty. *)
Definition has_from (post : Entry) : Prop :=
  match entry_from post with
  | Some d => d ≠ ∅
  | None => False
  end.

#[global] Instance has_from_dec post : Decision (has_from post).
Proof. unfold has_from. destruct (entry_from post); apply _. Defined.

(** [post['from']]. *)
Definition post_from {S} (post : Entry) : M S (gmap string string) :=
  match entry_from post with
  | Some d => ret d
  | None => raise (KeyError "from")
  end.

(** [int(post['from']['id'])]. *)
Definition post_graph_id {S} (post : Entry) : M S Z :=
  letM from := post_from post in
  letM id := getitem from "id" in
  lift_res (py_int id).

(** [[(int(post['from']['id']), datetime_parse(post['created_time']))
      for post in posts]]. *)
Fixpoint timestamp_pairs {S} (posts : list Entry) : M S (list (Z * datetime)) :=
  match posts with
  | [] => ret []
  | post :: rest =>
      letM graph_id := post_graph_id post in
      letM created := getitem (fields post) "created_time" in
      letM time := lift_res (datetime_parse created) in
      letM pairs := timestamp_pairs rest in
      ret ((graph_id, time) :: pairs)
  end.

(** [dict(pairs)]: a later pair replaces an earlier one with its key. *)
Definition py_dict (pairs : list (Z * datetime)) : gmap Z datetime :=
  foldl (λ d kv, <[kv.1 := kv.2]> d) ∅ pairs.

(** [sorted(d.keys())]. *)
Definition sorted_keys (d : gmap string string) : list string :=
  merge_sort String.le (map_to_list d).*1.

(** [self.shares_users.get_query_set_through()]: the rows of the record. *)
Definition get_query_set_through (s : State) : list Edge :=
  filter (λ e, e_obj e = pk (self s)) (through s).

(** Modelled from the spec: the relation manager's [get_query_set] belongs
    to [m2m_history], which is not among the sources; "association edges
    without an end time are considered currently active", so the current
    rows are those of the record whose [time_to] is null. *)
Definition get_query_set (s : State) : list Edge :=
  filter (λ e, time_to e = None) (get_query_set_through s).

(** [ids_current]: the graph ids of the users whose key is among
    [get_query_set(only_pk=True).exclude(time_from=None)]. *)
Definition shares_ids_current (s : State) : list Z :=
  let pks := e_user <$> filter (λ e, time_from e ≠ None) (get_query_set s) in
  user_graph_id <$> filter (λ u, user_pk u ∈ pks) (users s).

Definition shares_ids_add (timestamps : gmap Z datetime) (ids_current : list Z) : gset Z :=
  dom timestamps ∖ list_to_set ids_current.

Definition shares_ids_remove (timestamps : gmap Z datetime) (ids_current : list Z) : gset Z :=
  list_to_set ids_current ∖ dom timestamps.

Definition fetch_shares_step (ids_add : gset Z) (post : Entry)
    (acc : list Z * list (Z * Z)) : M State (list Z * list (Z * Z)) :=
  let '(ids, ids_add_pairs) := acc in
  letM graph_id := post_graph_id post in
  letM from := post_from post in
  if decide (sorted_keys from = ["id"; "name"])
  then
    try_except
      (letM user := on_users (get_or_create_from_small_resource from) in
       let ids' := ids ++ [user_pk user] in
       if decide (graph_id ∈ ids_add ∧ graph_id ∉ ids_add_pairs.*1)
       then ret (ids', ids_add_pairs ++ [(graph_id, user_pk user)])
       else ret (ids', ids_add_pairs))
      (except_UnknownResourceType (ret (ids, ids_add_pairs)))
  else ret (ids, ids_add_pairs).

Fixpoint fetch_shares_loop (ids_add : gset Z) (posts : list Entry)
    (acc : list Z * list (Z * Z)) : M State (list Z * list (Z * Z)) :=
  match posts with
  | [] => ret acc
  | post :: rest =>
      letM acc' := fetch_shares_step ids_add post acc in
      fetch_shares_loop ids_add rest acc'
  end.

(** [get_share_date]. *)
Definition get_share_date (i : Instance) (timestamps : gmap Z datetime) (id : Z) : option datetime :=
  match timestamps !! id with
  | Some t => Some t
  | None => created_time i
  end.

(** The rows handed to [bulk_create]. *)
Definition new_share_edges (i : Instance) (timestamps : gmap Z datetime)
    (ids_add_pairs : list (Z * Z)) : list Edge :=
  map (λ pair, {| e_obj := pk i; e_user := pair.2;
                  time_from := get_share_date i timestamps pair.1;
                  time_to := None |}) ids_add_pairs.

(** The two [delete()] calls: which rows they remove. *)
Definition without_time_from (i : Instance) (e : Edge) : Prop :=
  e_obj e = pk i ∧ time_from e = None.

Definition of_added_user (i : Instance) (ids_add_pairs : list (Z * Z)) (e : Edge) : Prop :=
  e_obj e = pk i ∧ e_user e ∈ ids_add_pairs.*2.

(** The [if response:] block of [fetch_shares]. *)
Definition fetch_shares_reconcile (r : Response) : M State (list Z) :=
  let posts := filter has_from (data r) in
  letM pairs := timestamp_pairs posts in
  let timestamps := py_dict pairs in
  letM ids_current := gets shares_ids_current in
  let ids_add := shares_ids_add timestamps ids_current in
  let ids_remove := shares_ids_remove timestamps ids_current in
  letM acc := fetch_shares_loop ids_add posts ([], []) in
  let ids_add_pairs := acc.2 in
  letM me := gets self in
  modify (set_through (filter (λ e, ¬ without_time_from me e))) ;;;
  modify (set_through (filter (λ e, ¬ of_added_user me ids_add_pairs e))) ;;;
  modify (set_through (λ rows, rows ++ new_share_edges me timestamps ids_add_pairs)) ;;;
  ret acc.1.

(** The body of [fetch_shares], one page.  ([atomic] only decides what a
    raised exception leaves in the database.) *)
Definition fetch_shares (limit : Z) (kwargs : gmap string string)
    : M State (gset Z * option Response) :=
  letM path := gets (λ s, graph_id (self s) +:+ "/sharedposts") in
  let response := api_call path None None kwargs in
  letM ids := match response with
              | Some r => fetch_shares_reconcile r
              | None => ret []
              end in
  letM instances := User_objects_filter_pk_in ids in
  ret (instances, response).

(** ** The decorated methods *)

(** Modelled from the spec: [decorators.fetch_all] is not among the
    sources.  The remote interface is "a paginated HTTP API returning JSON
    collections, consumed page-by-page until exhausted": the decorated
    method is called for a page and its instances join those of the pages
    before; while the page names a following page the method is called
    again, with that cursor as the keyword argument [paging_next_arg_name];
    after the last page [return_all] receives the instances of all pages.
    [fuel] bounds the number of pages requested. *)
Fixpoint fetch_all (fuel : nat) (return_all : gset Z → M Instance (gset Z))
    (paging_next_arg_name : string)
    (func : gmap string string → M State (gset Z * option Response))
    (instances_all : gset Z) (kwargs : gmap string string) (s : State)
    : option (res (gset Z) * State) :=
  match fuel with
  | O => None
  | S fuel' =>
      match func kwargs s with
      | (Raise e, s') => Some (Raise e, s')
      | (Ok (instances, response), s') =>
          let instances_all' := instances_all ∪ instances in
          match response ≫= paging_after with
          | Some cursor =>
              fetch_all fuel' return_all paging_next_arg_name func instances_all'
                (<[paging_next_arg_name := cursor]> kwargs) s'
          | None => Some (on_self (return_all instances_all') s')
          end
      end
  end.

Definition fetch_likes_decorated (fuel : nat) (limit : Z) (kwargs : gmap string string)
    : State → option (res (gset Z) * State) :=
  fetch_all fuel update_count_and_get_like_users "after" (fetch_likes limit) ∅ kwargs.

Definition fetch_shares_decorated (fuel : nat) (limit : Z) (kwargs : gmap string string)
    : State → option (res (gset Z) * State) :=
  fetch_all fuel update_count_and_get_shares_users "after" (fetch_shares limit) ∅ kwargs.

End mixins.

(** ** A host and records for the examples *)

Definition digit_of (c : ascii) : option Z :=
  let n := nat_of_ascii c in
  if ((48 <=? n) && (n <=? 57))%nat then Some (Z.of_nat (n - 48)) else None.

Fixpoint parse_digits (s : string) (acc : Z) : option Z :=
  match s with
  | EmptyString => Some acc
  | String c s' =>
      match digit_of c with
      | Some d => parse_digits s' (10 * acc + d)
      | None => None
      end
  end.

(** A non-empty string of decimal digits, or [ValueError]. *)
Definition parse_decimal (s : string) : res Z :=
  match s with
  | EmptyString => Raise ValueError
  | _ => match parse_digits s 0 with
         | Some n => Ok n
         | None => Raise ValueError
         end
  end.

(** A remote made of stored pages: the page kept for a path and for the
    value of the [after] argument. *)
Definition api_of_pages (pages : list (string * option string * Response))
    (path : string) (version : option string) (limit : option Z)
    (kwargs : gmap string string) : option Response :=
  snd <$> List.find (λ p, bool_decide (p.1 = (path, kwargs !! "after"))) pages.

(** A resolver in the manner of [get_or_create]: a resource with a
    category, or without a decimal id, is not a user; otherwise the user
    with the resource's id is looked up, and inserted under the next free
    key when there is none. *)
Definition sample_resolver (d : gmap string string) : M (list User) User :=
  λ us,
    if decide (is_Some (d !! "category")) then (Raise UnknownResourceType, us)
    else
      match parse_decimal <$> d !! "id" with
      | Some (Ok g) =>
          match List.find (λ u, bool_decide (user_graph_id u = g)) us with
          | Some u => (Ok u, us)
          | None =>
              let u := {| user_pk := 1 + foldr Z.max 0 (user_pk <$> us);
                          user_graph_id := g |} in
              (Ok u, us ++ [u])
          end
      | _ => (Raise UnknownResourceType, us)
      end.

(** The framework's [Model.save] on the record in memory: it writes the
    row and leaves the attributes as they are. *)
Definition Model_save : M Instance unit := ret tt.

Definition sample_host (pages : list (string * option string * Response))
    (save : M Instance unit) : Host :=
  {| api_call := api_of_pages pages;
     datetime_parse := parse_decimal;
     py_int := parse_decimal;
     get_or_create_from_small_resource := sample_resolver;
     save := save;
     likable := true |}.

(** The same surroundings for a class that has [ReactionableModelMixin]
    and not [LikableModelMixin] among its bases. *)
Definition without_LikableModelMixin (h : Host) : Host :=
  {| api_call := @api_call h;
     datetime_parse := @datetime_parse h;
     py_int := @py_int h;
     get_or_create_from_small_resource := @get_or_create_from_small_resource h;
     save := @save h;
     likable := false |}.

Definition dict_of (l : list (string * string)) : gmap string string := list_to_map l.

Definition resource (l : list (string * string)) : Entry :=
  {| fields := dict_of l; entry_from := None |}.

Definition shared_post (l : list (string * string)) (from : list (string * string)) : Entry :=
  {| fields := dict_of l; entry_from := Some (dict_of from) |}.

Definition sample_record (counts : list (string * pyval)) : Instance :=
  {| pk := 7; graph_id := "40"; created_time := Some 1000;
     attrs := list_to_map counts; rels := ∅ |}.

Definition all_counts (v : pyval) : list (string * pyval) :=
  (λ name, (name, v)) <$>
    ["likes_count"; "shares_count"; "comments_count"; "actions_count"; "reactions_count";
     "loves_count"; "wows_count"; "hahas_count"; "sads_count"; "angrys_count";
     "thankfuls_count"].

Definition sample_user (pk g : Z) : User := {| user_pk := pk; user_graph_id := g |}.

Definition sample_edge (obj user : Z) (from to : option datetime) : Edge :=
  {| e_obj := obj; e_user := user; time_from := from; time_to := to |}.

(** Record 7 with its sharers on file: user 1 shared and has left, user 2
    shares now, user 3 has an edge without times, here and on record 8.
    Its [shares_count] is 5. *)
Definition shares_state : State :=
  {| self := sample_record (("shares_count", PyInt 5) :: all_counts PyNone);
     users := [sample_user 1 100; sample_user 2 200; sample_user 3 300];
     through := [sample_edge 7 1 (Some 10) (Some 20);
                 sample_edge 7 2 (Some 10) None;
                 sample_edge 7 3 None None;
                 sample_edge 8 3 None None] |}.

(** A page of shared posts: by user 100, by nobody, by page 900, and by
    user 100 again. *)
Definition shares_page : Response :=
  {| data := [shared_post [("created_time", "50")] [("id", "100"); ("name", "A")];
              resource [("created_time", "60")];
              shared_post [("created_time", "70")]
                          [("id", "900"); ("name", "P"); ("category", "X")];
              shared_post [("created_time", "80")] [("id", "100"); ("name", "A")]];
     paging_after := None |}.

Definition shares_host : Host :=
  sample_host [("40/sharedposts", None, shares_page)] Model_save.

(** A page whose only post names its author and has no [created_time]. *)
Definition undated_page : Response :=
  {| data := [shared_post [] [("id", "100"); ("name", "A")]];
     paging_after := None |}.

Definition undated_host : Host :=
  sample_host [("40/sharedposts", None, undated_page)] Model_save.

(** Two pages of likes and two pages of reactions, each first page
    naming the second by the cursor ["c1"]. *)
Definition likes_host : Host :=
  sample_host
    [("40/likes", None,
      {| data := [resource [("id", "100"); ("name", "A")];
                  resource [("id", "900"); ("name", "P"); ("category", "X")]];
         paging_after := Some "c1" |});
     ("40/likes", Some "c1",
      {| data := [resource [("id", "200"); ("name", "B")]];
         paging_after := None |})]
    Model_save.

Definition reactions_host : Host :=
  sample_host
    [("40/reactions", None,
      {| data := [resource [("id", "100"); ("name", "A"); ("type", "LOVE")];
                  resource [("id", "300"); ("name", "C")];
                  resource [("id", "400"); ("name", "D"); ("type", "PRIDE")];
                  resource [("id", "500"); ("name", "E"); ("type", "LIKE")]];
         paging_after := Some "c1" |});
     ("40/reactions", Some "c1",
      {| data := [resource [("id", "200"); ("name", "B"); ("type", "LOVE")]];
         paging_after := None |})]
    Model_save.

(** Record 7 before any fetch, with user 1 known. *)
Definition fresh_state : State :=
  {| self := sample_record (all_counts PyNone);
     users := [sample_user 1 100];
     through := [] |}.

(** ** Conditions the statements below refer to *)

(** The keys of the dictionary [fetch_reactions] builds. *)
Definition reaction_keys : list string :=
  ["LOVE"; "WOW"; "HAHA"; "SAD"; "ANGRY"; "THANKFUL"; "LIKE"].

(** The types a call with [reaction] keeps: all of them for [None], the
    ones that upper-case to [reaction.upper()] otherwise. *)
Definition reaction_selects (reaction : option string) (id_type : string) : Prop :=
  match reaction with
  | Some r => upper r = upper id_type
  | None => True
  end.

#[global] Instance reaction_selects_dec reaction id_type :
  Decision (reaction_selects reaction id_type).
Proof. destruct reaction; simpl; apply _. Defined.

(** A count read as a number, with missing and null read as zero. *)
Definition count_of (i : Instance) (name : string) : Z :=
  match attrs i !! name with
  | Some (PyInt n) => n
  | _ => 0
  end.

(** [i'] is [i] except, possibly, for [actions_count]. *)
Definition same_but_actions_count (i i' : Instance) : Prop :=
  pk i' = pk i ∧ graph_id i' = graph_id i ∧ created_time i' = created_time i ∧
  rels i' = rels i ∧
  ∀ name, name ≠ "actions_count" → attrs i' !! name = attrs i !! name.

(** The inherited [save] leaves the relations and every count other than
    [actions_count] as they are. *)
Definition save_keeps_counts `{Host} : Prop :=
  ∀ i, same_but_actions_count i (save i).2.

(** The pairs collected so far: graph ids of the addition set, each once. *)
Definition add_pairs_ok (ids_add : gset Z) (pairs : list (Z * Z)) : Prop :=
  (∀ g, g ∈ pairs.*1 → g ∈ ids_add) ∧ NoDup pairs.*1.

(** The resolver raises nothing but [UnknownResourceType]. *)
Definition resolver_raises_only_unknown `{Host} : Prop :=
  ∀ d us e us', get_or_create_from_small_resource d us = (Raise e, us') →
                e = UnknownResourceType.

(** The inherited [save] returns. *)
Definition save_returns `{Host} : Prop := ∀ i, (save i).1 = Ok tt.

(** The wrapped method [func], called for a page and again for each
    following page it names, yields these instances page by page. *)
Inductive consumes (func : gmap string string → M State (gset Z * option Response))
    (paging_next_arg_name : string)
    : gmap string string → State → list (gset Z) → State → Prop :=
| consumes_last kwargs s instances response s' :
    func kwargs s = (Ok (instances, response), s') →
    response ≫= paging_after = None →
    consumes func paging_next_arg_name kwargs s [instances] s'
| consumes_next kwargs s instances response cursor s1 rest s' :
    func kwargs s = (Ok (instances, response), s1) →
    response ≫= paging_after = Some cursor →
    consumes func paging_next_arg_name (<[paging_next_arg_name := cursor]> kwargs) s1 rest s' →
    consumes func paging_next_arg_name kwargs s (instances :: rest) s'.

(** ** The parse methods *)

(** [if old in response: response[new] = response.pop(old)]. *)
Definition rename_key {V} (old new : string) (response : gmap string V) : gmap string V :=
  match response !! old with
  | Some v => <[new := v]> (delete old response)
  | None => response
  end.

(** ['{0}_count'.format(reaction)]. *)
Definition remote_count_field (reaction : string) : string := reaction +:+ "_count".

(** The response is one dictionary shared by the caller and by every
    [parse] of the class: a [parse] is handed it, and returns it as it
    leaves it.  [super_parse] is the [parse] next in line. *)
Definition LikableModelMixin_parse {S V}
    (super_parse : gmap string V → M S (gmap string V))
    (response : gmap string V) : M S (gmap string V) :=
  super_parse (rename_key "like_count" "likes_count" response).

Definition ReactionableModelMixin_parse {S V}
    (super_parse : gmap string V → M S (gmap string V))
    (response : gmap string V) : M S (gmap string V) :=
  super_parse
    (foldl (λ response reaction,
              rename_key (remote_count_field reaction) (count_field reaction) response)
           response reaction_types).

(** What [AuthorableModelMixin.parse] works on: the record's [author]
    and [author_json], and the user table. *)
Record Authored := {
  author : option User;
  author_json : option (gmap string string);
  author_users : list User;
}.

Definition set_author (u : User) (a : Authored) : Authored :=
  {| author := Some u; author_json := author_json a; author_users := author_users a |}.

(** Run a query on the user table inside [parse]. *)
Definition on_author_users {A} (m : M (list User) A) : M Authored A :=
  λ a, let '(r, us) := m (author_users a) in
       (r, {| author := author a; author_json := author_json a; author_users := us |}).

Definition AuthorableModelMixin_parse `{Host} {V}
    (super_parse : gmap string V → M Authored (gmap string V))
    (response : gmap string V) : M Authored (gmap string V) :=
  letM response := super_parse (rename_key "from" "author_json" response) in
  letM author := gets author in
  letM author_json := gets author_json in
  match author, author_json with
  | None, Some resource =>
      if decide (resource ≠ ∅)
      then
        letM user := on_author_users (get_or_create_from_small_resource resource) in
        modify (set_author user) ;;;
        ret response
      else ret response
  | _, _ => ret response
  end.

(** ** More conditions the statements refer to *)

(** The sum [ActionableModelMixin.save] computes when every count it adds
    is a number. *)
Definition actions_total (i : Instance) : Z :=
  count_of i "likes_count" + count_of i "shares_count" + count_of i "comments_count"
  + foldr Z.add 0 (count_of i <$> (count_field <$> reaction_types)).

(** A count attribute that is present and a number. *)
Definition is_number (i : Instance) (name : string) : Prop :=
  ∃ n, attrs i !! name = Some (PyInt n).

(** The count and the relation that the counting method of a type
    writes: [likes_count] and [likes_users] for ['LIKE'], the count and
    the users of the reaction otherwise. *)
Definition type_count_field (id_type : string) : string :=
  if decide (lower id_type = "like") then "likes_count" else count_field (lower id_type).

Definition type_users_field (id_type : string) : string :=
  if decide (lower id_type = "like") then "likes_users" else users_field (lower id_type).

(** The resources of a page that [fetch_reactions] hands to the
    resolver: all of them without a reaction, those of the reaction's
    type with one. *)
Definition reaction_resources (reaction : option string) (resources : list Entry)
    : list Entry :=
  match reaction with
  | Some r => filter (λ e, fields e !! "type" = Some (upper r)) resources
  | None => resources
  end.

(** The user table after the resolver has been handed these resources
    one after the other, whatever it answered. *)
Definition resolved_table `{Host} (resources : list Entry) (us : list User) : list User :=
  foldl (λ us resource, (get_or_create_from_small_resource (fields resource) us).2)
        us resources.

(** What [reaction] asks of the type of a resource. *)
Definition reaction_is (reaction : option string) (type : string) : Prop :=
  match reaction with
  | Some r => upper r = type
  | None => True
  end.

(** The resolver only adds to the user table, and the user it returns is
    in the table it leaves. *)
Definition resolver_keeps_users `{Host} : Prop :=
  ∀ d us r us', get_or_create_from_small_resource d us = (r, us') →
                (∀ u, u ∈ us → u ∈ us') ∧ (∀ u, r = Ok u → u ∈ us').

(** * Properties *)

Ltac vm_decide :=
  match goal with
  | |- ?P => apply (bool_decide_unpack P); vm_compute; exact I
  end.

Ltac munfold :=
  unfold bind, ret, raise, gets, modify, lift_res, try_except, getitem,
    setattr, getattr, getattr_default, setrel, on_self, on_users in *.

(** ** ActionableModelMixin.save *)

Lemma same_but_actions_count_refl i : same_but_actions_count i i.
Proof. by repeat split. Qed.

Lemma same_but_actions_count_trans i j k :
  same_but_actions_count i j → same_but_actions_count j k → same_but_actions_count i k.
Proof.
  intros (?&?&?&?&Hij) (?&?&?&?&Hjk). repeat split; try congruence.
  intros name Hn. rewrite Hjk, Hij; done.
Qed.

Lemma same_but_actions_count_set i v :
  same_but_actions_count i (set_attrs <["actions_count" := v]> i).
Proof.
  repeat split; try done. intros name Hn. simpl. by rewrite lookup_insert_ne.
Qed.

Lemma guarded_count i field :
  py_or (default PyNone (attrs i !! field)) (PyInt 0) = PyInt (count_of i field).
Proof.
  unfold count_of, py_or. destruct (attrs i !! field) as [[|n]|]; simpl; try done.
  destruct (Z.eqb_spec n 0); simpl; congruence.
Qed.

Lemma count_field_not_actions r : r ∈ reaction_types → count_field r ≠ "actions_count".
Proof.
  unfold reaction_types. rewrite !elem_of_cons, elem_of_nil.
  intros H; destruct_or!; subst; try done; compute; discriminate.
Qed.

Lemma add_reaction_count_ok i r acc n :
  attrs i !! "actions_count" = Some (PyInt acc) →
  attrs i !! count_field r = Some (PyInt n) →
  add_reaction_count r i = (Ok tt, set_attrs <["actions_count" := PyInt (acc + n)]> i).
Proof.
  intros Ha Hr. unfold add_reaction_count. munfold. rewrite Ha. simpl.
  by rewrite Hr.
Qed.

Lemma add_reaction_count_null i r acc :
  attrs i !! "actions_count" = Some (PyInt acc) →
  (¬ ∃ n, attrs i !! count_field r = Some (PyInt n)) →
  add_reaction_count r i = (Raise TypeError, i).
Proof.
  intros Ha Hr. unfold add_reaction_count. munfold. rewrite Ha. simpl.
  destruct (attrs i !! count_field r) as [[|n]|]; simpl; try done.
  destruct Hr. eauto.
Qed.

(** The loop over the reaction types: it ends normally exactly when every
    count it reads is a number, and then has added them all. *)
Lemma add_reaction_counts names : ∀ i acc,
  attrs i !! "actions_count" = Some (PyInt acc) →
  (∀ r, r ∈ names → count_field r ≠ "actions_count") →
  (Forall (λ r, ∃ n, attrs i !! count_field r = Some (PyInt n)) names ∧
   ∃ i', for_each names add_reaction_count i = (Ok tt, i') ∧
         same_but_actions_count i i' ∧
         attrs i' !! "actions_count"
         = Some (PyInt (acc + foldr Z.add 0 (count_of i <$> (count_field <$> names)))))
  ∨ (Exists (λ r, ¬ ∃ n, attrs i !! count_field r = Some (PyInt n)) names ∧
     ∃ i', for_each names add_reaction_count i = (Raise TypeError, i')).
Proof.
  induction names as [|r names IH]; intros i acc Ha Hne.
  - left. split; [constructor|]. exists i. simpl. unfold ret.
    split_and!; [done|apply same_but_actions_count_refl|].
    rewrite Ha. do 2 f_equal. lia.
  - destruct (attrs i !! count_field r) as [[|n]|] eqn:Hr.
    + right. split; [left; rewrite Hr; by intros [? ?]|].
      exists i. simpl. unfold bind at 1.
      rewrite (add_reaction_count_null i r acc); [done|done|rewrite Hr; by intros [? ?]].
    + set (j := set_attrs <["actions_count" := PyInt (acc + n)]> i).
      assert (Hj : same_but_actions_count i j) by apply same_but_actions_count_set.
      assert (Hstep : for_each (r :: names) add_reaction_count i
                      = for_each names add_reaction_count j).
      { simpl. unfold bind at 1. by rewrite (add_reaction_count_ok i r acc n). }
      assert (Hsame : ∀ r', r' ∈ names → attrs j !! count_field r' = attrs i !! count_field r').
      { intros r' Hr'. destruct Hj as (_&_&_&_&Hj). apply Hj, Hne. by right. }
      destruct (IH j (acc + n)) as [[Hall (i'&Hrun&Hi'&Hv)]|[Hex (i'&Hrun)]].
      * subst j. simpl. by rewrite lookup_insert_eq.
      * intros r' Hr'. apply Hne. by right.
      * left. split.
        -- constructor; [eauto|]. rewrite Forall_forall in Hall |- *.
           intros r' Hr'. rewrite <- Hsame by done. by apply Hall.
        -- exists i'. rewrite Hstep. split_and!;
             [done|by eapply same_but_actions_count_trans|].
           rewrite Hv. do 2 f_equal. rewrite !fmap_cons. cbn [foldr].
           assert (count_of i (count_field r) = n) as -> by (unfold count_of; by rewrite Hr).
           assert (count_of j <$> (count_field <$> names)
                   = count_of i <$> (count_field <$> names)) as ->; [|lia].
           rewrite <- !list_fmap_compose. apply Forall_fmap_ext, Forall_forall.
           intros r' Hr'. simpl. unfold count_of. by rewrite Hsame.
      * right. split.
        -- right. rewrite Exists_exists in Hex |- *.
           destruct Hex as (r'&Hr'&Hbad). exists r'. split; [done|].
           by rewrite <- Hsame.
        -- exists i'. by rewrite Hstep.
    + right. split; [left; rewrite Hr; by intros [? ?]|].
      exists i. simpl. unfold bind at 1.
      rewrite (add_reaction_count_null i r acc); [done|done|rewrite Hr; by intros [? ?]].
Qed.

Lemma ActionableModelMixin_save_unfold i :
  ActionableModelMixin_save i
  = for_each reaction_types add_reaction_count
      (set_attrs <["actions_count" :=
         PyInt (count_of i "likes_count" + count_of i "shares_count"
                + count_of i "comments_count")]> i).
Proof.
  unfold ActionableModelMixin_save. munfold. simpl.
  rewrite !guarded_count. simpl. by rewrite Z.add_0_l.
Qed.

(** C10: [ActionableModelMixin.save] reads a missing or null
    [likes_count], [shares_count] or [comments_count] as zero and adds the
    six reaction counts unguarded: it returns exactly when each of the six
    is present and a number, its result is then the sum of all nine, and
    otherwise it raises [TypeError]. *)
Theorem ActionableModelMixin_save_completes (i : Instance) :
  ((∃ i', ActionableModelMixin_save i = (Ok tt, i'))
   ↔ ∀ r, r ∈ reaction_types → ∃ n, attrs i !! count_field r = Some (PyInt n))
  ∧ (∀ r i', ActionableModelMixin_save i = (r, i') → r = Ok tt ∨ r = Raise TypeError)
  ∧ (∀ i', ActionableModelMixin_save i = (Ok tt, i') →
       attrs i' !! "actions_count"
       = Some (PyInt (count_of i "likes_count" + count_of i "shares_count"
                      + count_of i "comments_count"
                      + (count_of i "loves_count" + count_of i "wows_count"
                         + count_of i "hahas_count" + count_of i "sads_count"
                         + count_of i "angrys_count" + count_of i "thankfuls_count")))).
Proof.
  rewrite ActionableModelMixin_save_unfold.
  set (base := count_of i "likes_count" + count_of i "shares_count"
               + count_of i "comments_count").
  set (j := set_attrs <["actions_count" := PyInt base]> i).
  assert (Hj : same_but_actions_count i j) by apply same_but_actions_count_set.
  assert (Hsame : ∀ r, r ∈ reaction_types →
                       attrs j !! count_field r = attrs i !! count_field r).
  { intros r Hr. destruct Hj as (_&_&_&_&Hj). by apply Hj, count_field_not_actions. }
  destruct (add_reaction_counts reaction_types j base)
    as [[Hall (i'&Hrun&_&Hv)]|[Hex (i'&Hrun)]].
  - subst j. simpl. by rewrite lookup_insert_eq.
  - apply count_field_not_actions.
  - rewrite Hrun. split_and!.
    + split; [|eauto]. intros _ r Hr. rewrite Forall_forall in Hall.
      rewrite <- Hsame by done. by apply Hall.
    + intros ? ? [= <- <-]. by left.
    + intros ? [= <-]. rewrite Hv. do 2 f_equal.
      assert (∀ r, r ∈ reaction_types →
                   count_of j (count_field r) = count_of i (count_field r)) as Hc.
      { intros r Hr. unfold count_of. by rewrite Hsame. }
      cbn [fmap list_fmap reaction_types foldr].
      rewrite !Hc by (unfold reaction_types; set_solver).
      unfold count_field. cbv [String.app]. lia.
  - rewrite Hrun. split_and!.
    + split; [by intros (?&[=])|]. intros Hall. exfalso.
      rewrite Exists_exists in Hex. destruct Hex as (r&Hr&Hbad).
      apply Hbad. rewrite Hsame by done. by apply Hall.
    + intros ? ? [= <- <-]. by right.
    + by intros ? [=].
Qed.

(** [ActionableModelMixin.save] touches nothing but [actions_count],
    whether it returns or raises. *)
Lemma add_reaction_count_frame r i :
  same_but_actions_count i (add_reaction_count r i).2.
Proof.
  unfold add_reaction_count. munfold.
  destruct (attrs i !! "actions_count") as [cur|]; simpl;
    [|apply same_but_actions_count_refl].
  destruct (py_add cur _); simpl;
    auto using same_but_actions_count_refl, same_but_actions_count_set.
Qed.

Lemma add_reaction_counts_frame names : ∀ i,
  same_but_actions_count i (for_each names add_reaction_count i).2.
Proof.
  induction names as [|r names IH]; intros i; [apply same_but_actions_count_refl|].
  simpl. unfold bind at 1.
  pose proof (add_reaction_count_frame r i) as Hj.
  destruct (add_reaction_count r i) as [[[]|e] j]; simpl in *; [|done].
  eapply same_but_actions_count_trans; [exact Hj|apply IH].
Qed.

Lemma ActionableModelMixin_save_frame i :
  same_but_actions_count i (ActionableModelMixin_save i).2.
Proof.
  rewrite ActionableModelMixin_save_unfold.
  eapply same_but_actions_count_trans;
    [apply same_but_actions_count_set|apply add_reaction_counts_frame].
Qed.

(** ** count_reactions *)

Section count_reactions.
Context `{Host}.

(** C5, as the code has it: when the six reaction counts and the likes
    count are all numbers, [count_reactions] sets [reactions_count] to
    their sum and then saves the record. *)
Theorem count_reactions_sum (i : Instance) (love wow haha sad angry thankful like : Z) :
  attrs i !! "loves_count" = Some (PyInt love) →
  attrs i !! "wows_count" = Some (PyInt wow) →
  attrs i !! "hahas_count" = Some (PyInt haha) →
  attrs i !! "sads_count" = Some (PyInt sad) →
  attrs i !! "angrys_count" = Some (PyInt angry) →
  attrs i !! "thankfuls_count" = Some (PyInt thankful) →
  attrs i !! "likes_count" = Some (PyInt like) →
  count_reactions i
  = save (set_attrs <["reactions_count" :=
            PyInt (love + wow + haha + sad + angry + thankful + like)]> i).
Proof.
  intros H1 H2 H3 H4 H5 H6 H7.
  unfold count_reactions, reaction_types. cbn [app count_reactions_loop].
  unfold count_field. cbv [String.app]. munfold.
  rewrite H1; cbn. rewrite H2; cbn. rewrite H3; cbn. rewrite H4; cbn.
  rewrite H5; cbn. rewrite H6; cbn. rewrite H7; cbn.
  destruct (save _) as [[[]|e] i'] eqn:Hs; rewrite <- Hs; reflexivity.
Qed.

End count_reactions.

(** A record that meets the hypotheses: its seven counts are 2. *)
Lemma count_reactions_sum_witness :
  count_reactions (H := sample_host [] Model_save) (sample_record (all_counts (PyInt 2)))
  = (Ok tt, set_attrs <["reactions_count" := PyInt 14]>
              (sample_record (all_counts (PyInt 2)))).
Proof.
  exact (count_reactions_sum (H := sample_host [] Model_save)
           (sample_record (all_counts (PyInt 2))) 2 2 2 2 2 2 2
           eq_refl eq_refl eq_refl eq_refl eq_refl eq_refl eq_refl).
Defined.

(** C5, as stated, fails on a record whose [likes_count] is null: the
    loop raises [TypeError] at that count, [reactions_count] is not set
    and the record is not saved. *)
Lemma count_reactions_null_count :
  let i := sample_record (("likes_count", PyNone) :: all_counts (PyInt 2)) in
  count_reactions (H := sample_host [] Model_save) i = (Raise TypeError, i)
  ∧ attrs i !! "reactions_count" = Some (PyInt 2).
Proof. split; vm_compute; reflexivity. Qed.

(** ** Counts and user sets *)

Lemma Model_save_keeps_counts pages :
  save_keeps_counts (H := sample_host pages Model_save).
Proof. intros i. apply same_but_actions_count_refl. Qed.

Lemma ActionableModelMixin_save_keeps_counts pages :
  save_keeps_counts (H := sample_host pages ActionableModelMixin_save).
Proof. intros i. apply ActionableModelMixin_save_frame. Qed.

Section update_count.
Context `{Host}.

(** Assign the relation, assign the count, save, return the instances. *)
Lemma update_count_and_get_reaction_users_unfold r instances i :
  update_count_and_get_reaction_users r instances i
  = (letM _ := save in ret instances)
      (set_attrs <[count_field r := queryset_count instances]>
         (set_rels <[users_field r := instances]> i)).
Proof. reflexivity. Qed.

Lemma update_count_and_get_like_users_unfold instances i :
  update_count_and_get_like_users instances i
  = (letM _ := save in ret instances)
      (set_attrs <["likes_count" := queryset_count instances]>
         (set_rels <["likes_users" := instances]> i)).
Proof. reflexivity. Qed.

Lemma saved_count_and_users (count_name users_name : string) instances i q i' :
  save_keeps_counts →
  count_name ≠ "actions_count" →
  (letM _ := save in ret instances)
    (set_attrs <[count_name := queryset_count instances]>
       (set_rels <[users_name := instances]> i)) = (Ok q, i') →
  q = instances ∧
  rels i' !! users_name = Some instances ∧
  attrs i' !! count_name = Some (PyInt (Z.of_nat (size instances))).
Proof.
  intros Hkeep Hne. munfold.
  set (j := set_attrs _ _).
  specialize (Hkeep j). destruct (save j) as [[[]|e] k]; simpl in *; [|done].
  intros [= <- <-]. destruct Hkeep as (_&_&_&Hrels&Hattrs).
  split_and!; [done|..].
  - rewrite Hrels. subst j. simpl. by rewrite lookup_insert_eq.
  - rewrite Hattrs by done. subst j. simpl. by rewrite lookup_insert_eq.
Qed.

(** C3, as the code has it: after the routine of likes and of each of the
    six reaction types the count equals the cardinality of the relation's
    user set; the routine of shares assigns no relation, leaves a
    [shares_count] that is a number as it is, and sets a null one to the
    number of fetched users. *)
Theorem update_count_mirrors_users (instances q : gset Z) (i i' : Instance) :
  save_keeps_counts →
  (update_count_and_get_like_users instances i = (Ok q, i') →
     q = instances ∧
     rels i' !! "likes_users" = Some instances ∧
     attrs i' !! "likes_count" = Some (PyInt (Z.of_nat (size instances))))
  ∧ (∀ r, r ∈ reaction_types →
       update_count_and_get_reaction_users r instances i = (Ok q, i') →
       q = instances ∧
       rels i' !! users_field r = Some instances ∧
       attrs i' !! count_field r = Some (PyInt (Z.of_nat (size instances))))
  ∧ (∀ n, attrs i !! "shares_count" = Some (PyInt n) →
       update_count_and_get_shares_users instances i = (Ok instances, i))
  ∧ (attrs i !! "shares_count" = Some PyNone →
       update_count_and_get_shares_users instances i = (Ok q, i') →
       q = instances ∧ rels i' = rels i ∧
       attrs i' !! "shares_count" = Some (PyInt (Z.of_nat (size instances)))).
Proof.
  intros Hkeep. split_and!.
  - rewrite update_count_and_get_like_users_unfold.
    by apply saved_count_and_users.
  - intros r Hr. rewrite update_count_and_get_reaction_users_unfold.
    apply saved_count_and_users; [done|by apply count_field_not_actions].
  - intros n Hn. unfold update_count_and_get_shares_users. munfold.
    rewrite Hn. by destruct (decide _).
  - intros Hnull. unfold update_count_and_get_shares_users. munfold.
    rewrite Hnull. destruct (decide _) as [_|Hno]; [|done]. simpl.
    set (j := set_attrs _ i).
    specialize (Hkeep j). destruct (save j) as [[[]|e] k]; simpl in *; [|done].
    intros [= <- <-]. destruct Hkeep as (_&_&_&Hrels&Hattrs).
    split_and!; [done|by rewrite Hrels|].
    rewrite Hattrs by done. subst j. simpl. by rewrite lookup_insert_eq.
Qed.

End update_count.

(** A run that meets the hypothesis: two users assigned as the likes of
    a record saved by the framework. *)
Lemma update_count_mirrors_users_witness :
  let i := sample_record (all_counts PyNone) in
  let out := update_count_and_get_like_users (H := sample_host [] Model_save) {[1; 2]} i in
  out.1 = Ok {[1; 2]} ∧
  rels out.2 !! "likes_users" = Some {[1; 2]} ∧
  attrs out.2 !! "likes_count" = Some (PyInt 2).
Proof.
  intros i out.
  destruct (proj1 (update_count_mirrors_users (H := sample_host [] Model_save)
                     {[1; 2]} {[1; 2]} i out.2 (Model_save_keeps_counts []))
              eq_refl) as (_ & Hrel & Hcount).
  split; [reflexivity|]. split; [exact Hrel|exact Hcount].
Defined.

(** ** The current set of a share reconciliation *)

Lemma get_query_set_elem (s : State) (e : Edge) :
  e ∈ get_query_set s ↔ e ∈ through s ∧ e_obj e = pk (self s) ∧ time_to e = None.
Proof.
  unfold get_query_set, get_query_set_through.
  rewrite !list_elem_of_filter. tauto.
Qed.

(** C7, as the code has it: the current set of the reconciliation holds
    the graph ids of the users with an edge of the record that has no end
    time and has a start time. *)
Theorem shares_ids_current_spec (s : State) (g : Z) :
  g ∈ shares_ids_current s
  ↔ ∃ u e, u ∈ users s ∧ user_graph_id u = g ∧
           e ∈ through s ∧ e_obj e = pk (self s) ∧ e_user e = user_pk u ∧
           time_to e = None ∧ time_from e ≠ None.
Proof.
  unfold shares_ids_current. rewrite list_elem_of_fmap. split.
  - intros (u & -> & Hu). apply list_elem_of_filter in Hu as [Hpk Hu].
    apply list_elem_of_fmap in Hpk as (e & Hpk & He).
    apply list_elem_of_filter in He as [Hfrom He].
    apply get_query_set_elem in He as (He & Hobj & Hto).
    exists u, e. by split_and!.
  - intros (u & e & Hu & <- & He & Hobj & Hpk & Hto & Hfrom).
    exists u. split; [done|]. apply list_elem_of_filter. split; [|done].
    apply list_elem_of_fmap. exists e. split; [done|].
    apply list_elem_of_filter. split; [done|].
    apply get_query_set_elem. by split_and!.
Qed.

(** C7, as stated, fails on an edge with neither end nor start time: it
    is among the active rows of the record, and its user is not in the
    current set. *)
Lemma shares_ids_current_skips_unstamped :
  let s := {| self := sample_record (all_counts PyNone);
              users := [sample_user 3 300];
              through := [sample_edge 7 3 None None] |} in
  sample_edge 7 3 None None ∈ get_query_set s
  ∧ time_to (sample_edge 7 3 None None) = None
  ∧ shares_ids_current s = [].
Proof. split_and!; [apply get_query_set_elem; by split_and!; [left|..]|done..]. Qed.

(** ** The share reconciliation, step by step *)

Section fetch_shares_steps.
Context `{Host}.

(** Building the timestamps reads the page only. *)
Lemma post_graph_id_pure {S} post (s : S) : (post_graph_id post s).2 = s.
Proof.
  unfold post_graph_id, post_from. munfold.
  destruct (entry_from post) as [from|]; simpl; [|done].
  destruct (from !! "id") as [id|]; simpl; [|done].
  by destruct (py_int id).
Qed.

Lemma timestamp_pairs_pure {S} posts (s : S) : (timestamp_pairs posts s).2 = s.
Proof.
  induction posts as [|post posts IH]; [done|]. simpl. unfold bind at 1.
  pose proof (post_graph_id_pure post s) as Hg.
  destruct (post_graph_id post s) as [[g|e] s0]; simpl in *; subst s0; [|done].
  munfold. destruct (fields post !! "created_time") as [created|]; simpl; [|done].
  destruct (datetime_parse created) as [t|e]; simpl; [|done].
  destruct (timestamp_pairs posts s) as [[pairs|e] s0]; simpl in *; by subst s0.
Qed.

(** One iteration of the loop over the posts, by cases. *)
Lemma fetch_shares_step_Ok ids_add post ids pairs s ids' pairs' s' :
  fetch_shares_step ids_add post (ids, pairs) s = (Ok (ids', pairs'), s') →
  ∃ from g,
    entry_from post = Some from ∧ post_graph_id post s = (Ok g, s) ∧
    ((sorted_keys from ≠ ["id"; "name"] ∧ ids' = ids ∧ pairs' = pairs ∧ s' = s)
     ∨ (sorted_keys from = ["id"; "name"] ∧
        ∃ us, get_or_create_from_small_resource from (users s)
              = (Raise UnknownResourceType, us) ∧
              ids' = ids ∧ pairs' = pairs ∧ s' = set_users (λ _, us) s)
     ∨ (sorted_keys from = ["id"; "name"] ∧
        ∃ u us, get_or_create_from_small_resource from (users s) = (Ok u, us) ∧
                s' = set_users (λ _, us) s ∧ ids' = ids ++ [user_pk u] ∧
                ((g ∈ ids_add ∧ (g ∉ pairs.*1) ∧ pairs' = pairs ++ [(g, user_pk u)])
                 ∨ (¬ (g ∈ ids_add ∧ g ∉ pairs.*1) ∧ pairs' = pairs)))).
Proof.
  unfold fetch_shares_step. unfold bind at 1.
  pose proof (post_graph_id_pure post s) as Hpure.
  destruct (post_graph_id post s) as [[g|e] s0] eqn:Hg; simpl in Hpure; subst s0; [|done].
  assert (∃ from, entry_from post = Some from) as [from Hfrom].
  { revert Hg. unfold post_graph_id, post_from. munfold.
    destruct (entry_from post); [eauto|done]. }
  unfold post_from. rewrite Hfrom. munfold.
  intros Hrun. exists from, g. split_and!; [done..|].
  destruct (decide (sorted_keys from = ["id"; "name"])) as [Hkeys|Hkeys].
  - right. simpl in Hrun.
    destruct (get_or_create_from_small_resource from (users s)) as [[u|e] us] eqn:Hu;
      simpl in Hrun.
    + right. split; [done|]. exists u, us.
      destruct (decide (g ∈ ids_add ∧ g ∉ pairs.*1)) as [[? ?]|Hno];
        simplify_eq; split_and!; try done; [left|right]; done.
    + left. split; [done|]. exists us.
      destruct e; simplify_eq/=. done.
  - left. by simplify_eq.
Qed.

Lemma fetch_shares_loop_cons ids_add post posts acc s :
  fetch_shares_loop ids_add (post :: posts) acc s
  = match fetch_shares_step ids_add post acc s with
    | (Ok acc', s') => fetch_shares_loop ids_add posts acc' s'
    | (Raise e, s') => (Raise e, s')
    end.
Proof. reflexivity. Qed.

(** The loop leaves the record and the through table alone. *)
Lemma fetch_shares_loop_frame ids_add posts : ∀ acc s acc' s',
  fetch_shares_loop ids_add posts acc s = (Ok acc', s') →
  self s' = self s ∧ through s' = through s.
Proof.
  induction posts as [|post posts IH]; intros [ids pairs] s [ids' pairs'] s' Hrun.
  - simpl in Hrun. unfold ret in Hrun. by simplify_eq.
  - rewrite fetch_shares_loop_cons in Hrun.
    destruct (fetch_shares_step ids_add post (ids, pairs) s) as [[[ids1 pairs1]|e] s1] eqn:Hstep;
      simpl in Hrun; [|done].
    apply IH in Hrun as [-> ->].
    apply fetch_shares_step_Ok in Hstep as (from & g & _ & _ & Hcases).
    destruct Hcases as [(_&_&_&->)|[(_&us&_&_&_&->)|(_&u&us&_&->&_)]]; done.
Qed.

Lemma fetch_shares_step_pairs ids_add post ids pairs s ids' pairs' s' :
  fetch_shares_step ids_add post (ids, pairs) s = (Ok (ids', pairs'), s') →
  add_pairs_ok ids_add pairs →
  add_pairs_ok ids_add pairs' ∧ (pairs `prefix_of` pairs').
Proof.
  intros Hstep [Hsub Hnodup].
  apply fetch_shares_step_Ok in Hstep as (from & g & _ & _ & Hcases).
  destruct Hcases as [(_&_&->&_)|[(_&us&_&_&->&_)|(_&u&us&_&_&_&Hpairs)]];
    try done.
  destruct Hpairs as [(Hin & Hnew & ->)|(_ & ->)]; [|done].
  split; [|by apply prefix_app_r].
  split.
  - intros g'. rewrite fmap_app, elem_of_app. simpl.
    rewrite list_elem_of_singleton. intros [?| ->]; auto.
  - rewrite fmap_app. apply NoDup_app. split_and!; [done| |apply NoDup_singleton].
    simpl. intros g' Hg' ->%list_elem_of_singleton. done.
Qed.

Lemma fetch_shares_loop_pairs ids_add posts : ∀ ids pairs s ids' pairs' s',
  fetch_shares_loop ids_add posts (ids, pairs) s = (Ok (ids', pairs'), s') →
  add_pairs_ok ids_add pairs →
  add_pairs_ok ids_add pairs' ∧ (pairs `prefix_of` pairs').
Proof.
  induction posts as [|post posts IH]; intros ids pairs s ids' pairs' s' Hrun Hok.
  - simpl in Hrun. unfold ret in Hrun. by simplify_eq.
  - rewrite fetch_shares_loop_cons in Hrun.
    destruct (fetch_shares_step ids_add post (ids, pairs) s) as [[[ids1 pairs1]|e] s1] eqn:Hstep;
      simpl in Hrun; [|done].
    apply fetch_shares_step_pairs in Hstep as [Hok1 Hpre1]; [|done].
    apply IH in Hrun as [Hok' Hpre']; [|done].
    split; [done|by etrans].
Qed.



End fetch_shares_steps.

(** ** The timestamp map *)



Lemma py_dict_from_lookup (pairs : list (Z * datetime)) : ∀ (acc : gmap Z datetime) g t,
  foldl (λ d kv, <[kv.1 := kv.2]> d) acc pairs !! g = Some t →
  acc !! g = Some t ∨ (g, t) ∈ pairs.
Proof.
  induction pairs as [|[g' t'] pairs IH]; intros acc g t; simpl; [auto|].
  intros [Hacc|Hin]%IH; [|right; by right].
  destruct (decide (g' = g)) as [->|Hne].
  - rewrite lookup_insert_eq in Hacc. simplify_eq. right. by left.
  - rewrite lookup_insert_ne in Hacc by done. by left.
Qed.

Lemma py_dict_lookup (pairs : list (Z * datetime)) g t :
  py_dict pairs !! g = Some t → (g, t) ∈ pairs.
Proof. intros [Hempty|?]%py_dict_from_lookup; [|done]. by rewrite lookup_empty in Hempty. Qed.

Section timestamps.
Context `{Host}.

(** Each pair is the graph id and the parsed creation time of its post. *)
Lemma timestamp_pairs_Ok {S} posts : ∀ (s : S) pairs s',
  timestamp_pairs posts s = (Ok pairs, s') →
  Forall2 (λ post pair,
             (post_graph_id post s).1 = Ok pair.1 ∧
             ∃ created, fields post !! "created_time" = Some created ∧
                        datetime_parse created = Ok pair.2) posts pairs.
Proof.
  induction posts as [|post posts IH]; intros s pairs s'.
  - simpl. unfold ret. intros [= <- <-]. constructor.
  - simpl. unfold bind at 1.
    pose proof (post_graph_id_pure post s) as Hpure.
    destruct (post_graph_id post s) as [[g|e] s0] eqn:Hg; simpl in Hpure; subst s0; [|done].
    munfold. destruct (fields post !! "created_time") as [created|] eqn:Hc; simpl; [|done].
    destruct (datetime_parse created) as [t|e] eqn:Ht; simpl; [|done].
    destruct (timestamp_pairs posts s) as [[rest|e] s0] eqn:Hrest; simpl; [|done].
    intros [= <- <-]. constructor; [|by eapply IH].
    simpl. rewrite Hg. eauto.
Qed.



End timestamps.

(** ** The share reconciliation: what one run does *)

Section reconcile.
Context `{Host}.
Variables (r : Response) (s s1 : State).
Variables (pairs : list (Z * datetime)) (ids : list Z) (ids_add_pairs : list (Z * Z)).

Local Abbreviation posts := (filter has_from (data r)).
Local Abbreviation timestamps := (py_dict pairs).
Local Abbreviation ids_current := (shares_ids_current s).
Local Abbreviation ids_add := (shares_ids_add timestamps ids_current).
Local Abbreviation ids_remove := (shares_ids_remove timestamps ids_current).

(** The two phases of a run that may raise: building the timestamps,
    and the loop over the posts. *)
Hypothesis Hstamps : timestamp_pairs posts s = (Ok pairs, s).
Hypothesis Hloop : fetch_shares_loop ids_add posts ([], []) s = (Ok (ids, ids_add_pairs), s1).

(** When they return, so does the run; this is what it leaves. *)
Lemma fetch_shares_reconcile_run :
  fetch_shares_reconcile r s
  = (Ok ids,
     {| self := self s; users := users s1;
        through :=
          filter (λ e, ¬ of_added_user (self s) ids_add_pairs e)
            (filter (λ e, ¬ without_time_from (self s) e) (through s))
          ++ new_share_edges (self s) timestamps ids_add_pairs |}).
Proof using Hstamps Hloop.
  destruct (fetch_shares_loop_frame _ _ _ _ _ _ Hloop) as [Hself Hthrough].
  unfold fetch_shares_reconcile. unfold bind at 1.
  rewrite Hstamps.
  unfold bind at 1, gets at 1.
  unfold bind at 1. rewrite Hloop. munfold. unfold set_through. simpl.
  by rewrite Hself, Hthrough.
Qed.

Lemma ids_add_pairs_ok : add_pairs_ok ids_add ids_add_pairs.
Proof using Hloop.
  eapply fetch_shares_loop_pairs; [exact Hloop|].
  split; [intros g Hg; by apply elem_of_nil in Hg|constructor].
Qed.

Lemma ids_add_stamped g : g ∈ ids_add → ∃ t, timestamps !! g = Some t.
Proof.
  unfold shares_ids_add. intros [Hg _]%elem_of_difference.
  by apply elem_of_dom in Hg.
Qed.

Lemma new_share_edge_elem e :
  e ∈ new_share_edges (self s) timestamps ids_add_pairs
  ↔ ∃ g p, (g, p) ∈ ids_add_pairs ∧
           e = {| e_obj := pk (self s); e_user := p;
                  time_from := get_share_date (self s) timestamps g;
                  time_to := None |}.
Proof.
  unfold new_share_edges.
  change (map ?f ?l) with (f <$> l). rewrite list_elem_of_fmap. split.
  - intros ([g p] & -> & Hin). by exists g, p.
  - intros (g & p & Hin & ->). by exists (g, p).
Qed.



(** C2, as the code has it: the run deletes the rows of the record
    without a start time and the rows of the record whose user is added
    in this run, whatever their times, and no other row; the new rows,
    one for each collected pair, stamped and without end, come after the
    rows that are left.  So a row with a start time is kept, or it is a
    row of the record whose user is added in this run and a new row of
    that user takes its place; the rows of other records stay; no row of
    the record is left without a start time. *)
Theorem fetch_shares_keeps_or_replaces :
  let after := (fetch_shares_reconcile r s).2 in
  (∃ created,
     through after
     = filter (λ e, ¬ (e_obj e = pk (self s) ∧
                       (time_from e = None ∨ e_user e ∈ ids_add_pairs.*2)))
         (through s)
       ++ created
     ∧ ∀ e, e ∈ created ↔
            ∃ g p t, (g, p) ∈ ids_add_pairs ∧ timestamps !! g = Some t ∧
                     e = {| e_obj := pk (self s); e_user := p;
                            time_from := Some t; time_to := None |})
  ∧ (∀ e, e ∈ through s → time_from e ≠ None →
       e ∈ through after
       ∨ (e_obj e = pk (self s) ∧
          ∃ g t, (g, e_user e) ∈ ids_add_pairs ∧ timestamps !! g = Some t ∧
                 {| e_obj := e_obj e; e_user := e_user e;
                    time_from := Some t; time_to := None |} ∈ through after))
  ∧ (∀ e, e ∈ through s → e_obj e ≠ pk (self s) → e ∈ through after)
  ∧ (∀ e, e ∈ through after → e_obj e = pk (self s) → time_from e ≠ None).
Proof using Hstamps Hloop.
  rewrite fetch_shares_reconcile_run. cbn [fst snd through]. split_and!.
  - exists (new_share_edges (self s) timestamps ids_add_pairs). split.
    + f_equal. rewrite list_filter_filter. apply list_filter_iff.
      intros e. unfold of_added_user, without_time_from. tauto.
    + intros e. rewrite new_share_edge_elem. split.
      * intros (g & p & Hin & ->).
        assert (g ∈ ids_add) as Hadd.
        { apply ids_add_pairs_ok. apply list_elem_of_fmap. by exists (g, p). }
        destruct (ids_add_stamped g Hadd) as [t Ht]. exists g, p, t.
        split_and!; [done..|]. unfold get_share_date. by rewrite Ht.
      * intros (g & p & t & Hin & Ht & ->). exists g, p. split; [done|].
        unfold get_share_date. by rewrite Ht.
  - intros e Hin Hfrom.
    destruct (decide (of_added_user (self s) ids_add_pairs e)) as [[Hobj Huser]|Hno].
    + right. split; [done|].
      apply list_elem_of_fmap in Huser as ([g p] & Hp & Hgp). simpl in Hp. subst p.
      assert (g ∈ ids_add) as Hadd.
      { apply ids_add_pairs_ok. apply list_elem_of_fmap. by exists (g, e_user e). }
      destruct (ids_add_stamped g Hadd) as [t Ht]. exists g, t.
      split_and!; [done..|]. apply elem_of_app. right. apply new_share_edge_elem.
      exists g, (e_user e). split; [done|]. unfold get_share_date. by rewrite Ht, Hobj.
    + left. apply elem_of_app. left.
      apply list_elem_of_filter. split; [done|].
      apply list_elem_of_filter. split; [by intros [_ ?]|done].
  - intros e Hin Hobj. apply elem_of_app. left.
    apply list_elem_of_filter. split; [by intros [? _]|].
    apply list_elem_of_filter. split; [by intros [? _]|done].
  - intros e [Hold|Hnew]%elem_of_app Hobj.
    + apply list_elem_of_filter in Hold as [_ Hold].
      apply list_elem_of_filter in Hold as [Hkeep _].
      intros Hnone. by apply Hkeep.
    + apply new_share_edge_elem in Hnew as (g & p & Hin & ->). simpl.
      assert (g ∈ ids_add) as Hadd.
      { apply ids_add_pairs_ok. apply list_elem_of_fmap. by exists (g, p). }
      destruct (ids_add_stamped g Hadd) as [t Ht].
      unfold get_share_date. by rewrite Ht.
Qed.

(** C6: the edges a run creates are those handed to [bulk_create], one
    for each collected pair; each is stamped with the parsed creation
    time the timestamp map holds for the pair's graph id, and with the
    record's own creation time if the map has none. *)
Theorem fetch_shares_stamps_new_edges :
  let after := (fetch_shares_reconcile r s).2 in
  through after
  = filter (λ e, ¬ of_added_user (self s) ids_add_pairs e)
      (filter (λ e, ¬ without_time_from (self s) e) (through s))
    ++ new_share_edges (self s) timestamps ids_add_pairs
  ∧ ∀ e, e ∈ new_share_edges (self s) timestamps ids_add_pairs →
      ∃ g, (g, e_user e) ∈ ids_add_pairs ∧
           e_obj e = pk (self s) ∧ time_to e = None ∧
           time_from e = match timestamps !! g with
                         | Some t => Some t
                         | None => created_time (self s)
                         end ∧
           ∀ t, timestamps !! g = Some t →
                ∃ post created,
                  post ∈ data r ∧ (post_graph_id post s).1 = Ok g ∧
                  fields post !! "created_time" = Some created ∧
                  datetime_parse created = Ok t.
Proof using Hstamps Hloop.
  rewrite fetch_shares_reconcile_run. cbn [fst snd through]. split; [done|].
  intros e (g & p & Hin & ->)%new_share_edge_elem. exists g. simpl.
  split_and!; [done..|].
  intros t Ht%py_dict_lookup.
  pose proof (timestamp_pairs_Ok _ _ _ _ Hstamps) as Hall.
  apply list_elem_of_lookup in Ht as [k Hk].
  destruct (Forall2_lookup_r _ _ _ _ _ Hall Hk) as (post & Hpost & Hg & created & Hc & Hparse).
  exists post, created. simpl in *. split_and!; try done.
  apply list_elem_of_lookup_2 in Hpost.
  by apply list_elem_of_filter in Hpost as [_ ?].
Qed.

(** The fallback of [get_share_date] is never reached: every collected
    pair has its graph id in the timestamp map. *)
Lemma fetch_shares_pairs_stamped g p :
  (g, p) ∈ ids_add_pairs → is_Some (timestamps !! g).
Proof using Hloop.
  intros Hin. apply ids_add_stamped, ids_add_pairs_ok.
  apply list_elem_of_fmap. by exists (g, p).
Qed.

End reconcile.

(** ** When a run returns *)

Section reconcile_returns.
Context `{Host}.

Lemma post_graph_id_indep {S T} post (s : S) (t : T) :
  (post_graph_id post s).1 = (post_graph_id post t).1.
Proof.
  unfold post_graph_id, post_from. munfold.
  destruct (entry_from post) as [from|]; simpl; [|done].
  destruct (from !! "id") as [id|]; simpl; [|done].
  by destruct (py_int id).
Qed.

(** The loop returns when the graph id of every post can be read and the
    resolver raises nothing but [UnknownResourceType]. *)
Lemma fetch_shares_loop_returns ids_add posts : ∀ acc s,
  resolver_raises_only_unknown →
  Forall (λ post, ∃ g, (post_graph_id post s).1 = Ok g) posts →
  ∃ acc' s', fetch_shares_loop ids_add posts acc s = (Ok acc', s').
Proof.
  induction posts as [|post posts IH]; intros [ids pairs] s Hres Hall;
    [by eexists _, _|].
  apply Forall_cons in Hall as [[g Hg] Hall].
  rewrite fetch_shares_loop_cons.
  assert (∃ acc1 s1, fetch_shares_step ids_add post (ids, pairs) s = (Ok acc1, s1))
    as (acc1 & s1 & ->).
  { unfold fetch_shares_step. unfold bind at 1.
    pose proof (post_graph_id_pure post s) as Hpure.
    destruct (post_graph_id post s) as [[g'|e] s0] eqn:Hg'; simpl in *; subst s0; [|done].
    assert (∃ from, entry_from post = Some from) as [from Hfrom].
    { revert Hg'. unfold post_graph_id, post_from. munfold.
      destruct (entry_from post); [eauto|done]. }
    unfold post_from. rewrite Hfrom. munfold.
    destruct (decide _) as [_|_]; [|by eexists _, _].
    destruct (get_or_create_from_small_resource from (users s)) as [[u|e] us] eqn:Hu;
      simpl.
    - destruct (decide _); by eexists _, _.
    - rewrite (Hres _ _ _ _ Hu). simpl. by eexists _, _. }
  apply IH; [done|].
  eapply Forall_impl; [exact Hall|]. intros p [g' Hp]. exists g'.
  by rewrite (post_graph_id_indep p s1 s).
Qed.

(** A run returns exactly when its timestamps can be built, the resolver
    raising nothing but [UnknownResourceType]. *)
Lemma fetch_shares_reconcile_returns r s pairs :
  resolver_raises_only_unknown →
  timestamp_pairs (filter has_from (data r)) s = (Ok pairs, s) →
  ∃ ids s', fetch_shares_reconcile r s = (Ok ids, s').
Proof.
  intros Hres Hstamps.
  destruct (fetch_shares_loop_returns
              (shares_ids_add (py_dict pairs) (shares_ids_current s))
              (filter has_from (data r)) ([], []) s Hres)
    as ([ids ids_add_pairs] & s1 & Hloop).
  { apply timestamp_pairs_Ok in Hstamps.
    clear -Hstamps. induction Hstamps as [|post pair ? ? [Hg _] _ IH]; constructor; eauto. }
  eexists _, _. by eapply fetch_shares_reconcile_run.
Qed.

(** Every run that returns went through the two phases. *)
Lemma fetch_shares_reconcile_Ok r s ids s' :
  fetch_shares_reconcile r s = (Ok ids, s') →
  ∃ pairs ids_add_pairs s1,
    timestamp_pairs (filter has_from (data r)) s = (Ok pairs, s) ∧
    fetch_shares_loop (shares_ids_add (py_dict pairs) (shares_ids_current s))
      (filter has_from (data r)) ([], []) s = (Ok (ids, ids_add_pairs), s1).
Proof.
  unfold fetch_shares_reconcile. unfold bind at 1.
  pose proof (timestamp_pairs_pure (filter has_from (data r)) s) as Hpure.
  destruct (timestamp_pairs _ s) as [[pairs|e] s0]; simpl in Hpure; subst s0; [|done].
  unfold bind at 1, gets at 1. unfold bind at 1.
  destruct (fetch_shares_loop _ _ _ s) as [[[ids1 ids_add_pairs]|e] s1] eqn:Hloop;
    [|done].
  munfold. intros [= <- _]. by exists pairs, ids_add_pairs, s1.
Qed.

End reconcile_returns.




(** The sample run again: the two rows of record 7 that are deleted (the
    closed row of user 1, who is added again, and the row of user 3
    without times) are not among the rows that are left, the row of
    record 8 is kept, and one row is created. *)
Lemma fetch_shares_keeps_or_replaces_witness :
  (∃ created,
     through (fetch_shares_reconcile (H := shares_host) shares_page shares_state).2
     = [sample_edge 7 2 (Some 10) None; sample_edge 8 3 None None] ++ created
     ∧ sample_edge 7 1 (Some 80) None ∈ created)
  ∧ sample_edge 8 3 None None
    ∈ through (fetch_shares_reconcile (H := shares_host) shares_page shares_state).2.
Proof.
  pose proof (fetch_shares_keeps_or_replaces (H := shares_host)
                shares_page shares_state shares_state
                [(100, 50); (900, 70); (100, 80)] [1; 1] [(100, 1)]
                ltac:(vm_compute; reflexivity) ltac:(vm_compute; reflexivity))
    as ((created & Hthrough & Hcreated) & _ & Hother & _).
  split.
  - exists created. split.
    + rewrite Hthrough. f_equal.
    + apply Hcreated. exists 100, 1, 80. split_and!; [vm_decide|reflexivity|reflexivity].
  - apply Hother; [vm_decide|vm_compute; discriminate].
Defined.

(** C2, as stated, fails on the sample run: the edge of user 1, valid
    from 10 to 20, is deleted although its [time_from] is not null. *)
Lemma fetch_shares_deletes_stamped_edge :
  let after := (fetch_shares_reconcile (H := shares_host) shares_page shares_state).2 in
  sample_edge 7 1 (Some 10) (Some 20) ∈ through shares_state
  ∧ time_from (sample_edge 7 1 (Some 10) (Some 20)) ≠ None
  ∧ sample_edge 7 1 (Some 10) (Some 20) ∉ through after.
Proof. split_and!; [vm_decide|discriminate|vm_decide]. Qed.

(** The sample run again: the one edge it creates. *)
Lemma fetch_shares_stamps_new_edges_witness :
  through (fetch_shares_reconcile (H := shares_host) shares_page shares_state).2
  = [sample_edge 7 2 (Some 10) None; sample_edge 8 3 None None]
    ++ [sample_edge 7 1 (Some 80) None].
Proof.
  pose proof (fetch_shares_stamps_new_edges (H := shares_host)
                shares_page shares_state shares_state
                [(100, 50); (900, 70); (100, 80)] [1; 1] [(100, 1)]
                ltac:(vm_compute; reflexivity) ltac:(vm_compute; reflexivity))
    as [Hthrough _].
  rewrite Hthrough. vm_compute. reflexivity.
Defined.

(** C3, as stated, fails for shares: after the decorated fetch of the
    sample page two users are current sharers of the record and its
    [shares_count] is still 5. *)
Lemma shares_count_not_mirrored :
  match fetch_shares_decorated (H := shares_host) 1 1000 ∅ shares_state with
  | Some (Ok instances, after) =>
      instances = {[1]}
      ∧ e_user <$> get_query_set after = [2; 1]
      ∧ attrs (self after) !! "shares_count" = Some (PyInt 5)
  | _ => False
  end.
Proof. vm_compute. done. Qed.

(** ** fetch_reactions *)

Section fetch_reactions_props.
Context `{Host}.

Lemma fetch_reactions_loop_cons reaction resource rest ids s :
  fetch_reactions_loop reaction (resource :: rest) ids s
  = match fetch_reactions_step reaction resource ids s with
    | (Ok ids', s') => fetch_reactions_loop reaction rest ids' s'
    | (Raise e, s') => (Raise e, s')
    end.
Proof. reflexivity. Qed.

(** With a reaction given, a resource of another type, or of none, is
    passed over before anything is done with it. *)
Lemma fetch_reactions_step_skip r resource ids s :
  fields resource !! "type" ≠ Some (upper r) →
  fetch_reactions_step (Some r) resource ids s = (Ok ids, s).
Proof.
  intros Hne. unfold fetch_reactions_step. munfold.
  destruct (fields resource !! "type") as [t|]; simpl; [|done].
  rewrite bool_decide_false by congruence. done.
Qed.

Lemma fetch_reactions_loop_filter r resources : ∀ ids s,
  fetch_reactions_loop (Some r) resources ids s
  = fetch_reactions_loop (Some r)
      (filter (λ e, fields e !! "type" = Some (upper r)) resources) ids s.
Proof.
  induction resources as [|resource rest IH]; intros ids s; [done|].
  rewrite filter_cons. destruct (decide _) as [Hyes|Hno].
  - rewrite !fetch_reactions_loop_cons.
    destruct (fetch_reactions_step _ _ _ _) as [[ids'|e] s']; [apply IH|done].
  - rewrite fetch_reactions_loop_cons, (fetch_reactions_step_skip _ _ _ _ Hno).
    apply IH.
Qed.

(** An iteration never raises (the resolver raising nothing but
    [UnknownResourceType]), and keeps the keys of [ids]. *)
Lemma fetch_reactions_step_returns reaction resource ids s :
  resolver_raises_only_unknown →
  ∃ ids' s', fetch_reactions_step reaction resource ids s = (Ok ids', s') ∧
             dom ids' = dom ids ∧ self s' = self s.
Proof.
  intros Hres. unfold fetch_reactions_step.
  match goal with
  | |- context [try_except ?m (except_UnknownResourceType ?k)] =>
      set (inner := try_except m (except_UnknownResourceType k))
  end.
  assert ((∃ ids' s', inner s = (Ok ids', s') ∧ dom ids' = dom ids ∧ self s' = self s)
          ∨ (∃ k s', inner s = (Raise (KeyError k), s') ∧ self s' = self s)) as Hinner.
  { subst inner. munfold.
    destruct (get_or_create_from_small_resource (fields resource) (users s))
      as [[u|e] us] eqn:Hu; simpl.
    - destruct (fields resource !! "type") as [t|]; simpl; [|eauto 10].
      destruct (ids !! t) as [cur|] eqn:Hcur; simpl; [|eauto 10].
      left. eexists _, _. split_and!; [done| |done].
      rewrite dom_insert_L. apply (elem_of_dom_2 (D := gset string)) in Hcur.
      apply set_eq. intros x. rewrite elem_of_union, elem_of_singleton.
      split; [intros [->|?]; done|auto].
    - rewrite (Hres _ _ _ _ Hu). simpl. left. eauto 10. }
  clearbody inner. munfold.
  destruct reaction as [r|].
  - destruct (fields resource !! "type") as [t|]; simpl; [|eauto].
    destruct (bool_decide (upper r = t)); simpl; [|eauto].
    destruct Hinner as [(ids' & s' & -> & ? & ?)|(k & s' & -> & ?)]; simpl; eauto.
  - simpl.
    destruct Hinner as [(ids' & s' & -> & ? & ?)|(k & s' & -> & ?)]; simpl; eauto.
Qed.

Lemma fetch_reactions_loop_returns reaction resources : ∀ ids s,
  resolver_raises_only_unknown →
  ∃ ids' s', fetch_reactions_loop reaction resources ids s = (Ok ids', s') ∧
             dom ids' = dom ids ∧ self s' = self s.
Proof.
  induction resources as [|resource rest IH]; intros ids s Hres.
  - by exists ids, s.
  - rewrite fetch_reactions_loop_cons.
    destruct (fetch_reactions_step_returns reaction resource ids s Hres)
      as (ids1 & s1 & -> & Hdom1 & Hself1).
    destruct (IH ids1 s1 Hres) as (ids' & s' & -> & Hdom & Hself).
    exists ids', s'. split_and!; congruence.
Qed.

(** An iteration on a resource the call keeps: the resolver is handed
    the resource, and its user is filed under the type of the resource
    when [ids] has that key; [UnknownResourceType] and [KeyError] pass
    the resource over. *)
Lemma fetch_reactions_step_process reaction resource ids s :
  match reaction with
  | Some r => fields resource !! "type" = Some (upper r)
  | None => True
  end →
  fetch_reactions_step reaction resource ids s
  = match get_or_create_from_small_resource (fields resource) (users s) with
    | (Ok u, us) =>
        (Ok match fields resource !! "type" with
            | Some t => match ids !! t with
                        | Some cur => <[t := cur ++ [user_pk u]]> ids
                        | None => ids
                        end
            | None => ids
            end, set_users (λ _, us) s)
    | (Raise UnknownResourceType, us) => (Ok ids, set_users (λ _, us) s)
    | (Raise (KeyError _), us) => (Ok ids, set_users (λ _, us) s)
    | (Raise e, us) => (Raise e, set_users (λ _, us) s)
    end.
Proof.
  intros Hsel. unfold fetch_reactions_step. munfold.
  destruct reaction as [r|]; simpl.
  - rewrite Hsel. simpl. rewrite bool_decide_true by done. simpl.
    destruct (get_or_create_from_small_resource _ _) as [[u|e] us]; simpl.
    + by destruct (ids !! upper r).
    + by destruct e.
  - destruct (get_or_create_from_small_resource _ _) as [[u|e] us]; simpl.
    + destruct (fields resource !! "type") as [t|]; simpl; [|done].
      by destruct (ids !! t).
    + by destruct e.
Qed.

Lemma reaction_resources_one reaction resource :
  (match reaction with
   | Some r => fields resource !! "type" = Some (upper r)
   | None => True
   end ∧ reaction_resources reaction [resource] = [resource])
  ∨ ((∃ r, reaction = Some r ∧ fields resource !! "type" ≠ Some (upper r))
     ∧ reaction_resources reaction [resource] = []).
Proof.
  destruct reaction as [r|]; [|by left].
  unfold reaction_resources. rewrite filter_cons.
  destruct (decide _) as [Hyes|Hno]; [by left|right; eauto].
Qed.

Lemma reaction_resources_cons reaction resource rest :
  reaction_resources reaction (resource :: rest)
  = reaction_resources reaction [resource] ++ reaction_resources reaction rest.
Proof.
  destruct reaction as [r|]; [|done].
  unfold reaction_resources. rewrite !filter_cons.
  by destruct (decide _).
Qed.

Lemma resolved_table_app l1 l2 us :
  resolved_table (l1 ++ l2) us = resolved_table l2 (resolved_table l1 us).
Proof. apply foldl_app. Qed.

Lemma resolved_table_grows resources : ∀ us u,
  resolver_keeps_users → u ∈ us → u ∈ resolved_table resources us.
Proof.
  induction resources as [|x rest IH]; intros us u Hres Hu; [done|].
  simpl. apply IH; [done|].
  destruct (get_or_create_from_small_resource (fields x) us) as [r us'] eqn:Hx.
  simpl. by apply (proj1 (Hres _ _ _ _ Hx)).
Qed.

(** One iteration that does not raise: the keys of [ids] stay, the user
    table is what the resolver leaves, a key is only added, under the
    type of the resource, and it is the key of the user the resolver
    returned. *)
Lemma fetch_reactions_step_trace reaction resource ids s ids' s' :
  fetch_reactions_step reaction resource ids s = (Ok ids', s') →
  dom ids' = dom ids ∧
  users s' = resolved_table (reaction_resources reaction [resource]) (users s) ∧
  (∀ K p, p ∈ default [] (ids !! K) → p ∈ default [] (ids' !! K)) ∧
  (∀ K p, p ∈ default [] (ids' !! K) →
     p ∈ default [] (ids !! K)
     ∨ (fields resource !! "type" = Some K ∧
        ∃ u us, get_or_create_from_small_resource (fields resource) (users s) = (Ok u, us)
                ∧ user_pk u = p)) ∧
  (∀ K u us,
     fields resource !! "type" = Some K → reaction_is reaction K → K ∈ dom ids →
     get_or_create_from_small_resource (fields resource) (users s) = (Ok u, us) →
     user_pk u ∈ default [] (ids' !! K) ∧ users s' = us).
Proof.
  intros Hrun.
  destruct (reaction_resources_one reaction resource) as [[Hsel ->]|[(r & -> & Hno) ->]].
  - rewrite fetch_reactions_step_process in Hrun by done.
    unfold resolved_table. cbn [foldl].
    destruct (get_or_create_from_small_resource (fields resource) (users s))
      as [[u|e] us] eqn:Hu.
    + injection Hrun as <- <-. cbn [snd users set_users].
      destruct (fields resource !! "type") as [t|] eqn:Ht;
        [destruct (ids !! t) as [cur|] eqn:Hcur|].
      * split_and!; [|done| | |].
        -- rewrite dom_insert_L. apply (elem_of_dom_2 (D := gset string)) in Hcur.
           apply set_eq. intros x. rewrite elem_of_union, elem_of_singleton.
           split; [intros [->|?]; done|auto].
        -- intros K p. destruct (decide (t = K)) as [<-|Hne].
           ++ rewrite lookup_insert_eq, Hcur. simpl. intros Hp. apply elem_of_app. by left.
           ++ by rewrite lookup_insert_ne.
        -- intros K p. destruct (decide (t = K)) as [<-|Hne].
           ++ rewrite lookup_insert_eq, Hcur. simpl.
              intros [Hp|Hp%list_elem_of_singleton]%elem_of_app; [by left|].
              right. split; [done|]. by exists u, us.
           ++ rewrite lookup_insert_ne by done. by left.
        -- intros K u0 us0 [= <-] _ _ [= <- <-].
           rewrite lookup_insert_eq. simpl. split; [|done].
           apply elem_of_app. right. by apply list_elem_of_singleton.
      * split_and!; [done..|by left|].
        intros K u0 us0 [= <-] _ [x Hx]%elem_of_dom. congruence.
      * split_and!; [done..|by left|]. by intros K u0 us0 [=].
    + assert (ids' = ids ∧ s' = set_users (λ _, us) s) as [-> ->]
        by (destruct e; simplify_eq; done).
      split_and!; [done..|by left|]. by intros K u0 us0 _ _ _ [=].
  - rewrite fetch_reactions_step_skip in Hrun by done. injection Hrun as <- <-.
    split_and!; [done..|by left|].
    intros K u us Ht Hr. simpl in Hr. destruct Hno. by rewrite Ht, Hr.
Qed.

(** The loop over the resources, when it does not raise: where the keys
    it files come from, and which it files. *)
Lemma fetch_reactions_loop_trace reaction resources : ∀ ids s ids' s',
  fetch_reactions_loop reaction resources ids s = (Ok ids', s') →
  dom ids' = dom ids ∧
  users s' = resolved_table (reaction_resources reaction resources) (users s) ∧
  (∀ K p, p ∈ default [] (ids !! K) → p ∈ default [] (ids' !! K)) ∧
  (∀ K p, p ∈ default [] (ids' !! K) →
     p ∈ default [] (ids !! K)
     ∨ ∃ resource us u us',
         resource ∈ resources ∧ fields resource !! "type" = Some K ∧
         get_or_create_from_small_resource (fields resource) us = (Ok u, us') ∧
         user_pk u = p) ∧
  (resolver_keeps_users →
     ∀ resource K,
       resource ∈ resources → fields resource !! "type" = Some K →
       reaction_is reaction K → K ∈ dom ids →
       (∀ us, ∃ u us', get_or_create_from_small_resource (fields resource) us = (Ok u, us')) →
       ∃ us u us',
         get_or_create_from_small_resource (fields resource) us = (Ok u, us') ∧
         user_pk u ∈ default [] (ids' !! K) ∧ u ∈ users s').
Proof.
  induction resources as [|resource rest IH]; intros ids s ids' s' Hrun.
  - simpl in Hrun. unfold ret in Hrun. simplify_eq.
    split_and!; [by destruct reaction..|done|by left|].
    by intros _ ? ? ?%elem_of_nil.
  - rewrite fetch_reactions_loop_cons in Hrun.
    destruct (fetch_reactions_step reaction resource ids s) as [[ids1|e] s1] eqn:Hstep;
      [|done].
    apply fetch_reactions_step_trace in Hstep as (Hdom1 & Hus1 & Hmono1 & Hfrom1 & Hall1).
    apply IH in Hrun as (Hdom & Hus & Hmono & Hfrom & Hall).
    split_and!.
    + congruence.
    + by rewrite reaction_resources_cons, resolved_table_app, <- Hus1.
    + auto.
    + intros K p [Hp|Hp]%Hfrom.
      * destruct (Hfrom1 K p Hp) as [?|(Ht & u & us & Hu & Hpk)]; [by left|].
        right. exists resource, (users s), u, us. split_and!; [by left|done..].
      * right. destruct Hp as (x & us & u & us' & Hx & Hp). exists x, us, u, us'.
        split; [by right|done].
    + intros Hres x K [->|Hx]%elem_of_cons Ht Hsel HK Halways.
      * destruct (Halways (users s)) as (u & us & Hu).
        destruct (Hall1 K u us Ht Hsel HK Hu) as [Hin Hs1].
        exists (users s), u, us. split_and!; [done|by apply Hmono|].
        rewrite Hus. apply resolved_table_grows; [done|].
        rewrite Hs1. by apply (proj2 (Hres _ _ _ _ Hu)).
      * apply (Hall Hres x K); [done..| |done]. by rewrite Hdom1.
Qed.

Lemma fetch_reactions_results_cons reaction response ids id_type rest result s :
  fetch_reactions_results reaction response ids (id_type :: rest) result s
  = match fetch_reactions_result reaction response ids id_type result s with
    | (Ok result', s') => fetch_reactions_results reaction response ids rest result' s'
    | (Raise e, s') => (Raise e, s')
    end.
Proof. reflexivity. Qed.

Lemma reaction_skips reaction id_type :
  match reaction with
  | Some r => negb (bool_decide (upper r = upper id_type))
  | None => false
  end = negb (bool_decide (reaction_selects reaction id_type)).
Proof. by destruct reaction. Qed.

(** An iteration that returns has passed the type over, or has put one
    entry under its upper-cased name. *)
Lemma fetch_reactions_result_Ok reaction response ids id_type result s result' s' :
  fetch_reactions_result reaction response ids id_type result s = (Ok result', s') →
  (¬ reaction_selects reaction id_type ∧ result' = result ∧ s' = s)
  ∨ (reaction_selects reaction id_type ∧
     ∃ instances, result' = <[upper id_type := instances]> result).
Proof.
  unfold fetch_reactions_result. rewrite reaction_skips.
  destruct (decide (reaction_selects reaction id_type)) as [Hsel|Hsel].
  - rewrite bool_decide_true by done. cbn [negb]. intros Hrun. right. split; [done|].
    revert Hrun. unfold fetch_all_get_user_ids, get_user_ids, User_objects_filter_pk_in.
    munfold. destruct (count_method_named _) as [m|]; simpl; [|done].
    destruct (ids !! upper id_type) as [id_list|]; simpl; [|done].
    destruct (m _ (self s)) as [[q|e] i]; simpl; [|done].
    intros [= <- <-]. eauto.
  - rewrite bool_decide_false by done. cbn [negb]. unfold ret. intros [= <- <-]. by left.
Qed.

Lemma fetch_reactions_results_dom reaction response ids types : ∀ result s result' s',
  fetch_reactions_results reaction response ids types result s = (Ok result', s') →
  dom result'
  = dom result ∪ list_to_set (upper <$> filter (reaction_selects reaction) types).
Proof.
  induction types as [|id_type rest IH]; intros result s result' s' Hrun.
  - simpl in Hrun. unfold ret in Hrun. simplify_eq. simpl.
    by rewrite (right_id_L ∅ (∪)).
  - rewrite fetch_reactions_results_cons in Hrun.
    destruct (fetch_reactions_result _ _ _ _ _ _) as [[result1|e] s1] eqn:Hstep; [|done].
    apply IH in Hrun. rewrite Hrun. rewrite filter_cons.
    apply fetch_reactions_result_Ok in Hstep as [(Hno & -> & _)|(Hsel & q & ->)].
    + by rewrite decide_False.
    + rewrite decide_True by done. rewrite fmap_cons, list_to_set_cons, dom_insert_L.
      by rewrite (assoc_L (∪)), (comm_L (∪) (dom result)).
Qed.

(** The counting methods return when the inherited [save] does. *)
Lemma count_method_returns name m instances i :
  save_returns →
  count_method_named name = Some m →
  ∃ i', m instances i = (Ok instances, i').
Proof.
  intros Hsave. unfold count_method_named.
  destruct (decide _) as [_|_].
  - destruct likable; [|done].
    intros [= <-]. rewrite update_count_and_get_like_users_unfold. munfold.
    specialize (Hsave (set_attrs <["likes_count" := queryset_count instances]>
                         (set_rels <["likes_users" := instances]> i))).
    destruct (save _) as [[[]|e] i']; simpl in *; [eauto|done].
  - destruct (list_find _ _) as [[k r]|]; [|done].
    intros [= <-]. rewrite update_count_and_get_reaction_users_unfold. munfold.
    specialize (Hsave (set_attrs <[count_field r := queryset_count instances]>
                         (set_rels <[users_field r := instances]> i))).
    destruct (save _) as [[[]|e] i']; simpl in *; [eauto|done].
Qed.

(** Every reaction type has its counting method; ['LIKE'] has one when
    the class has [LikableModelMixin] among its bases. *)
Lemma count_method_defined id_type :
  id_type ∈ reaction_types ++ ["LIKE"] →
  (id_type = "LIKE" → likable = true) →
  is_Some (count_method_named ("update_count_and_get_" +:+ lower id_type +:+ "_users")).
Proof.
  unfold reaction_types. simpl. rewrite !elem_of_cons, elem_of_nil.
  intros Hin Hlike; destruct_or!; subst; try done; try (eexists; reflexivity).
  unfold count_method_named. cbv [String.app lower ascii_lower]. simpl.
  rewrite Hlike by done. by eexists.
Qed.

Lemma count_method_like :
  count_method_named ("update_count_and_get_" +:+ lower "LIKE" +:+ "_users")
  = if likable then Some update_count_and_get_like_users else None.
Proof. reflexivity. Qed.

Lemma fetch_reactions_result_returns reaction response ids id_type result s :
  save_returns →
  (reaction_selects reaction id_type →
   is_Some (count_method_named ("update_count_and_get_" +:+ lower id_type +:+ "_users"))) →
  upper id_type ∈ dom ids →
  ∃ result' s', fetch_reactions_result reaction response ids id_type result s
                = (Ok result', s').
Proof.
  intros Hsave Hm [id_list Hids]%elem_of_dom.
  unfold fetch_reactions_result. rewrite reaction_skips.
  destruct (decide (reaction_selects reaction id_type)) as [Hsel|Hsel];
    [rewrite bool_decide_true by done|rewrite bool_decide_false by done];
    cbn [negb]; [|by eexists _, _].
  destruct (Hm Hsel) as [m Hm'].
  unfold fetch_all_get_user_ids, get_user_ids, User_objects_filter_pk_in.
  munfold. rewrite Hm'. simpl. rewrite Hids. simpl.
  set (instances := list_to_set _).
  destruct (count_method_returns _ _ instances (self s) Hsave Hm') as [i' ->].
  simpl. by eexists _, _.
Qed.

Lemma fetch_reactions_results_returns reaction response ids types : ∀ result s,
  save_returns →
  (∀ id_type, id_type ∈ types →
     (reaction_selects reaction id_type →
      is_Some (count_method_named ("update_count_and_get_" +:+ lower id_type +:+ "_users")))
     ∧ upper id_type ∈ dom ids) →
  ∃ result' s', fetch_reactions_results reaction response ids types result s
                = (Ok result', s').
Proof.
  induction types as [|id_type rest IH]; intros result s Hsave Htypes.
  - by exists result, s.
  - rewrite fetch_reactions_results_cons.
    destruct (Htypes id_type) as [Hm Hkey]; [by left|].
    destruct (fetch_reactions_result_returns reaction response ids id_type result s)
      as (result1 & s1 & ->); [done..|].
    apply IH; [done|]. intros t Ht. apply Htypes. by right.
Qed.

(** The keys [ids] starts with. *)
Lemma fetch_reactions_ids_keys :
  dom (foldl (λ (ids : gmap string (list Z)) id_type, <[upper id_type := []]> ids) ∅
         (reaction_types ++ ["LIKE"]))
  = list_to_set reaction_keys.
Proof. reflexivity. Qed.

Lemma reaction_keys_types : upper <$> (reaction_types ++ ["LIKE"]) = reaction_keys.
Proof. reflexivity. Qed.

Lemma selected_keys_all :
  (list_to_set (upper <$> filter (reaction_selects None) (reaction_types ++ ["LIKE"]))
   : gset string) = list_to_set reaction_keys.
Proof. reflexivity. Qed.

Lemma selected_keys_one r :
  upper r ∈ reaction_keys →
  (list_to_set (upper <$> filter (reaction_selects (Some r)) (reaction_types ++ ["LIKE"]))
   : gset string) = {[upper r]}.
Proof.
  rewrite <- reaction_keys_types. intros (t & Hrt & Ht)%list_elem_of_fmap.
  apply set_eq. intros x.
  rewrite elem_of_list_to_set, list_elem_of_fmap, elem_of_singleton. split.
  - intros (t' & -> & [Hsel _]%list_elem_of_filter). done.
  - intros ->. exists t. split; [done|]. by apply list_elem_of_filter.
Qed.

(** The last part of [fetch_reactions]: fill [result], return it or one
    entry of it. *)
Lemma fetch_reactions_Ok reaction limit kwargs s out s' :
  fetch_reactions reaction limit kwargs s = (Ok out, s') →
  ∃ ids s1 (result : gmap string (gset Z)),
    fetch_reactions_results reaction
      (api_call (graph_id (self s) +:+ "/reactions") (Some "2.6") (Some limit) kwargs)
      ids (reaction_types ++ ["LIKE"]) ∅ s1 = (Ok result, s') ∧
    match reaction with
    | Some r => ∃ instances, result !! upper r = Some instances ∧
                             out = OneReaction instances
    | None => out = AllReactions result
    end.
Proof.
  unfold fetch_reactions. unfold bind at 1, gets at 1. unfold bind at 1.
  set (response := api_call _ _ _ _).
  set (ids0 := foldl _ ∅ _).
  intros Hrun.
  assert (∃ ids s1,
    (letM result := fetch_reactions_results reaction response ids
                      (reaction_types ++ ["LIKE"]) ∅ in
     match reaction with
     | Some r => letM entry := getitem result (upper r) in ret (OneReaction entry)
     | None => ret (AllReactions result)
     end) s1 = (Ok out, s')) as (ids & s1 & Htail).
  { destruct response as [page|].
    - destruct (fetch_reactions_loop reaction (data page) ids0 s) as [[ids|e] s1];
        [eauto|done].
    - unfold ret at 1 in Hrun. eauto. }
  exists ids, s1. revert Htail. unfold bind at 1.
  destruct (fetch_reactions_results _ _ _ _ _ _) as [[result|e] s2]; [|done].
  intros Hout. exists result.
  destruct reaction as [r|]; revert Hout; munfold.
  - destruct (result !! upper r) as [q|]; simpl; [|done].
    intros [= <- <-]. eauto.
  - intros [= <- <-]. eauto.
Qed.

(** The counting method of each of the seven types, when the class has
    it. *)
Lemma count_method_fields id_type m :
  id_type ∈ reaction_types ++ ["LIKE"] →
  count_method_named ("update_count_and_get_" +:+ lower id_type +:+ "_users") = Some m →
  ∀ q i, m q i
         = (letM _ := save in ret q)
             (set_attrs <[type_count_field id_type := queryset_count q]>
                (set_rels <[type_users_field id_type := q]> i)).
Proof.
  unfold reaction_types. cbn [app]. rewrite !elem_of_cons, elem_of_nil.
  intros Hin; destruct_or!; subst; try done;
    try (intros [= <-]; intros; reflexivity).
  rewrite count_method_like. destruct likable; [|done].
  intros [= <-]. intros; reflexivity.
Qed.

(** A type the call does not keep is passed over. *)
Lemma fetch_reactions_result_skip reaction response ids id_type result s :
  ¬ reaction_selects reaction id_type →
  fetch_reactions_result reaction response ids id_type result s = (Ok result, s).
Proof.
  intros Hno. unfold fetch_reactions_result. rewrite reaction_skips.
  by rewrite bool_decide_false by done.
Qed.

Lemma fetch_reactions_results_skip reaction response ids types : ∀ result s,
  (∀ t, t ∈ types → ¬ reaction_selects reaction t) →
  fetch_reactions_results reaction response ids types result s = (Ok result, s).
Proof.
  induction types as [|t types IH]; intros result s Hno; [done|].
  rewrite fetch_reactions_results_cons, fetch_reactions_result_skip by (apply Hno; by left).
  apply IH. intros t' Ht'. apply Hno. by right.
Qed.

(** A type the call keeps: one entry, one count, one relation. *)
Lemma fetch_reactions_result_selected reaction response ids id_type result s result' s' :
  id_type ∈ reaction_types ++ ["LIKE"] →
  reaction_selects reaction id_type →
  fetch_reactions_result reaction response ids id_type result s = (Ok result', s') →
  ∃ id_list i',
    ids !! upper id_type = Some id_list ∧
    let q : gset Z := list_to_set (filter (λ p, p ∈ id_list) (user_pk <$> users s)) in
    result' = <[upper id_type := q]> result ∧
    save (set_attrs <[type_count_field id_type := queryset_count q]>
            (set_rels <[type_users_field id_type := q]> (self s))) = (Ok tt, i') ∧
    s' = set_self (λ _, i') s.
Proof.
  intros Hin Hsel. unfold fetch_reactions_result. rewrite reaction_skips.
  rewrite bool_decide_true by done. cbn [negb].
  destruct (count_method_named _) as [m|] eqn:Hm'; [|done].
  pose proof (count_method_fields id_type m Hin Hm') as Hm.
  unfold fetch_all_get_user_ids, get_user_ids, User_objects_filter_pk_in. munfold.
  destruct (ids !! upper id_type) as [id_list|]; simpl; [|done].
  rewrite Hm. unfold bind, ret.
  destruct (save _) as [[[]|e] i'] eqn:Hsave; simpl; [|done].
  intros [= <- <-]. exists id_list, i'. done.
Qed.

Local Abbreviation all_types := (reaction_types ++ ["LIKE"]).
Local Abbreviation ids_start :=
  (foldl (λ (ids : gmap string (list Z)) id_type, <[upper id_type := []]> ids) ∅ all_types).

Lemma ids_start_empty K : default [] (ids_start !! K) = [].
Proof.
  assert (∀ types (acc : gmap string (list Z)),
            (∀ k v, acc !! k = Some v → v = []) →
            ∀ k v, foldl (λ ids id_type, <[upper id_type := []]> ids) acc types !! k = Some v →
                   v = []) as Hall.
  { induction types as [|t types IH]; intros acc Hacc k v; simpl; [apply Hacc|].
    apply IH. intros k' v'. destruct (decide (upper t = k')) as [->|Hne].
    - rewrite lookup_insert_eq. by intros [= <-].
    - rewrite lookup_insert_ne by done. apply Hacc. }
  destruct (ids_start !! K) as [v|] eqn:HK; [|done].
  simpl. eapply Hall; [|exact HK]. intros k v'. by rewrite lookup_empty.
Qed.

(** The phases of a call that returns. *)
Lemma fetch_reactions_inv reaction limit kwargs s out s' :
  fetch_reactions reaction limit kwargs s = (Ok out, s') →
  ∃ ids s1 (result : gmap string (gset Z)),
    match api_call (graph_id (self s) +:+ "/reactions") (Some "2.6") (Some limit) kwargs with
    | Some page => fetch_reactions_loop reaction (data page) ids_start s
    | None => (Ok ids_start, s)
    end = (Ok ids, s1) ∧
    fetch_reactions_results reaction
      (api_call (graph_id (self s) +:+ "/reactions") (Some "2.6") (Some limit) kwargs)
      ids all_types ∅ s1 = (Ok result, s') ∧
    match reaction with
    | Some r => ∃ instances, result !! upper r = Some instances ∧
                             out = OneReaction instances
    | None => out = AllReactions result
    end.
Proof.
  unfold fetch_reactions. unfold bind at 1, gets at 1. unfold bind at 1.
  set (response := api_call _ _ _ _).
  intros Hrun.
  assert (∃ ids s1,
    match response with
    | Some page => fetch_reactions_loop reaction (data page) ids_start s
    | None => (Ok ids_start, s)
    end = (Ok ids, s1) ∧
    (letM result := fetch_reactions_results reaction response ids all_types ∅ in
     match reaction with
     | Some r => letM entry := getitem result (upper r) in ret (OneReaction entry)
     | None => ret (AllReactions result)
     end) s1 = (Ok out, s')) as (ids & s1 & Hids & Htail).
  { destruct response as [page|].
    - destruct (fetch_reactions_loop reaction (data page) ids_start s) as [[ids|e] s1];
        [eauto|done].
    - unfold ret at 1 in Hrun. eauto. }
  exists ids, s1. revert Htail. unfold bind at 1.
  destruct (fetch_reactions_results _ _ _ _ _ _) as [[result|e] s2]; [|done].
  intros Hout. exists result. split; [done|].
  destruct reaction as [r|]; revert Hout; munfold.
  - destruct (result !! upper r) as [q|]; simpl; [|done].
    intros [= <- <-]. eauto.
  - intros [= <- <-]. eauto.
Qed.

Lemma all_types_keys t : t ∈ all_types → upper t ∈ reaction_keys.
Proof. intros Ht. rewrite <- reaction_keys_types. apply list_elem_of_fmap. eauto. Qed.

(** The entries of [result]: each is the users of the table whose key is
    filed under its type. *)
Lemma fetch_reactions_results_entries reaction response ids types :
  (∀ t, t ∈ types → t ∈ all_types) →
  ∀ result s result' s',
    fetch_reactions_results reaction response ids types result s = (Ok result', s') →
    users s' = users s ∧
    ∀ key q, result' !! key = Some q →
      result !! key = Some q
      ∨ ∃ id_list, ids !! key = Some id_list ∧
                   q = list_to_set (filter (λ p, p ∈ id_list) (user_pk <$> users s)).
Proof.
  induction types as [|t types IH]; intros Htypes result s result' s' Hrun.
  - simpl in Hrun. unfold ret in Hrun. simplify_eq. auto.
  - rewrite fetch_reactions_results_cons in Hrun.
    destruct (fetch_reactions_result _ _ _ _ _ _) as [[result1|e] s1] eqn:Hstep; [|done].
    apply IH in Hrun as [Hus Hentries]; [|intros; apply Htypes; by right].
    destruct (decide (reaction_selects reaction t)) as [Hsel|Hno].
    + apply fetch_reactions_result_selected in Hstep
        as (id_list & i' & Hids & -> & _ & ->); [|apply Htypes; by left|done].
      split; [done|]. intros key q [Hq|Hq]%Hentries; [|by right].
      destruct (decide (upper t = key)) as [<-|Hne].
      * rewrite lookup_insert_eq in Hq. simplify_eq. right. eauto.
      * rewrite lookup_insert_ne in Hq by done. by left.
    + rewrite fetch_reactions_result_skip in Hstep by done. by simplify_eq.
Qed.

Lemma filter_elem_of_nil (l : list Z) : filter (λ p, p ∈ @nil Z) l = [].
Proof.
  induction l as [|x l IH]; [done|].
  rewrite filter_cons. destruct (decide _) as [Hin|_]; [by apply elem_of_nil in Hin|done].
Qed.

Lemma fetch_reactions_returns reaction limit kwargs s :
  resolver_raises_only_unknown → save_returns →
  (∀ r, reaction = Some r → upper r ∈ reaction_keys) →
  (reaction_selects reaction "LIKE" → likable = true) →
  ∃ out s', fetch_reactions reaction limit kwargs s = (Ok out, s').
Proof.
  intros Hres Hsave Hkey Hlike.
  unfold fetch_reactions. unfold bind at 1, gets at 1. unfold bind at 1.
  set (response := api_call _ _ _ _).
  set (ids0 := foldl _ ∅ _).
  assert (∃ ids s1,
    match response with
    | Some r => fetch_reactions_loop reaction (data r) ids0
    | None => ret ids0
    end s = (Ok ids, s1) ∧ dom ids = list_to_set reaction_keys)
    as (ids & s1 & -> & Hkeys).
  { destruct response as [page|].
    - destruct (fetch_reactions_loop_returns reaction (data page) ids0 s Hres)
        as (ids & s1 & -> & Hdom & _).
      exists ids, s1. by rewrite Hdom.
    - by eexists _, _. }
  unfold bind at 1.
  destruct (fetch_reactions_results_returns reaction response
              ids (reaction_types ++ ["LIKE"]) ∅ s1 Hsave)
    as (result & s2 & Hrun).
  { intros t Ht. split.
    - intros Hsel. apply count_method_defined; [done|]. intros ->. auto.
    - rewrite Hkeys, <- reaction_keys_types. apply elem_of_list_to_set.
      apply list_elem_of_fmap. eauto. }
  rewrite Hrun.
  pose proof (fetch_reactions_results_dom _ _ _ _ _ _ _ _ Hrun) as Hdom.
  rewrite dom_empty_L, (left_id_L ∅ (∪)) in Hdom.
  destruct reaction as [r|]; munfold; [|by eexists _, _].
  rewrite selected_keys_one in Hdom by auto.
  destruct (result !! upper r) as [q|] eqn:Hq; simpl; [by eexists _, _|].
  apply (not_elem_of_dom (D := gset string)) in Hq.
  destruct Hq. rewrite Hdom. by apply elem_of_singleton.
Qed.

(** A call that returns: the entries of the dictionary it has built, the
    user table it leaves, and the resources its users come from. *)
Lemma fetch_reactions_trace reaction limit kwargs s out s' :
  fetch_reactions reaction limit kwargs s = (Ok out, s') →
  ∃ result : gmap string (gset Z),
    match reaction with
    | Some r => ∃ q, result !! upper r = Some q ∧ out = OneReaction q
    | None => out = AllReactions result
    end ∧
    dom result = list_to_set (upper <$> filter (reaction_selects reaction) all_types) ∧
    users s'
    = match api_call (graph_id (self s) +:+ "/reactions") (Some "2.6") (Some limit) kwargs
      with
      | Some page => resolved_table (reaction_resources reaction (data page)) (users s)
      | None => users s
      end ∧
    (∀ K q p, result !! K = Some q → p ∈ q →
       p ∈ user_pk <$> users s' ∧
       ∃ page resource us u us',
         api_call (graph_id (self s) +:+ "/reactions") (Some "2.6") (Some limit) kwargs
         = Some page ∧
         resource ∈ data page ∧ fields resource !! "type" = Some K ∧
         get_or_create_from_small_resource (fields resource) us = (Ok u, us') ∧
         user_pk u = p) ∧
    (resolver_keeps_users →
     ∀ page resource K q,
       api_call (graph_id (self s) +:+ "/reactions") (Some "2.6") (Some limit) kwargs
       = Some page →
       resource ∈ data page → fields resource !! "type" = Some K →
       reaction_is reaction K → result !! K = Some q →
       (∀ us, ∃ u us', get_or_create_from_small_resource (fields resource) us = (Ok u, us')) →
       ∃ us u us',
         get_or_create_from_small_resource (fields resource) us = (Ok u, us') ∧
         user_pk u ∈ q).
Proof.
  intros (ids & s1 & result & Hids & Hres & Hout)%fetch_reactions_inv.
  exists result. split; [done|].
  destruct (fetch_reactions_results_entries reaction _ ids all_types (λ _ Ht, Ht)
              _ _ _ _ Hres) as [Hus Hentries].
  assert (Hentry : ∀ K q, result !! K = Some q →
            ∃ id_list, ids !! K = Some id_list ∧
              q = list_to_set (filter (λ p, p ∈ id_list) (user_pk <$> users s1))).
  { intros K q [Hq|Hq]%Hentries; [by rewrite lookup_empty in Hq|done]. }
  apply fetch_reactions_results_dom in Hres.
  rewrite dom_empty_L, (left_id_L ∅ (∪)) in Hres.
  split; [done|]. rewrite Hus. clear Hentries Hout Hres Hus.
  destruct (api_call _ _ _ _) as [page|].
  - destruct (fetch_reactions_loop_trace _ _ _ _ _ _ Hids)
      as (Hdom & Htable & _ & Hfrom & Hall).
    split_and!; [done| |].
    + intros K q p (id_list & HK & ->)%Hentry
        [Hp Hin]%elem_of_list_to_set%list_elem_of_filter.
      split; [done|].
      destruct (Hfrom K p) as [Hstart|(x & us & u & us' & Hx & Ht & Hu & Hpk)].
      * by rewrite HK.
      * rewrite ids_start_empty in Hstart. by apply elem_of_nil in Hstart.
      * exists page, x, us, u, us'. done.
    + intros Hkeeps page' x K q [= <-] Hx Ht Hsel (id_list & HK & ->)%Hentry Halways.
      destruct (Hall Hkeeps x K Hx Ht Hsel) as (us & u & us' & Hu & Hin & Htab);
        [|done|].
      { rewrite <- Hdom. by apply (elem_of_dom_2 (D := gset string)) in HK. }
      exists us, u, us'. split; [done|].
      rewrite HK in Hin. simpl in Hin.
      apply elem_of_list_to_set, list_elem_of_filter. split; [done|].
      apply list_elem_of_fmap. eauto.
  - assert (ids = ids_start) as -> by congruence.
    assert (s1 = s) as -> by congruence.
    split_and!; [done| |by intros _ ? ? ? ? [=]].
    intros K q p (id_list & HK & ->)%Hentry
      [Hp Hin]%elem_of_list_to_set%list_elem_of_filter.
    pose proof (ids_start_empty K) as Hstart. rewrite HK in Hstart. simpl in Hstart.
    subst id_list. by apply elem_of_nil in Hp.
Qed.

(** C9: without a reaction [fetch_reactions] returns a dictionary whose
    keys are the seven upper-cased type names, each entry being a set of
    users: the keys of users of the table that the resolver returned for
    resources of the entry's type, those of every resource of that type
    that resolves included (with a resolver that only adds to the table
    and stores whom it returns).  With one of the seven types as the reaction
    it returns one such set, for the resources of that type; the
    resources of the other types are filtered out: the resolver is
    handed the resources of that type and no other.  In both cases the
    call returns, when the resolver raises nothing but
    [UnknownResourceType], the inherited [save] returns and, where the
    likes are asked for, the class has [LikableModelMixin] among its
    bases. *)
Theorem fetch_reactions_shapes (limit : Z) (kwargs : gmap string string) (s : State) :
  (∀ out s', fetch_reactions None limit kwargs s = (Ok out, s') →
     ∃ result,
       out = AllReactions result ∧ dom result = list_to_set reaction_keys ∧
       (∀ K q p, result !! K = Some q → p ∈ q →
          p ∈ user_pk <$> users s' ∧
          ∃ page resource us u us',
            api_call (graph_id (self s) +:+ "/reactions") (Some "2.6") (Some limit) kwargs
            = Some page ∧
            resource ∈ data page ∧ fields resource !! "type" = Some K ∧
            get_or_create_from_small_resource (fields resource) us = (Ok u, us') ∧
            user_pk u = p) ∧
       (resolver_keeps_users →
        ∀ page resource K,
          api_call (graph_id (self s) +:+ "/reactions") (Some "2.6") (Some limit) kwargs
          = Some page →
          resource ∈ data page → fields resource !! "type" = Some K →
          K ∈ reaction_keys →
          (∀ us, ∃ u us',
              get_or_create_from_small_resource (fields resource) us = (Ok u, us')) →
          ∃ q us u us',
            result !! K = Some q ∧
            get_or_create_from_small_resource (fields resource) us = (Ok u, us') ∧
            user_pk u ∈ q))
  ∧ (∀ r out s', upper r ∈ reaction_keys →
       fetch_reactions (Some r) limit kwargs s = (Ok out, s') →
       ∃ q,
         out = OneReaction q ∧
         (∀ p, p ∈ q →
            p ∈ user_pk <$> users s' ∧
            ∃ page resource us u us',
              api_call (graph_id (self s) +:+ "/reactions") (Some "2.6") (Some limit) kwargs
              = Some page ∧
              resource ∈ data page ∧ fields resource !! "type" = Some (upper r) ∧
              get_or_create_from_small_resource (fields resource) us = (Ok u, us') ∧
              user_pk u = p) ∧
         (resolver_keeps_users →
          ∀ page resource,
            api_call (graph_id (self s) +:+ "/reactions") (Some "2.6") (Some limit) kwargs
            = Some page →
            resource ∈ data page → fields resource !! "type" = Some (upper r) →
            (∀ us, ∃ u us',
                get_or_create_from_small_resource (fields resource) us = (Ok u, us')) →
            ∃ us u us',
              get_or_create_from_small_resource (fields resource) us = (Ok u, us') ∧
              user_pk u ∈ q) ∧
         users s'
         = match api_call (graph_id (self s) +:+ "/reactions") (Some "2.6") (Some limit)
                   kwargs with
           | Some page =>
               resolved_table
                 (filter (λ e, fields e !! "type" = Some (upper r)) (data page)) (users s)
           | None => users s
           end)
  ∧ (∀ r resources ids s0,
       fetch_reactions_loop (Some r) resources ids s0
       = fetch_reactions_loop (Some r)
           (filter (λ e, fields e !! "type" = Some (upper r)) resources) ids s0)
  ∧ (resolver_raises_only_unknown → save_returns →
     (likable = true →
      ∃ result s', fetch_reactions None limit kwargs s = (Ok (AllReactions result), s'))
     ∧ ∀ r, upper r ∈ reaction_keys → (upper r = "LIKE" → likable = true) →
         ∃ instances s',
           fetch_reactions (Some r) limit kwargs s = (Ok (OneReaction instances), s')).
Proof.
  split_and!.
  - intros out s' (result & -> & Hdom & _ & Hsound & Hcomplete)%fetch_reactions_trace.
    rewrite selected_keys_all in Hdom.
    exists result. split_and!; [done..|].
    intros Hkeeps page x K Hpage Hx Ht HK Halways.
    assert (is_Some (result !! K)) as [q Hq].
    { apply (elem_of_dom (D := gset string)). rewrite Hdom. by apply elem_of_list_to_set. }
    destruct (Hcomplete Hkeeps page x K q Hpage Hx Ht I Hq Halways) as (us & u & us' & ? & ?).
    by exists q, us, u, us'.
  - intros r out s' Hr
      (result & (q & Hq & ->) & _ & Htable & Hsound & Hcomplete)%fetch_reactions_trace.
    exists q. split_and!; [done| | |done].
    + intros p Hp. by apply (Hsound (upper r) q p).
    + intros Hkeeps page x Hpage Hx Ht Halways.
      by apply (Hcomplete Hkeeps page x (upper r) q).
  - intros. apply fetch_reactions_loop_filter.
  - intros Hres Hsave. split.
    + intros Hlike.
      destruct (fetch_reactions_returns None limit kwargs s Hres Hsave)
        as (out & s' & Hrun); [done..|].
      destruct (fetch_reactions_Ok _ _ _ _ _ _ Hrun) as (_ & _ & result & _ & ->).
      eauto.
    + intros r Hr Hlike.
      destruct (fetch_reactions_returns (Some r) limit kwargs s Hres Hsave)
        as (out & s' & Hrun); [by intros ? [= <-]|done|].
      destruct (fetch_reactions_Ok _ _ _ _ _ _ Hrun) as (_ & _ & result & _ & q & _ & ->).
      eauto.
Qed.

End fetch_reactions_props.

(** The sample reactions, fetched for all types: the seven keys, and user
    1 alone under ['LOVE']. *)
Lemma fetch_reactions_shapes_witness :
  ∃ result,
    (fetch_reactions (H := reactions_host) None 1000 ∅ fresh_state).1
    = Ok (AllReactions result)
    ∧ dom result = list_to_set reaction_keys
    ∧ result !! "LOVE" = Some {[1]}.
Proof.
  pose proof (proj1 (fetch_reactions_shapes (H := reactions_host) 1000 ∅ fresh_state))
    as Hall.
  destruct (fetch_reactions (H := reactions_host) None 1000 ∅ fresh_state)
    as [[out|e] s'] eqn:Hrun.
  - destruct (Hall out s' eq_refl) as (result & -> & Hdom & _). exists result.
    split_and!; [done..|]. vm_compute in Hrun. by injection Hrun as <- _.
  - exfalso. vm_compute in Hrun. discriminate.
Defined.

Example fetch_reactions_one_type :
  (fetch_reactions (H := reactions_host) (Some "love") 1000 ∅ fresh_state).1
  = Ok (OneReaction {[1]}).
Proof. vm_compute. reflexivity. Qed.

(** ** Pages *)

Section pages.
Context `{Host}.

(** Modelled [fetch_all]: with fuel for every page, the instances of all
    the pages reach [return_all]. *)
Lemma fetch_all_consumes return_all name func kwargs s pages s' :
  consumes func name kwargs s pages s' →
  ∀ fuel instances_all,
    (length pages ≤ fuel)%nat →
    fetch_all fuel return_all name func instances_all kwargs s
    = Some (on_self (return_all (instances_all ∪ ⋃ pages)) s').
Proof.
  induction 1 as [kwargs s q response s' Hcall Hlast
                 |kwargs s q response cursor s1 rest s' Hcall Hnext _ IH];
    intros fuel instances_all Hfuel.
  - destruct fuel as [|fuel]; [simpl in Hfuel; lia|].
    simpl. rewrite Hcall, Hlast. by rewrite (right_id_L ∅ (∪)).
  - destruct fuel as [|fuel]; [simpl in Hfuel; lia|].
    simpl. rewrite Hcall, Hnext. rewrite IH by (simpl in Hfuel; lia).
    by rewrite (assoc_L (∪)).
Qed.

(** [fetch_likes] never raises, the resolver raising nothing but
    [UnknownResourceType]. *)
Lemma fetch_likes_loop_returns resources : ∀ ids s,
  resolver_raises_only_unknown →
  ∃ ids' s', fetch_likes_loop resources ids s = (Ok ids', s').
Proof.
  induction resources as [|resource rest IH]; intros ids s Hres; [by eexists _, _|].
  simpl. unfold bind at 1. munfold.
  destruct (get_or_create_from_small_resource (fields resource) (users s))
    as [[u|e] us] eqn:Hu; simpl; [by apply IH|].
  rewrite (Hres _ _ _ _ Hu). simpl. by apply IH.
Qed.

Lemma fetch_likes_returns limit kwargs s :
  resolver_raises_only_unknown →
  ∃ instances s',
    fetch_likes limit kwargs s
    = (Ok (instances,
           api_call (graph_id (self s) +:+ "/likes") None (Some limit) kwargs), s').
Proof.
  intros Hres. unfold fetch_likes. unfold bind at 1, gets at 1.
  destruct (api_call _ _ _ _) as [page|].
  - unfold bind at 1.
    destruct (fetch_likes_loop_returns (data page) [] s Hres) as (ids & s' & ->).
    by eexists _, _.
  - by eexists _, _.
Qed.

End pages.

(** The decorated [fetch_likes] on the two sample pages: the users of
    both pages are returned and counted. *)
Example fetch_likes_decorated_two_pages :
  match fetch_likes_decorated (H := likes_host) 2 1000 ∅ fresh_state with
  | Some (Ok instances, after) =>
      instances = {[1; 2]}
      ∧ users after = [sample_user 1 100; sample_user 2 200]
      ∧ attrs (self after) !! "likes_count" = Some (PyInt 2)
  | _ => False
  end.
Proof. vm_compute. done. Qed.

(** [fetch_reactions] asks for one page: what any other request would
    answer has no part in its result. *)
Lemma fetch_reactions_single_request
    (api api' : string → option string → option Z → gmap string string → option Response)
    parse int resolver saver like reaction limit kwargs s :
  api (graph_id (self s) +:+ "/reactions") (Some "2.6") (Some limit) kwargs
  = api' (graph_id (self s) +:+ "/reactions") (Some "2.6") (Some limit) kwargs →
  fetch_reactions (H := Build_Host api parse int resolver saver like)
    reaction limit kwargs s
  = fetch_reactions (H := Build_Host api' parse int resolver saver like)
      reaction limit kwargs s.
Proof.
  intros Hsame. unfold fetch_reactions. unfold bind at 1 4, gets. cbn [api_call].
  rewrite Hsame. reflexivity.
Qed.

(** C8 fails for [fetch_reactions]: the first sample page names a second
    page, which holds a reaction of user 200; the call returns the users
    of the first page only, and user 200 is never resolved. *)
Theorem fetch_reactions_first_page_only :
  (∃ page, api_call (Host := reactions_host) "40/reactions" (Some "2.6") (Some 1000)
             (<["after" := "c1"]> ∅) = Some page
           ∧ resource [("id", "200"); ("name", "B"); ("type", "LOVE")] ∈ data page)
  ∧ match fetch_reactions (H := reactions_host) None 1000 ∅ fresh_state with
    | (Ok (AllReactions result), after) =>
        result !! "LOVE" = Some {[1]}
        ∧ user_graph_id <$> users after = [100; 300; 400; 500]
    | _ => False
    end.
Proof.
  split.
  - eexists. split; [vm_compute; reflexivity|]. by left.
  - vm_compute. done.
Qed.

(** ** Entries that are not skipped *)

Section undated.
Context `{Host}.

(** A post that names its author and lacks a [created_time], or whose
    author lacks an id, stops the building of the timestamps. *)
Lemma timestamp_pairs_raises {S} posts (s : S) :
  Exists (λ post, fields post !! "created_time" = None
                  ∨ ∃ from, entry_from post = Some from ∧ from !! "id" = None) posts →
  ∃ e, timestamp_pairs posts s = (Raise e, s).
Proof.
  induction 1 as [post posts Hbad|post posts _ IH].
  - simpl. unfold bind at 1.
    pose proof (post_graph_id_pure post s) as Hpure.
    destruct (post_graph_id post s) as [[g|e] s0] eqn:Hg; simpl in Hpure; subst s0;
      [|eauto].
    destruct Hbad as [Hbad|(from & Hfrom & Hid)].
    + munfold. rewrite Hbad. simpl. eauto.
    + revert Hg. unfold post_graph_id, post_from. munfold. rewrite Hfrom. simpl.
      by rewrite Hid.
  - simpl. unfold bind at 1.
    pose proof (post_graph_id_pure post s) as Hpure.
    destruct (post_graph_id post s) as [[g|e] s0]; simpl in Hpure; subst s0; [|eauto].
    munfold. destruct (fields post !! "created_time") as [created|]; simpl; [|eauto].
    destruct (datetime_parse created) as [t|e]; simpl; [|eauto].
    destruct IH as [e ->]. simpl. eauto.
Qed.

Lemma fetch_shares_reconcile_raises r s :
  Exists (λ post, has_from post ∧
                  (fields post !! "created_time" = None
                   ∨ ∃ from, entry_from post = Some from ∧ from !! "id" = None))
         (data r) →
  ∃ e, fetch_shares_reconcile r s = (Raise e, s).
Proof.
  intros Hbad. unfold fetch_shares_reconcile. unfold bind at 1.
  destruct (timestamp_pairs_raises (filter has_from (data r)) s) as [e ->]; [|eauto].
  apply Exists_exists in Hbad as (post & Hin & Hfrom & Hbad).
  apply Exists_exists. exists post. split; [|done].
  by apply list_elem_of_filter.
Qed.

End undated.

(** C4 fails for [fetch_shares]: a post with an author and no
    [created_time] is not skipped; the [KeyError] leaves the method. *)
Theorem fetch_shares_undated_post_raises :
  fetch_shares (H := undated_host) 1000 ∅ fresh_state
  = (Raise (KeyError "created_time"), fresh_state)
  ∧ fetch_shares_decorated (H := undated_host) 1 1000 ∅ fresh_state
    = Some (Raise (KeyError "created_time"), fresh_state).
Proof. split; vm_compute; reflexivity. Qed.

(** * Further properties *)

(** ** ActionableModelMixin.save: what a raise leaves, and saving twice *)

Lemma for_each_app {S A} (l1 l2 : list A) (body : A → M S unit) (s : S) :
  for_each (l1 ++ l2) body s
  = match for_each l1 body s with
    | (Ok _, s') => for_each l2 body s'
    | (Raise e, s') => (Raise e, s')
    end.
Proof.
  revert s. induction l1 as [|x l1 IH]; intros s; [done|].
  simpl. unfold bind. destruct (body x s) as [[[]|e] s1]; [apply IH|done].
Qed.

Lemma count_of_same_but i i' name :
  same_but_actions_count i i' → name ≠ "actions_count" →
  count_of i' name = count_of i name.
Proof. intros (_&_&_&_&Hattrs) Hne. unfold count_of. by rewrite Hattrs. Qed.

Lemma counts_of_same_but i i' (names : list string) :
  same_but_actions_count i i' → (∀ r, r ∈ names → count_field r ≠ "actions_count") →
  count_of i' <$> (count_field <$> names) = count_of i <$> (count_field <$> names).
Proof.
  intros Hsame Hne. rewrite <- !list_fmap_compose.
  apply Forall_fmap_ext, Forall_forall. intros r Hr. simpl.
  by apply count_of_same_but, Hne.
Qed.

Lemma actions_total_same_but i i' :
  same_but_actions_count i i' → actions_total i' = actions_total i.
Proof.
  intros Hsame. unfold actions_total.
  rewrite !(count_of_same_but i i') by done.
  by rewrite (counts_of_same_but i i') by (done || apply count_field_not_actions).
Qed.

(** When the six reaction counts are numbers the method returns, with the
    sum in [actions_count]; when it returns they were numbers. *)
Lemma ActionableModelMixin_save_Ok i :
  (Forall (λ r, is_number i (count_field r)) reaction_types →
   ∃ i', ActionableModelMixin_save i = (Ok tt, i') ∧ same_but_actions_count i i' ∧
         attrs i' !! "actions_count" = Some (PyInt (actions_total i)))
  ∧ (∀ i', ActionableModelMixin_save i = (Ok tt, i') →
       Forall (λ r, is_number i (count_field r)) reaction_types).
Proof.
  rewrite ActionableModelMixin_save_unfold.
  set (base := count_of i "likes_count" + count_of i "shares_count"
               + count_of i "comments_count").
  set (j := set_attrs <["actions_count" := PyInt base]> i).
  assert (Hj : same_but_actions_count i j) by apply same_but_actions_count_set.
  assert (Hnum : ∀ r, r ∈ reaction_types →
                      is_number j (count_field r) ↔ is_number i (count_field r)).
  { intros r Hr. unfold is_number. destruct Hj as (_&_&_&_&Hj).
    by rewrite Hj by by apply count_field_not_actions. }
  destruct (add_reaction_counts reaction_types j base)
    as [[Hall (i'&Hrun&Hsame&Hv)]|[Hex (i'&Hrun)]].
  - subst j. simpl. by rewrite lookup_insert_eq.
  - apply count_field_not_actions.
  - assert (Hall' : Forall (λ r, is_number i (count_field r)) reaction_types).
    { rewrite Forall_forall in Hall |- *. intros r Hr. by apply Hnum, Hall. }
    split; [|done]. intros _. exists i'. split_and!; [done| |].
    + by eapply same_but_actions_count_trans.
    + rewrite Hv. unfold actions_total. fold base.
      by rewrite (counts_of_same_but i j) by (done || apply count_field_not_actions).
  - split.
    + intros Hall. exfalso. rewrite Exists_exists in Hex. rewrite Forall_forall in Hall.
      destruct Hex as (r & Hr & Hbad). by apply Hbad, Hnum, Hall.
    + intros i''. by rewrite Hrun.
Qed.

(** X1: when [ActionableModelMixin.save] raises it has already written
    [actions_count]: with the reaction counts up to some type numbers and
    the count of the next type missing or null, it raises [TypeError] and
    leaves in [actions_count] the three guarded counts plus the reaction
    counts before that type; nothing else is changed. *)
Theorem ActionableModelMixin_save_partial (i : Instance)
    (before rest : list string) (r : string) :
  reaction_types = before ++ r :: rest →
  Forall (λ r', is_number i (count_field r')) before →
  ¬ is_number i (count_field r) →
  ∃ i', ActionableModelMixin_save i = (Raise TypeError, i') ∧
        same_but_actions_count i i' ∧
        attrs i' !! "actions_count"
        = Some (PyInt (count_of i "likes_count" + count_of i "shares_count"
                       + count_of i "comments_count"
                       + foldr Z.add 0 (count_of i <$> (count_field <$> before)))).
Proof.
  intros Hsplit Hbefore Hbad.
  rewrite ActionableModelMixin_save_unfold, Hsplit, for_each_app.
  set (base := count_of i "likes_count" + count_of i "shares_count"
               + count_of i "comments_count").
  set (j := set_attrs <["actions_count" := PyInt base]> i).
  assert (Hj : same_but_actions_count i j) by apply same_but_actions_count_set.
  assert (Hin : ∀ r', r' ∈ before ++ r :: rest → count_field r' ≠ "actions_count").
  { intros r' Hr'. apply count_field_not_actions. by rewrite Hsplit. }
  assert (Hnum : ∀ r', r' ∈ before ++ r :: rest →
                       is_number j (count_field r') ↔ is_number i (count_field r')).
  { intros r' Hr'. unfold is_number. destruct Hj as (_&_&_&_&Hj). by rewrite Hj by auto. }
  destruct (add_reaction_counts before j base)
    as [[_ (i1&Hrun&Hsame&Hv)]|[Hex _]].
  - subst j. simpl. by rewrite lookup_insert_eq.
  - intros r' Hr'. apply Hin, elem_of_app. by left.
  - rewrite Hrun. simpl. unfold bind at 1.
    rewrite (add_reaction_count_null i1 r _ Hv).
    + exists i1. split_and!; [done|by eapply same_but_actions_count_trans|].
      rewrite Hv.
      by rewrite (counts_of_same_but i j)
        by (done || intros r' Hr'; apply Hin, elem_of_app; by left).
    + intros [n Hn]. apply Hbad, Hnum; [apply elem_of_app; right; by left|].
      exists n. destruct Hsame as (_&_&_&_&Hsame).
      rewrite <- Hsame; [done|]. apply Hin, elem_of_app. right. by left.
  - exfalso. rewrite Exists_exists in Hex. rewrite Forall_forall in Hbefore.
    destruct Hex as (r' & Hr' & Hno). apply Hno, Hnum; [apply elem_of_app; by left|].
    by apply Hbefore.
Qed.

(** A record whose [hahas_count] is null: the sum stops after love and
    wow. *)
Lemma ActionableModelMixin_save_partial_witness :
  ∃ i', ActionableModelMixin_save
          (sample_record (("hahas_count", PyNone) :: all_counts (PyInt 2)))
        = (Raise TypeError, i')
        ∧ attrs i' !! "actions_count" = Some (PyInt 10).
Proof.
  destruct (ActionableModelMixin_save_partial
              (sample_record (("hahas_count", PyNone) :: all_counts (PyInt 2)))
              ["love"; "wow"] ["sad"; "angry"; "thankful"] "haha" eq_refl)
    as (i' & Hrun & _ & Hv).
  - repeat constructor; by exists 2.
  - intros [n Hn]. vm_compute in Hn. discriminate.
  - exists i'. split; [exact Hrun|]. rewrite Hv. vm_compute. reflexivity.
Defined.

(** X2: [actions_count] is computed afresh at every call: when
    [ActionableModelMixin.save] returns, calling it again on the result
    returns as well and leaves the same [actions_count]. *)
Theorem ActionableModelMixin_save_twice (i i' : Instance) :
  ActionableModelMixin_save i = (Ok tt, i') →
  ∃ i'', ActionableModelMixin_save i' = (Ok tt, i'') ∧
         same_but_actions_count i' i'' ∧
         attrs i'' !! "actions_count" = attrs i' !! "actions_count".
Proof.
  intros Hrun.
  pose proof (proj2 (ActionableModelMixin_save_Ok i) _ Hrun) as Hall.
  destruct (proj1 (ActionableModelMixin_save_Ok i) Hall) as (k & Hk & Hsame & Hv).
  rewrite Hrun in Hk. injection Hk as <-.
  destruct (proj1 (ActionableModelMixin_save_Ok i')) as (i'' & Hrun' & Hsame' & Hv').
  { rewrite Forall_forall in Hall |- *. intros r Hr. destruct (Hall r Hr) as [n Hn].
    exists n. destruct Hsame as (_&_&_&_&Hattrs).
    by rewrite Hattrs by by apply count_field_not_actions. }
  exists i''. split_and!; [done..|].
  by rewrite Hv', Hv, (actions_total_same_but i i').
Qed.

Lemma ActionableModelMixin_save_twice_witness :
  ∃ i' i'',
    ActionableModelMixin_save (sample_record (all_counts (PyInt 2))) = (Ok tt, i')
    ∧ ActionableModelMixin_save i' = (Ok tt, i'')
    ∧ attrs i'' !! "actions_count" = Some (PyInt 18).
Proof.
  destruct (ActionableModelMixin_save (sample_record (all_counts (PyInt 2))))
    as [[[]|e] i'] eqn:Hrun.
  - destruct (ActionableModelMixin_save_twice _ _ Hrun) as (i'' & Hrun' & _ & Hv).
    exists i', i''. split_and!; [done..|]. rewrite Hv.
    vm_compute in Hrun. injection Hrun as <-. vm_compute. reflexivity.
  - exfalso. vm_compute in Hrun. discriminate.
Defined.

(** ** count_reactions: a raise changes nothing; the two totals *)

Lemma count_reactions_loop_state names : ∀ count i,
  (count_reactions_loop names count i).2 = i.
Proof.
  induction names as [|r names IH]; intros count i; [done|].
  simpl. munfold. destruct (attrs i !! count_field r) as [v|]; simpl; [|done].
  destruct (py_add count v); simpl; [apply IH|done].
Qed.

Lemma count_reactions_loop_Ok names : ∀ acc i,
  Forall (λ r, is_number i (count_field r)) names →
  count_reactions_loop names (PyInt acc) i
  = (Ok (PyInt (acc + foldr Z.add 0 (count_of i <$> (count_field <$> names)))), i).
Proof.
  induction names as [|r names IH]; intros acc i Hall.
  - simpl. unfold ret. do 3 f_equal. lia.
  - apply Forall_cons in Hall as [[n Hn] Hall].
    cbn [count_reactions_loop]. munfold. rewrite Hn. cbn [py_add].
    rewrite IH by done. rewrite !fmap_cons. cbn [foldr].
    assert (count_of i (count_field r) = n) as -> by (unfold count_of; by rewrite Hn).
    do 3 f_equal. lia.
Qed.

Lemma count_reactions_loop_raises names : ∀ acc i,
  Exists (λ r, ¬ is_number i (count_field r)) names →
  ∃ e, (count_reactions_loop names (PyInt acc) i).1 = Raise e ∧
       (e = TypeError ∨ ∃ r, r ∈ names ∧ e = AttributeError (count_field r)).
Proof.
  induction names as [|r names IH]; intros acc i Hbad; [by apply Exists_nil in Hbad|].
  cbn [count_reactions_loop]. munfold.
  destruct (attrs i !! count_field r) as [[|n]|] eqn:Hr; simpl.
  - eauto.
  - apply Exists_cons in Hbad as [Hbad|Hbad]; [destruct Hbad; by exists n|].
    destruct (IH (acc + n) i Hbad) as (e & He & [->|(r' & Hr' & ->)]).
    + eauto.
    + exists (AttributeError (count_field r')). split; [done|]. right.
      exists r'. split; [by right|done].
  - exists (AttributeError (count_field r)). split; [done|]. right.
    exists r. split; [by left|done].
Qed.

Section count_reactions_more.
Context `{Host}.

(** X3: [count_reactions] never half-updates: when one of the seven
    counts it adds is missing or null it raises ([AttributeError] for a
    missing one, [TypeError] for a null one), leaves the record exactly
    as it was and does not save. *)
Theorem count_reactions_raise_untouched (i : Instance) :
  Exists (λ r, ¬ is_number i (count_field r)) (reaction_types ++ ["like"]) →
  ∃ e, count_reactions i = (Raise e, i) ∧
       (e = TypeError ∨
        ∃ r, r ∈ reaction_types ++ ["like"] ∧ e = AttributeError (count_field r)).
Proof.
  intros Hbad. unfold count_reactions. unfold bind at 1.
  pose proof (count_reactions_loop_state (reaction_types ++ ["like"]) (PyInt 0) i) as Hst.
  destruct (count_reactions_loop_raises _ 0 i Hbad) as (e & He & Hkind).
  destruct (count_reactions_loop _ _ i) as [[v|e'] i0]; simpl in *; [done|].
  subst i0. injection He as ->. eauto.
Qed.

(** X4: with [ActionableModelMixin.save] as the inherited [save], after
    [count_reactions] the two totals agree: [actions_count] is
    [reactions_count] plus the shares and the comments (null or missing
    read as zero), the likes being counted once. *)
Theorem count_reactions_actions_total (i : Instance)
    (love wow haha sad angry thankful like : Z) :
  (∀ j, save j = ActionableModelMixin_save j) →
  attrs i !! "loves_count" = Some (PyInt love) →
  attrs i !! "wows_count" = Some (PyInt wow) →
  attrs i !! "hahas_count" = Some (PyInt haha) →
  attrs i !! "sads_count" = Some (PyInt sad) →
  attrs i !! "angrys_count" = Some (PyInt angry) →
  attrs i !! "thankfuls_count" = Some (PyInt thankful) →
  attrs i !! "likes_count" = Some (PyInt like) →
  ∃ i', count_reactions i = (Ok tt, i') ∧
        attrs i' !! "reactions_count"
        = Some (PyInt (love + wow + haha + sad + angry + thankful + like)) ∧
        attrs i' !! "actions_count"
        = Some (PyInt (love + wow + haha + sad + angry + thankful + like
                       + count_of i "shares_count" + count_of i "comments_count")).
Proof.
  intros Hsave H1 H2 H3 H4 H5 H6 H7.
  assert (Hnum : Forall (λ r, is_number i (count_field r)) (reaction_types ++ ["like"])).
  { unfold reaction_types, count_field. cbv [String.app app].
    repeat constructor; unfold is_number; eauto. }
  unfold count_reactions. unfold bind at 1.
  rewrite (count_reactions_loop_Ok _ 0 i Hnum).
  unfold bind at 1, setattr, modify.
  set (total := 0 + foldr Z.add 0 _).
  set (j := set_attrs <["reactions_count" := PyInt total]> i).
  assert (Htotal : total = love + wow + haha + sad + angry + thankful + like).
  { subst total. unfold reaction_types, count_field, count_of. cbv [String.app app].
    cbn [fmap list_fmap foldr]. rewrite H1, H2, H3, H4, H5, H6, H7. lia. }
  assert (Hj : ∀ name, name ≠ "reactions_count" → attrs j !! name = attrs i !! name).
  { intros name Hne. subst j. simpl. by rewrite lookup_insert_ne. }
  destruct (proj1 (ActionableModelMixin_save_Ok j)) as (i' & Hrun & Hsame & Hv).
  { unfold reaction_types, count_field. cbv [String.app].
    repeat constructor; unfold is_number; rewrite Hj by done; eauto. }
  rewrite Hsave, Hrun. exists i'. split_and!; [done| |].
  - destruct Hsame as (_&_&_&_&Hattrs). rewrite Hattrs by done.
    subst j. simpl. by rewrite lookup_insert_eq, Htotal.
  - rewrite Hv. do 2 f_equal. unfold actions_total, reaction_types, count_field, count_of.
    cbv [String.app]. cbn [fmap list_fmap foldr].
    rewrite !Hj by done. rewrite H1, H2, H3, H4, H5, H6, H7. lia.
Qed.

End count_reactions_more.

Lemma count_reactions_raise_untouched_witness :
  let i := sample_record (("wows_count", PyNone) :: all_counts (PyInt 2)) in
  ∃ e, count_reactions (H := sample_host [] Model_save) i = (Raise e, i).
Proof.
  intros i.
  destruct (count_reactions_raise_untouched (H := sample_host [] Model_save) i)
    as (e & Hrun & _).
  - right. left. intros [n Hn]. vm_compute in Hn. discriminate.
  - by exists e.
Defined.

Lemma count_reactions_actions_total_witness :
  ∃ i', count_reactions (H := sample_host [] ActionableModelMixin_save)
          (sample_record (("shares_count", PyNone) :: all_counts (PyInt 2)))
        = (Ok tt, i')
        ∧ attrs i' !! "reactions_count" = Some (PyInt 14)
        ∧ attrs i' !! "actions_count" = Some (PyInt 16).
Proof.
  destruct (count_reactions_actions_total (H := sample_host [] ActionableModelMixin_save)
              (sample_record (("shares_count", PyNone) :: all_counts (PyInt 2)))
              2 2 2 2 2 2 2 (λ _, eq_refl)
              eq_refl eq_refl eq_refl eq_refl eq_refl eq_refl eq_refl)
    as (i' & Hrun & Hr & Ha).
  exists i'. split_and!; [exact Hrun|exact Hr|].
  rewrite Ha. vm_compute. reflexivity.
Defined.

(** ** fetch_reactions: what it writes and what it leaves *)

Section fetch_reactions_more.
Context `{Host}.

(** The loop over the resources touches the user table only. *)
Lemma fetch_reactions_step_frame reaction resource ids s :
  self (fetch_reactions_step reaction resource ids s).2 = self s ∧
  through (fetch_reactions_step reaction resource ids s).2 = through s.
Proof.
  unfold fetch_reactions_step. munfold.
  destruct reaction as [r|]; simpl.
  - destruct (fields resource !! "type") as [t|]; simpl; [|done].
    destruct (bool_decide (upper r = t)); simpl; [|done].
    destruct (get_or_create_from_small_resource _ _) as [[u|e] us]; simpl.
    + destruct (ids !! t); simpl; done.
    + destruct e; simpl; done.
  - destruct (get_or_create_from_small_resource _ _) as [[u|e] us]; simpl.
    + destruct (fields resource !! "type") as [t|]; simpl; [|done].
      destruct (ids !! t); simpl; done.
    + destruct e; simpl; done.
Qed.

Lemma fetch_reactions_loop_frame reaction resources : ∀ ids s,
  self (fetch_reactions_loop reaction resources ids s).2 = self s ∧
  through (fetch_reactions_loop reaction resources ids s).2 = through s.
Proof.
  induction resources as [|resource rest IH]; intros ids s; [done|].
  rewrite fetch_reactions_loop_cons.
  destruct (fetch_reactions_step_frame reaction resource ids s) as [Hself Hthrough].
  destruct (fetch_reactions_step reaction resource ids s) as [[ids1|e] s1]; simpl in *.
  - destruct (IH ids1 s1) as [-> ->]. done.
  - done.
Qed.

(** What the loop that fills [result] leaves alone. *)
Lemma fetch_reactions_results_frame reaction response ids types :
  save_keeps_counts →
  (∀ t, t ∈ types → t ∈ reaction_types ++ ["LIKE"]) →
  ∀ result s result' s',
    fetch_reactions_results reaction response ids types result s = (Ok result', s') →
    users s' = users s ∧ through s' = through s ∧
    (∀ name, name ≠ "actions_count" →
             name ∉ type_count_field <$> filter (reaction_selects reaction) types →
             attrs (self s') !! name = attrs (self s) !! name) ∧
    (∀ name, name ∉ type_users_field <$> filter (reaction_selects reaction) types →
             rels (self s') !! name = rels (self s) !! name) ∧
    (∀ key, key ∉ upper <$> filter (reaction_selects reaction) types →
            result' !! key = result !! key).
Proof.
  intros Hkeep. induction types as [|t types IH]; intros Htypes result s result' s' Hrun.
  - simpl in Hrun. unfold ret in Hrun. by simplify_eq.
  - rewrite fetch_reactions_results_cons in Hrun.
    destruct (fetch_reactions_result _ _ _ _ _ _) as [[result1|e] s1] eqn:Hstep; [|done].
    apply IH in Hrun as (Hu & Ht & Ha & Hr & Hk); [|intros; apply Htypes; by right].
    rewrite filter_cons.
    destruct (decide (reaction_selects reaction t)) as [Hsel|Hno].
    + apply fetch_reactions_result_selected in Hstep
        as (id_list & i' & _ & -> & Hsave & ->); [|apply Htypes; by left|done].
      specialize (Hkeep (set_attrs <[type_count_field t := queryset_count
                           (list_to_set (filter (λ p, p ∈ id_list) (user_pk <$> users s)))]>
                           (set_rels <[type_users_field t :=
                              list_to_set (filter (λ p, p ∈ id_list) (user_pk <$> users s))]>
                              (self s)))).
      rewrite Hsave in Hkeep. destruct Hkeep as (_&_&_&Hrels&Hattrs). simpl in *.
      split_and!; [done..| | |].
      * intros name Hne [Hhd Htl]%not_elem_of_cons.
        rewrite Ha, Hattrs by done. by rewrite lookup_insert_ne.
      * intros name [Hhd Htl]%not_elem_of_cons.
        rewrite Hr, Hrels by done. by rewrite lookup_insert_ne.
      * intros key [Hhd Htl]%not_elem_of_cons.
        rewrite Hk by done. by rewrite lookup_insert_ne.
    + rewrite fetch_reactions_result_skip in Hstep by done. by simplify_eq.
Qed.

(** What it writes: for every kept type the entry, the count and the
    relation agree. *)
Lemma fetch_reactions_results_counts reaction response ids types :
  save_keeps_counts →
  (∀ t, t ∈ types → t ∈ reaction_types ++ ["LIKE"]) →
  NoDup (type_count_field <$> types) →
  NoDup (type_users_field <$> types) →
  NoDup (upper <$> types) →
  (∀ t, t ∈ types → type_count_field t ≠ "actions_count") →
  ∀ result s result' s',
    fetch_reactions_results reaction response ids types result s = (Ok result', s') →
    ∀ t, t ∈ types → reaction_selects reaction t →
      ∃ id_list,
        ids !! upper t = Some id_list ∧
        let q : gset Z := list_to_set (filter (λ p, p ∈ id_list) (user_pk <$> users s)) in
        result' !! upper t = Some q ∧
        attrs (self s') !! type_count_field t = Some (PyInt (Z.of_nat (size q))) ∧
        rels (self s') !! type_users_field t = Some q.
Proof.
  intros Hkeep.
  induction types as [|t0 types IH];
    intros Htypes Hc Hu Hk Hact result s result' s' Hrun t Ht Hsel.
  - by apply elem_of_nil in Ht.
  - rewrite !fmap_cons in *.
    apply NoDup_cons in Hc as [Hc0 Hc], Hu as [Hu0 Hu], Hk as [Hk0 Hk].
    rewrite fetch_reactions_results_cons in Hrun.
    destruct (fetch_reactions_result _ _ _ _ _ _) as [[result1|e] s1] eqn:Hstep; [|done].
    assert (Htypes' : ∀ t, t ∈ types → t ∈ reaction_types ++ ["LIKE"])
      by (intros; apply Htypes; by right).
    pose proof (fetch_reactions_results_frame reaction response ids types Hkeep Htypes'
                  _ _ _ _ Hrun) as (Hus & _ & Ha & Hr & Hkey).
    apply elem_of_cons in Ht as [->|Ht].
    + apply fetch_reactions_result_selected in Hstep
        as (id_list & i' & Hids & -> & Hsave & ->); [|apply Htypes; by left|done].
      exists id_list. split; [done|]. cbn zeta.
      specialize (Hkeep (set_attrs <[type_count_field t0 := queryset_count
                           (list_to_set (filter (λ p, p ∈ id_list) (user_pk <$> users s)))]>
                           (set_rels <[type_users_field t0 :=
                              list_to_set (filter (λ p, p ∈ id_list) (user_pk <$> users s))]>
                              (self s)))).
      rewrite Hsave in Hkeep. destruct Hkeep as (_&_&_&Hrels&Hattrs). simpl in *.
      split_and!.
      * rewrite Hkey; [by rewrite lookup_insert_eq|].
        intros (t' & Heq & [_ Hin]%list_elem_of_filter)%list_elem_of_fmap.
        apply Hk0. rewrite Heq. apply list_elem_of_fmap. eauto.
      * rewrite Ha; [|apply Hact; by left|].
        -- rewrite Hattrs by (apply Hact; by left). by rewrite lookup_insert_eq.
        -- intros (t' & Heq & [_ Hin]%list_elem_of_filter)%list_elem_of_fmap.
           apply Hc0. rewrite Heq. apply list_elem_of_fmap. eauto.
      * rewrite Hr.
        -- rewrite Hrels. by rewrite lookup_insert_eq.
        -- intros (t' & Heq & [_ Hin]%list_elem_of_filter)%list_elem_of_fmap.
           apply Hu0. rewrite Heq. apply list_elem_of_fmap. eauto.
    + assert (users s1 = users s) as Hsame.
      { destruct (decide (reaction_selects reaction t0)) as [Hsel0|Hno0].
        - apply fetch_reactions_result_selected in Hstep
            as (? & ? & _ & _ & _ & ->); [done|apply Htypes; by left|done].
        - rewrite fetch_reactions_result_skip in Hstep by done. by simplify_eq. }
      destruct (IH Htypes' Hc Hu Hk (λ t Ht, Hact t (list_elem_of_further _ _ _ Ht))
                  _ _ _ _ Hrun t Ht Hsel) as (id_list & Hids & Hq).
      exists id_list. split; [done|]. by rewrite <- Hsame.
Qed.

Local Abbreviation all_types := (reaction_types ++ ["LIKE"]).
Local Abbreviation ids_start :=
  (foldl (λ (ids : gmap string (list Z)) id_type, <[upper id_type := []]> ids) ∅ all_types).

(** The first phase leaves the record and the through table alone. *)
Lemma fetch_reactions_ids_frame reaction (response : option Response) s :
  self (match response with
        | Some page => fetch_reactions_loop reaction (data page) ids_start s
        | None => (Ok ids_start, s)
        end).2 = self s.
Proof. destruct response; [apply fetch_reactions_loop_frame|done]. Qed.

Lemma type_fields_reaction r :
  r ∈ reaction_types →
  type_count_field r = count_field r ∧ type_users_field r = users_field r.
Proof.
  unfold reaction_types. rewrite !elem_of_cons, elem_of_nil.
  intros Hin; destruct_or!; subst; done.
Qed.

Lemma all_types_count_fields : NoDup (type_count_field <$> all_types).
Proof. vm_decide. Qed.

Lemma all_types_users_fields : NoDup (type_users_field <$> all_types).
Proof. vm_decide. Qed.

Lemma all_types_upper : NoDup (upper <$> all_types).
Proof. vm_decide. Qed.

Lemma all_types_not_actions t : t ∈ all_types → type_count_field t ≠ "actions_count".
Proof.
  unfold reaction_types. cbn [app]. rewrite !elem_of_cons, elem_of_nil.
  intros Hin; destruct_or!; subst; done.
Qed.

(** X5: a reaction that is not one of the seven types makes
    [fetch_reactions] raise, after the page has been gone through and
    before any count is written: the record and the through table are as
    before, and the exception is [KeyError(reaction.upper())] when the
    resolver raises nothing but [UnknownResourceType]. *)
Theorem fetch_reactions_unknown_reaction (r : string) (limit : Z)
    (kwargs : gmap string string) (s : State) :
  upper r ∉ reaction_keys →
  ∃ e s', fetch_reactions (Some r) limit kwargs s = (Raise e, s') ∧
          self s' = self s ∧ through s' = through s ∧
          (resolver_raises_only_unknown → e = KeyError (upper r)).
Proof.
  intros Hr.
  assert (Htail : ∀ response ids s1,
    (letM result := fetch_reactions_results (Some r) response ids all_types ∅ in
     letM entry := getitem result (upper r) in ret (OneReaction entry)) s1
    = (Raise (KeyError (upper r)), s1)).
  { intros response ids s1. unfold bind at 1.
    rewrite fetch_reactions_results_skip.
    - munfold. by rewrite lookup_empty.
    - intros t Ht Hsel. apply Hr. simpl in Hsel. rewrite Hsel. by apply all_types_keys. }
  unfold fetch_reactions. unfold bind at 1, gets at 1. unfold bind at 1.
  destruct (api_call _ _ _ _) as [page|].
  - destruct (fetch_reactions_loop_frame (Some r) (data page) ids_start s) as [Hself Hthrough].
    destruct (fetch_reactions_loop (Some r) (data page) ids_start s) as [[ids|e] s1] eqn:Hloop;
      simpl in Hself, Hthrough.
    + rewrite Htail. by eexists _, _.
    + exists e, s1. split_and!; [done..|]. intros Hres.
      destruct (fetch_reactions_loop_returns (Some r) (data page) ids_start s Hres)
        as (? & ? & Hok & _). congruence.
  - unfold ret at 1. rewrite Htail. by eexists _, _.
Qed.

(** X6: after [fetch_reactions()] has returned, each of the seven counts
    equals the size of the set returned for its type, and each relation
    is that set (the inherited [save] leaving counts and relations
    alone). *)
Theorem fetch_reactions_counts (limit : Z) (kwargs : gmap string string)
    (s s' : State) (result : gmap string (gset Z)) :
  save_keeps_counts →
  fetch_reactions None limit kwargs s = (Ok (AllReactions result), s') →
  (∀ r, r ∈ reaction_types →
     ∃ q, result !! upper r = Some q ∧
          attrs (self s') !! count_field r = Some (PyInt (Z.of_nat (size q))) ∧
          rels (self s') !! users_field r = Some q)
  ∧ ∃ q, result !! "LIKE" = Some q ∧
         attrs (self s') !! "likes_count" = Some (PyInt (Z.of_nat (size q))) ∧
         rels (self s') !! "likes_users" = Some q.
Proof.
  intros Hkeep (ids & s1 & result0 & _ & Hres & [= <-])%fetch_reactions_inv.
  pose proof (fetch_reactions_results_counts None _ ids all_types Hkeep (λ _ Ht, Ht)
                all_types_count_fields all_types_users_fields all_types_upper
                all_types_not_actions _ _ _ _ Hres) as Hcounts.
  split.
  - intros r Hr. destruct (type_fields_reaction r Hr) as [<- <-].
    destruct (Hcounts r) as (id_list & _ & Hq & Hc & Hu); [apply elem_of_app; by left|done|].
    eauto.
  - destruct (Hcounts "LIKE") as (id_list & _ & Hq & Hc & Hu);
      [apply elem_of_app; right; by left|done|].
    eauto.
Qed.

(** X7: [fetch_reactions] with one of the six reaction types writes the
    count and the relation of that type and of no other: the counts and
    the relations of the other five types and of the likes are as before
    (the inherited [save] leaving counts and relations alone). *)
Theorem fetch_reactions_one_leaves_others (r : string) (limit : Z)
    (kwargs : gmap string string) (s s' : State) (q : gset Z) :
  save_keeps_counts →
  r ∈ reaction_types →
  fetch_reactions (Some r) limit kwargs s = (Ok (OneReaction q), s') →
  attrs (self s') !! count_field r = Some (PyInt (Z.of_nat (size q)))
  ∧ rels (self s') !! users_field r = Some q
  ∧ (∀ r', r' ∈ reaction_types → r' ≠ r →
       attrs (self s') !! count_field r' = attrs (self s) !! count_field r' ∧
       rels (self s') !! users_field r' = rels (self s) !! users_field r')
  ∧ attrs (self s') !! "likes_count" = attrs (self s) !! "likes_count"
  ∧ rels (self s') !! "likes_users" = rels (self s) !! "likes_users".
Proof.
  intros Hkeep Hr (ids & s1 & result & Hids & Hres & q' & Hq & [= <-])%fetch_reactions_inv.
  assert (Hself : self s1 = self s).
  { destruct (api_call _ _ _ _) as [page|].
    - pose proof (proj1 (fetch_reactions_loop_frame (Some r) (data page) ids_start s)) as Hf.
      by rewrite Hids in Hf.
    - by simplify_eq. }
  assert (Hsel : filter (reaction_selects (Some r)) all_types = [r]).
  { revert Hr. unfold reaction_types. rewrite !elem_of_cons, elem_of_nil.
    intros Hin; destruct_or!; subst; done. }
  pose proof (fetch_reactions_results_counts (Some r) _ ids all_types Hkeep (λ _ Ht, Ht)
                all_types_count_fields all_types_users_fields all_types_upper
                all_types_not_actions _ _ _ _ Hres r) as Hcounts.
  destruct Hcounts as (id_list & _ & Hq' & Hc & Hu); [apply elem_of_app; by left|done|].
  rewrite Hq in Hq'. injection Hq' as ->.
  destruct (type_fields_reaction r Hr) as [Hcf Huf]. rewrite Hcf in Hc. rewrite Huf in Hu.
  pose proof (fetch_reactions_results_frame (Some r) _ ids all_types Hkeep (λ _ Ht, Ht)
                _ _ _ _ Hres) as (_ & _ & Ha & Hrl & _).
  rewrite Hsel in Ha, Hrl. rewrite Hself in Ha, Hrl.
  cbn [fmap list_fmap] in Ha, Hrl. rewrite Hcf in Ha. rewrite Huf in Hrl.
  assert (Hdistinct : ∀ r', r' ∈ reaction_types → r' ≠ r →
            count_field r' ≠ count_field r ∧ users_field r' ≠ users_field r).
  { intros r' Hr' Hne. revert Hr Hr' Hne. unfold reaction_types.
    rewrite !elem_of_cons, !elem_of_nil.
    intros Hin Hin' Hne; destruct_or!; subst; done. }
  split_and!; [done..| | |].
  - intros r' Hr' Hne. destruct (Hdistinct r' Hr' Hne) as [Hc' Hu']. split.
    + apply Ha; [by apply count_field_not_actions|].
      by intros Heq%list_elem_of_singleton.
    + apply Hrl. by intros Heq%list_elem_of_singleton.
  - apply Ha; [done|]. intros Heq%list_elem_of_singleton. revert Hr Heq.
    unfold reaction_types. rewrite !elem_of_cons, elem_of_nil.
    intros Hin; destruct_or!; subst; done.
  - apply Hrl. intros Heq%list_elem_of_singleton. revert Hr Heq.
    unfold reaction_types. rewrite !elem_of_cons, elem_of_nil.
    intros Hin; destruct_or!; subst; done.
Qed.


(** X9: when the request yields no response [fetch_reactions()] still
    writes, on a record whose class has [LikableModelMixin] among its
    bases: it returns an empty set for each of the seven types, sets
    each of the seven counts to 0 and empties each relation (the
    inherited [save] returning and leaving counts and relations alone). *)
Theorem fetch_reactions_no_response (limit : Z) (kwargs : gmap string string) (s : State) :
  api_call (graph_id (self s) +:+ "/reactions") (Some "2.6") (Some limit) kwargs = None →
  likable = true →
  save_keeps_counts → save_returns →
  ∃ result s',
    fetch_reactions None limit kwargs s = (Ok (AllReactions result), s') ∧
    users s' = users s ∧ through s' = through s ∧
    (∀ r, r ∈ reaction_types →
       result !! upper r = Some ∅ ∧
       attrs (self s') !! count_field r = Some (PyInt 0) ∧
       rels (self s') !! users_field r = Some ∅)
    ∧ result !! "LIKE" = Some ∅
    ∧ attrs (self s') !! "likes_count" = Some (PyInt 0)
    ∧ rels (self s') !! "likes_users" = Some ∅.
Proof.
  intros Hnone Hlike Hkeep Hsave.
  destruct (fetch_reactions_results_returns None None ids_start all_types ∅ s Hsave)
    as (result & s' & Hres).
  { intros t Ht. split; [intros _; by apply count_method_defined|].
    rewrite fetch_reactions_ids_keys. apply elem_of_list_to_set. by apply all_types_keys. }
  exists result, s'.
  assert (Hrun : fetch_reactions None limit kwargs s = (Ok (AllReactions result), s')).
  { unfold fetch_reactions. unfold bind at 1, gets at 1. unfold bind at 1.
    rewrite Hnone. unfold ret at 1. unfold bind at 1. by rewrite Hres. }
  split; [done|].
  pose proof (fetch_reactions_results_frame None None ids_start all_types Hkeep (λ _ Ht, Ht)
                _ _ _ _ Hres) as (Hus & Hth & _).
  pose proof (fetch_reactions_results_counts None None ids_start all_types Hkeep (λ _ Ht, Ht)
                all_types_count_fields all_types_users_fields all_types_upper
                all_types_not_actions _ _ _ _ Hres) as Hcounts.
  assert (Hempty : ∀ t, t ∈ all_types →
            result !! upper t = Some ∅ ∧
            attrs (self s') !! type_count_field t = Some (PyInt 0) ∧
            rels (self s') !! type_users_field t = Some ∅).
  { intros t Ht. destruct (Hcounts t Ht I) as (id_list & Hstart & Hq & Hc & Hu).
    pose proof (ids_start_empty (upper t)) as Hnil. rewrite Hstart in Hnil.
    simpl in Hnil. subst id_list. rewrite filter_elem_of_nil in Hq, Hc, Hu. done. }
  split_and!; [done..| | | |].
  - intros r Hr. destruct (type_fields_reaction r Hr) as [<- <-].
    apply Hempty, elem_of_app. by left.
  - apply (Hempty "LIKE"), elem_of_app. right. by left.
  - apply (Hempty "LIKE"), elem_of_app. right. by left.
  - apply (Hempty "LIKE"), elem_of_app. right. by left.
Qed.

(** X10: a resource without a ['type'] is dropped in two ways: with a
    reaction given it is passed over before anything is done; without
    one it is first handed to the resolver, so the user table is what the
    resolver leaves, and only then dropped. *)
Theorem fetch_reactions_untyped_resource (resource : Entry) (ids : gmap string (list Z))
    (s : State) (u : User) (us : list User) :
  fields resource !! "type" = None →
  get_or_create_from_small_resource (fields resource) (users s) = (Ok u, us) →
  fetch_reactions_step None resource ids s = (Ok ids, set_users (λ _, us) s)
  ∧ ∀ r, fetch_reactions_step (Some r) resource ids s = (Ok ids, s).
Proof.
  intros Htype Hres. split.
  - unfold fetch_reactions_step. munfold. simpl. by rewrite Hres, Htype.
  - intros r. apply fetch_reactions_step_skip. by rewrite Htype.
Qed.

(** The loop that fills [result], in two parts. *)
Lemma fetch_reactions_results_app reaction response ids types1 types2 : ∀ result s,
  fetch_reactions_results reaction response ids (types1 ++ types2) result s
  = match fetch_reactions_results reaction response ids types1 result s with
    | (Ok result', s') => fetch_reactions_results reaction response ids types2 result' s'
    | (Raise e, s') => (Raise e, s')
    end.
Proof.
  induction types1 as [|t types1 IH]; intros result s; [done|].
  cbn [app]. rewrite !fetch_reactions_results_cons.
  destruct (fetch_reactions_result _ _ _ _ _ _) as [[result1|e] s1]; [apply IH|done].
Qed.

(** X22: on a record whose class has [ReactionableModelMixin] and not
    [LikableModelMixin] among its bases, [fetch_reactions] raises
    [AttributeError] when the likes are among the types asked for,
    without a reaction or with ['like'], after the page has been gone
    through; with one of the six reaction types it returns (the resolver
    raising nothing but [UnknownResourceType] and the inherited [save]
    returning). *)
Theorem fetch_reactions_without_likes (limit : Z) (kwargs : gmap string string)
    (s : State) :
  likable = false →
  resolver_raises_only_unknown → save_returns →
  (∃ s', fetch_reactions None limit kwargs s
         = (Raise (AttributeError "update_count_and_get_like_users"), s'))
  ∧ (∀ r, upper r = "LIKE" →
       ∃ s', fetch_reactions (Some r) limit kwargs s
             = (Raise (AttributeError "update_count_and_get_like_users"), s'))
  ∧ (∀ r, r ∈ reaction_types →
       ∃ q s', fetch_reactions (Some r) limit kwargs s = (Ok (OneReaction q), s')).
Proof.
  intros Hlike Hres Hsave.
  assert (Hraise : ∀ reaction response ids result s1,
    reaction_selects reaction "LIKE" →
    fetch_reactions_result reaction response ids "LIKE" result s1
    = (Raise (AttributeError "update_count_and_get_like_users"), s1)).
  { intros reaction response ids result s1 Hsel.
    unfold fetch_reactions_result. rewrite reaction_skips.
    rewrite bool_decide_true by done. cbn [negb].
    unfold bind at 1. rewrite count_method_like, Hlike. reflexivity. }
  assert (Htail : ∀ reaction response ids s1,
    reaction_selects reaction "LIKE" →
    dom ids = list_to_set reaction_keys →
    ∃ s', fetch_reactions_results reaction response ids all_types ∅ s1
          = (Raise (AttributeError "update_count_and_get_like_users"), s')).
  { intros reaction response ids s1 Hsel Hkeys.
    rewrite fetch_reactions_results_app.
    destruct (fetch_reactions_results_returns reaction response ids reaction_types ∅ s1 Hsave)
      as (result1 & s2 & ->).
    { intros t Ht. split.
      - intros _. apply count_method_defined; [apply elem_of_app; by left|].
        intros ->. revert Ht. unfold reaction_types.
        rewrite !elem_of_cons, elem_of_nil. intros Hin; destruct_or!; done.
      - rewrite Hkeys. apply elem_of_list_to_set, all_types_keys, elem_of_app. by left. }
    rewrite fetch_reactions_results_cons, Hraise by done. eauto. }
  assert (Hcall : ∀ reaction,
    reaction_selects reaction "LIKE" →
    ∃ s', fetch_reactions reaction limit kwargs s
          = (Raise (AttributeError "update_count_and_get_like_users"), s')).
  { intros reaction Hsel.
    unfold fetch_reactions. unfold bind at 1, gets at 1. unfold bind at 1.
    destruct (api_call _ _ _ _) as [page|].
    - destruct (fetch_reactions_loop_returns reaction (data page) ids_start s Hres)
        as (ids & s1 & -> & Hdom & _).
      unfold bind at 1.
      destruct (Htail reaction (Some page) ids s1 Hsel) as [s' ->]; [by rewrite Hdom|].
      eauto.
    - unfold ret at 1. unfold bind at 1.
      destruct (Htail reaction None ids_start s Hsel) as [s' ->]; [done|]. eauto. }
  split_and!.
  - by apply Hcall.
  - intros r Hr. apply Hcall. simpl. by rewrite Hr.
  - intros r Hr.
    assert (upper r ∈ reaction_keys ∧ upper r ≠ "LIKE") as [Hkey Hne].
    { revert Hr. unfold reaction_types. rewrite !elem_of_cons, elem_of_nil.
      intros Hin; destruct_or!; subst; split; try done; vm_decide. }
    destruct (fetch_reactions_returns (Some r) limit kwargs s Hres Hsave)
      as (out & s' & Hrun); [by intros ? [= <-]|by intros Hsel|].
    destruct (fetch_reactions_Ok _ _ _ _ _ _ Hrun) as (_ & _ & result & _ & q & _ & ->).
    eauto.
Qed.

End fetch_reactions_more.

Lemma sample_resolver_raises_only_unknown pages saver :
  resolver_raises_only_unknown (H := sample_host pages saver).
Proof.
  intros d us e us'. cbn [get_or_create_from_small_resource sample_host].
  unfold sample_resolver.
  destruct (decide _) as [_|_]; [by intros [= <- _]|].
  destruct (parse_decimal <$> d !! "id") as [[g|e']|]; try by intros [= <- _].
  by destruct (List.find _ us).
Qed.

Lemma Model_save_returns pages : save_returns (H := sample_host pages Model_save).
Proof. by intros i. Qed.

(** The sample reactions asked for a type the mixin does not have. *)
Lemma fetch_reactions_unknown_reaction_witness :
  ∃ s', fetch_reactions (H := reactions_host) (Some "pride") 1000 ∅ fresh_state
        = (Raise (KeyError "PRIDE"), s')
        ∧ self s' = self fresh_state.
Proof.
  destruct (fetch_reactions_unknown_reaction (H := reactions_host)
              "pride" 1000 ∅ fresh_state ltac:(vm_decide))
    as (e & s' & Hrun & Hself & _ & He).
  rewrite (He (sample_resolver_raises_only_unknown _ _)) in Hrun.
  exists s'. split; [exact Hrun|exact Hself].
Defined.

(** The sample reactions, all types: the count of the loves. *)
Lemma fetch_reactions_counts_witness :
  ∃ q, attrs (self (fetch_reactions (H := reactions_host) None 1000 ∅ fresh_state).2)
         !! "loves_count" = Some (PyInt (Z.of_nat (size q)))
       ∧ rels (self (fetch_reactions (H := reactions_host) None 1000 ∅ fresh_state).2)
           !! "loves_users" = Some q.
Proof.
  destruct (fetch_reactions (H := reactions_host) None 1000 ∅ fresh_state)
    as [[[result|q]|e] s'] eqn:Hrun;
    try (exfalso; vm_compute in Hrun; discriminate).
  destruct (proj1 (fetch_reactions_counts (H := reactions_host) 1000 ∅ fresh_state s' result
                     (Model_save_keeps_counts _) Hrun) "love")
    as (q & _ & Hc & Hu); [by left|].
  exists q. split; [exact Hc|exact Hu].
Defined.

(** The sample reactions, loves only: the likes are left as they were. *)
Lemma fetch_reactions_one_leaves_others_witness :
  attrs (self (fetch_reactions (H := reactions_host) (Some "love") 1000 ∅ fresh_state).2)
    !! "likes_count" = Some PyNone.
Proof.
  destruct (fetch_reactions (H := reactions_host) (Some "love") 1000 ∅ fresh_state)
    as [[[result|q]|e] s'] eqn:Hrun;
    try (exfalso; vm_compute in Hrun; discriminate).
  destruct (fetch_reactions_one_leaves_others (H := reactions_host)
              "love" 1000 ∅ fresh_state s' q (Model_save_keeps_counts _)
              ltac:(by left) Hrun) as (_ & _ & _ & Hlikes & _).
  cbn [snd]. rewrite Hlikes. reflexivity.
Defined.


(** A remote that answers nothing: the seven counts become 0. *)
Lemma fetch_reactions_no_response_witness :
  ∃ result s',
    fetch_reactions (H := sample_host [] Model_save) None 1000 ∅ fresh_state
    = (Ok (AllReactions result), s')
    ∧ attrs (self s') !! "likes_count" = Some (PyInt 0).
Proof.
  destruct (fetch_reactions_no_response (H := sample_host [] Model_save)
              1000 ∅ fresh_state eq_refl eq_refl
              (Model_save_keeps_counts _) (Model_save_returns _))
    as (result & s' & Hrun & _ & _ & _ & _ & Hlikes & _).
  exists result, s'. split; [exact Hrun|exact Hlikes].
Defined.

(** The sample reactions on a class without [LikableModelMixin]: asked
    for all types, the call raises. *)
Lemma fetch_reactions_without_likes_witness :
  ∃ s', fetch_reactions (H := without_LikableModelMixin reactions_host)
          None 1000 ∅ fresh_state
        = (Raise (AttributeError "update_count_and_get_like_users"), s').
Proof.
  exact (proj1 (fetch_reactions_without_likes (H := without_LikableModelMixin reactions_host)
                  1000 ∅ fresh_state eq_refl
                  (sample_resolver_raises_only_unknown _ Model_save)
                  (Model_save_returns _))).
Defined.

(** A resource with an id and a name and no type: user 2 is inserted for
    it, and no list of [ids] grows. *)
Lemma fetch_reactions_untyped_resource_witness :
  fetch_reactions_step (H := reactions_host) None
    (resource [("id", "300"); ("name", "C")]) ∅ fresh_state
  = (Ok ∅, set_users (λ _, [sample_user 1 100; sample_user 2 300]) fresh_state).
Proof.
  exact (proj1 (fetch_reactions_untyped_resource (H := reactions_host)
                  (resource [("id", "300"); ("name", "C")]) ∅ fresh_state
                  (sample_user 2 300) [sample_user 1 100; sample_user 2 300]
                  eq_refl eq_refl)).
Defined.

(** ** fetch_shares: what a run never does *)

Section fetch_shares_more.
Context `{Host}.

(** The loop over the posts touches the user table only, whether it
    returns or raises. *)
Lemma fetch_shares_step_frame ids_add post acc s :
  self (fetch_shares_step ids_add post acc s).2 = self s ∧
  through (fetch_shares_step ids_add post acc s).2 = through s.
Proof.
  remember (fetch_shares_step ids_add post acc s) as out eqn:Hout.
  revert Hout. unfold fetch_shares_step. destruct acc as [ids pairs]. unfold bind at 1.
  pose proof (post_graph_id_pure post s) as Hpure.
  destruct (post_graph_id post s) as [[g|e] s0]; simpl in Hpure; subst s0;
    [|by intros ->].
  unfold post_from. destruct (entry_from post) as [from|]; [|by intros ->]. munfold.
  destruct (decide _) as [_|_]; [|by intros ->].
  destruct (get_or_create_from_small_resource from (users s)) as [[u|e] us]; simpl.
  - destruct (decide _); by intros ->.
  - destruct e; by intros ->.
Qed.

Lemma fetch_shares_loop_frame_any ids_add posts : ∀ acc s,
  self (fetch_shares_loop ids_add posts acc s).2 = self s ∧
  through (fetch_shares_loop ids_add posts acc s).2 = through s.
Proof.
  induction posts as [|post posts IH]; intros acc s; [done|].
  rewrite fetch_shares_loop_cons.
  destruct (fetch_shares_step_frame ids_add post acc s) as [Hself Hthrough].
  destruct (fetch_shares_step ids_add post acc s) as [[acc1|e] s1]; simpl in *; [|done].
  destruct (IH acc1 s1) as [-> ->]. done.
Qed.

(** X11: whenever the reconciliation of a page raises, no row has been
    deleted or created and the record is untouched: the deletions come
    only after every post has been read and resolved. *)
Theorem fetch_shares_raise_untouched (r : Response) (s s' : State) (e : exn) :
  fetch_shares_reconcile r s = (Raise e, s') →
  self s' = self s ∧ through s' = through s.
Proof.
  unfold fetch_shares_reconcile. unfold bind at 1.
  pose proof (timestamp_pairs_pure (filter has_from (data r)) s) as Hpure.
  destruct (timestamp_pairs _ s) as [[pairs|e0] s0]; simpl in Hpure; subst s0;
    [|by intros [= _ <-]].
  unfold bind at 1, gets at 1. unfold bind at 1.
  match goal with
  | |- context [fetch_shares_loop ?a ?p ?c s] =>
      destruct (fetch_shares_loop_frame_any a p c s) as [Hself Hthrough];
      destruct (fetch_shares_loop a p c s) as [[acc|e1] s1]
  end; simpl in Hself, Hthrough.
  - munfold. done.
  - by intros [= _ <-].
Qed.

(** A run that returns, spelled out. *)
Lemma fetch_shares_reconcile_after r s ids s' :
  fetch_shares_reconcile r s = (Ok ids, s') →
  ∃ pairs ids_add_pairs s1,
    timestamp_pairs (filter has_from (data r)) s = (Ok pairs, s) ∧
    fetch_shares_loop (shares_ids_add (py_dict pairs) (shares_ids_current s))
      (filter has_from (data r)) ([], []) s = (Ok (ids, ids_add_pairs), s1) ∧
    s' = {| self := self s; users := users s1;
            through :=
              filter (λ e, ¬ of_added_user (self s) ids_add_pairs e)
                (filter (λ e, ¬ without_time_from (self s) e) (through s))
              ++ new_share_edges (self s) (py_dict pairs) ids_add_pairs |}.
Proof.
  intros Hrun.
  destruct (fetch_shares_reconcile_Ok _ _ _ _ Hrun) as (pairs & ids_add_pairs & s1 & Hst & Hloop).
  exists pairs, ids_add_pairs, s1. split_and!; [done..|].
  pose proof (fetch_shares_reconcile_run r s s1 pairs ids ids_add_pairs Hst Hloop) as Hrun'.
  congruence.
Qed.

(** X12: a run never ends an association and never alters a row: every
    row of the through table afterwards is a row that was there before,
    unchanged, or a new row of the record with a start time and no end
    time; the record itself is left as it was. *)
Theorem fetch_shares_never_ends (r : Response) (s s' : State) (ids : list Z) :
  fetch_shares_reconcile r s = (Ok ids, s') →
  self s' = self s
  ∧ (∀ e, e ∈ through s' →
       e ∈ through s
       ∨ (e_obj e = pk (self s) ∧ time_to e = None ∧ time_from e ≠ None))
  ∧ (∀ e, e ∈ through s' → time_to e ≠ None → e ∈ through s).
Proof.
  intros (pairs & ids_add_pairs & s1 & Hst & Hloop & ->)%fetch_shares_reconcile_after.
  assert (Hrows : ∀ e,
    e ∈ filter (λ e, ¬ of_added_user (self s) ids_add_pairs e)
          (filter (λ e, ¬ without_time_from (self s) e) (through s))
        ++ new_share_edges (self s) (py_dict pairs) ids_add_pairs →
    e ∈ through s
    ∨ (e_obj e = pk (self s) ∧ time_to e = None ∧ time_from e ≠ None)).
  { intros e [Hold|Hnew]%elem_of_app.
    - left. apply list_elem_of_filter in Hold as [_ Hold].
      by apply list_elem_of_filter in Hold as [_ ?].
    - right. apply (new_share_edge_elem s pairs ids_add_pairs) in Hnew as (g & p & Hin & ->).
      simpl. split_and!; [done..|].
      destruct (fetch_shares_pairs_stamped r s s1 pairs ids ids_add_pairs Hloop g p Hin)
        as [t Ht].
      unfold get_share_date. by rewrite Ht. }
  simpl. split_and!; [done|exact Hrows|].
  intros e He Hto. destruct (Hrows e He) as [?|(_ & Hnone & _)]; [done|].
  by destruct Hto.
Qed.

(** X13: however often a remote id occurs on a page, the through table
    grows by at most one row for each remote id that is not current. *)
Theorem fetch_shares_one_row_per_id (r : Response) (s s' : State) (ids : list Z)
    (pairs : list (Z * datetime)) :
  timestamp_pairs (filter has_from (data r)) s = (Ok pairs, s) →
  fetch_shares_reconcile r s = (Ok ids, s') →
  (length (through s')
   ≤ length (through s) + size (shares_ids_add (py_dict pairs) (shares_ids_current s)))%nat.
Proof.
  intros Hst (pairs' & ids_add_pairs & s1 & Hst' & Hloop & ->)%fetch_shares_reconcile_after.
  assert (pairs' = pairs) as -> by congruence.
  destruct (ids_add_pairs_ok r s s1 pairs ids ids_add_pairs Hloop) as [Hsub Hnodup].
  simpl. rewrite length_app. unfold new_share_edges. rewrite length_map.
  assert (length ids_add_pairs
          ≤ size (shares_ids_add (py_dict pairs) (shares_ids_current s)))%nat.
  { rewrite <- (length_fmap fst), <- (size_list_to_set (C := gset Z)) by done.
    apply subseteq_size. intros g Hg%elem_of_list_to_set. by apply Hsub. }
  pose proof (length_filter (λ e, ¬ of_added_user (self s) ids_add_pairs e)
                (filter (λ e, ¬ without_time_from (self s) e) (through s))).
  pose proof (length_filter (λ e, ¬ without_time_from (self s) e) (through s)).
  lia.
Qed.

(** [dict(pairs)] keeps, for each key, the value of its last pair. *)
Lemma py_dict_from_last (pairs : list (Z * datetime)) : ∀ (acc : gmap Z datetime) g t,
  foldl (λ d kv, <[kv.1 := kv.2]> d) acc pairs !! g = Some t →
  (acc !! g = Some t ∧ g ∉ pairs.*1)
  ∨ ∃ l1 l2, pairs = l1 ++ (g, t) :: l2 ∧ g ∉ l2.*1.
Proof.
  induction pairs as [|[g' t'] pairs IH]; intros acc g t; simpl.
  - intros Hacc. left. split; [done|]. by intros ?%elem_of_nil.
  - intros [[Hacc Hnot]|(l1 & l2 & -> & Hnot)]%IH.
    + destruct (decide (g' = g)) as [->|Hne].
      * rewrite lookup_insert_eq in Hacc. simplify_eq. right. by exists [], pairs.
      * rewrite lookup_insert_ne in Hacc by done. left. split; [done|].
        by intros [->|?]%elem_of_cons.
    + right. by exists ((g', t') :: l1), l2.
Qed.

(** X14: when a remote id occurs in several posts of a page, the new
    edge of that id carries the creation time of the last of them: for
    each collected pair the page splits into the posts before, a post of
    that id whose parsed [created_time] is the edge's [time_from], and
    later posts none of which has that id. *)
Theorem fetch_shares_stamps_last_post (r : Response) (s s1 : State)
    (pairs : list (Z * datetime)) (ids : list Z) (ids_add_pairs : list (Z * Z))
    (g p : Z) :
  timestamp_pairs (filter has_from (data r)) s = (Ok pairs, s) →
  fetch_shares_loop (shares_ids_add (py_dict pairs) (shares_ids_current s))
    (filter has_from (data r)) ([], []) s = (Ok (ids, ids_add_pairs), s1) →
  (g, p) ∈ ids_add_pairs →
  ∃ before post later created t,
    filter has_from (data r) = before ++ post :: later ∧
    (post_graph_id post s).1 = Ok g ∧
    fields post !! "created_time" = Some created ∧
    datetime_parse created = Ok t ∧
    (∀ post', post' ∈ later → (post_graph_id post' s).1 ≠ Ok g) ∧
    {| e_obj := pk (self s); e_user := p; time_from := Some t; time_to := None |}
    ∈ through (fetch_shares_reconcile r s).2.
Proof.
  intros Hst Hloop Hin.
  destruct (fetch_shares_pairs_stamped r s s1 pairs ids ids_add_pairs Hloop g p Hin)
    as [t Ht].
  pose proof Ht as Hlast. unfold py_dict in Hlast.
  apply py_dict_from_last in Hlast as [[Hempty _]|(l1 & l2 & Hsplit & Hnot)];
    [by rewrite lookup_empty in Hempty|].
  pose proof (timestamp_pairs_Ok _ _ _ _ Hst) as Hall. rewrite Hsplit in Hall.
  apply Forall2_app_inv_r in Hall as (before & rest & Hbefore & Hrest & Hposts).
  apply Forall2_cons_inv_r in Hrest
    as (post & later & [Hg (created & Hc & Hparse)] & Hlater & ->).
  simpl in Hg, Hparse.
  exists before, post, later, created, t. split_and!; [done..| |].
  - intros post' Hpost' Hg'.
    apply list_elem_of_lookup in Hpost' as [k Hk].
    destruct (Forall2_lookup_l _ _ _ _ _ Hlater Hk) as (pair & Hpair & Hid & _).
    apply Hnot. apply list_elem_of_fmap. exists pair.
    split; [congruence|]. by eapply list_elem_of_lookup_2.
  - rewrite (fetch_shares_reconcile_run r s s1 pairs ids ids_add_pairs Hst Hloop).
    simpl. apply elem_of_app. right.
    apply (new_share_edge_elem s pairs ids_add_pairs). exists g, p. split; [done|].
    unfold get_share_date. by rewrite Ht.
Qed.

(** X15: a page without a post that has an author still purges: the run
    returns no user, deletes the record's rows without a start time,
    creates no row and leaves the user table alone. *)
Theorem fetch_shares_page_without_authors (r : Response) (s : State) :
  (∀ post, post ∈ data r → ¬ has_from post) →
  fetch_shares_reconcile r s
  = (Ok [],
     {| self := self s; users := users s;
        through := filter (λ e, ¬ without_time_from (self s) e) (through s) |}).
Proof.
  intros Hnone.
  assert (Hposts : filter has_from (data r) = []).
  { induction (data r) as [|post posts IH]; [done|].
    rewrite filter_cons. destruct (decide _) as [Hyes|_].
    - destruct (Hnone post); [by left|done].
    - apply IH. intros p Hp. apply Hnone. by right. }
  rewrite (fetch_shares_reconcile_run r s s [] [] []);
    [|by rewrite Hposts..].
  do 2 f_equal. cbn [new_share_edges map]. rewrite app_nil_r.
  induction (filter _ (through s)) as [|e rows IH]; [done|].
  rewrite filter_cons. destruct (decide _) as [_|Hno]; [by rewrite IH|].
  destruct Hno. intros [_ Hin]. by apply elem_of_nil in Hin.
Qed.

End fetch_shares_more.

(** The undated page against the sample record: the run raises, and the
    through table is as before. *)
Lemma fetch_shares_raise_untouched_witness :
  through (fetch_shares_reconcile (H := undated_host) undated_page shares_state).2
  = through shares_state.
Proof.
  destruct (fetch_shares_reconcile (H := undated_host) undated_page shares_state)
    as [[ids|e] s'] eqn:Hrun.
  - exfalso. vm_compute in Hrun. discriminate.
  - exact (proj2 (fetch_shares_raise_untouched (H := undated_host) _ _ _ _ Hrun)).
Defined.

(** The sample run: the record is left as it was. *)
Lemma fetch_shares_never_ends_witness :
  self (fetch_shares_reconcile (H := shares_host) shares_page shares_state).2
  = self shares_state.
Proof.
  destruct (fetch_shares_reconcile (H := shares_host) shares_page shares_state)
    as [[ids|e] s'] eqn:Hrun.
  - exact (proj1 (fetch_shares_never_ends (H := shares_host) _ _ _ _ Hrun)).
  - exfalso. vm_compute in Hrun. discriminate.
Defined.

(** The sample run: user 100 shares twice and page 900 once, neither is
    current; the table of four rows cannot grow beyond six. *)
Lemma fetch_shares_one_row_per_id_witness :
  (length (through (fetch_shares_reconcile (H := shares_host) shares_page shares_state).2)
   ≤ 4 + 2)%nat.
Proof.
  destruct (fetch_shares_reconcile (H := shares_host) shares_page shares_state)
    as [[ids|e] s'] eqn:Hrun.
  - exact (fetch_shares_one_row_per_id (H := shares_host) shares_page shares_state s' ids
             [(100, 50); (900, 70); (100, 80)] ltac:(vm_compute; reflexivity) Hrun).
  - exfalso. vm_compute in Hrun. discriminate.
Defined.

(** The sample run: user 100 posted at 50 and again at 80. *)
Lemma fetch_shares_stamps_last_post_witness :
  ∃ t, sample_edge 7 1 (Some t) None
       ∈ through (fetch_shares_reconcile (H := shares_host) shares_page shares_state).2.
Proof.
  destruct (fetch_shares_stamps_last_post (H := shares_host)
              shares_page shares_state shares_state
              [(100, 50); (900, 70); (100, 80)] [1; 1] [(100, 1)] 100 1
              ltac:(vm_compute; reflexivity) ltac:(vm_compute; reflexivity)
              ltac:(vm_decide))
    as (_ & _ & _ & _ & t & _ & _ & _ & _ & _ & Hedge).
  exists t. exact Hedge.
Defined.

(** A page whose only post has no author, against the sample record. *)
Lemma fetch_shares_page_without_authors_witness :
  through (fetch_shares_reconcile (H := shares_host)
             {| data := [resource [("created_time", "60")]]; paging_after := None |}
             shares_state).2
  = [sample_edge 7 1 (Some 10) (Some 20); sample_edge 7 2 (Some 10) None;
     sample_edge 8 3 None None].
Proof.
  rewrite (fetch_shares_page_without_authors (H := shares_host)
             {| data := [resource [("created_time", "60")]]; paging_after := None |}
             shares_state).
  - vm_compute. reflexivity.
  - intros post ->%list_elem_of_singleton. vm_compute. tauto.
Defined.

(** ** fetch_likes: whom it returns *)

Section fetch_likes_more.
Context `{Host}.

Lemma fetch_likes_loop_cons resource rest ids s :
  fetch_likes_loop (resource :: rest) ids s
  = match get_or_create_from_small_resource (fields resource) (users s) with
    | (Ok user, us) => fetch_likes_loop rest (ids ++ [user_pk user]) (set_users (λ _, us) s)
    | (Raise UnknownResourceType, us) => fetch_likes_loop rest ids (set_users (λ _, us) s)
    | (Raise e, us) => (Raise e, set_users (λ _, us) s)
    end.
Proof.
  simpl. unfold bind at 1. munfold.
  destruct (get_or_create_from_small_resource _ _) as [[u|e] us]; simpl; [done|].
  by destruct e.
Qed.

(** The loop over the likes touches the user table only. *)
Lemma fetch_likes_loop_frame resources : ∀ ids s,
  self (fetch_likes_loop resources ids s).2 = self s ∧
  through (fetch_likes_loop resources ids s).2 = through s.
Proof.
  induction resources as [|resource rest IH]; intros ids s; [done|].
  rewrite fetch_likes_loop_cons.
  destruct (get_or_create_from_small_resource _ _) as [[u|e] us].
  - destruct (IH (ids ++ [user_pk u]) (set_users (λ _, us) s)) as [-> ->]. done.
  - destruct e; try done.
    destruct (IH ids (set_users (λ _, us) s)) as [-> ->]. done.
Qed.



(** X17: [fetch_likes] (one page) touches nothing but the user table,
    whether it returns or raises; with a resolver that raises nothing but
    [UnknownResourceType] it always returns, and without a response it
    returns the empty set and leaves the user table alone as well. *)
Theorem fetch_likes_touches_users_only (limit : Z) (kwargs : gmap string string)
    (s : State) :
  self (fetch_likes limit kwargs s).2 = self s
  ∧ through (fetch_likes limit kwargs s).2 = through s
  ∧ (resolver_raises_only_unknown → ∃ out, (fetch_likes limit kwargs s).1 = Ok out)
  ∧ (api_call (graph_id (self s) +:+ "/likes") None (Some limit) kwargs = None →
     fetch_likes limit kwargs s = (Ok (∅, None), s)).
Proof.
  remember (fetch_likes limit kwargs s) as out eqn:Hout. revert Hout.
  unfold fetch_likes. unfold bind at 1, gets at 1. unfold bind at 1.
  destruct (api_call _ _ _ _) as [page|].
  - destruct (fetch_likes_loop_frame (data page) [] s) as [Hself Hthrough].
    destruct (fetch_likes_loop (data page) [] s) as [[ids|e] s1] eqn:Hloop;
      simpl in Hself, Hthrough; unfold User_objects_filter_pk_in; munfold; intros ->;
      simpl; split_and!; try done; eauto.
    intros Hres. destruct (fetch_likes_loop_returns (data page) [] s Hres) as (? & ? & Hok).
    congruence.
  - unfold ret at 1. unfold User_objects_filter_pk_in. munfold. intros ->. simpl.
    split_and!; try done; eauto.
    intros _. by rewrite filter_elem_of_nil.
Qed.

End fetch_likes_more.

Lemma sample_resolver_keeps_users pages saver :
  resolver_keeps_users (H := sample_host pages saver).
Proof.
  intros d us r us'. cbn [get_or_create_from_small_resource sample_host].
  unfold sample_resolver.
  destruct (decide _) as [_|_]; [by intros [= <- <-]|].
  destruct (parse_decimal <$> d !! "id") as [[g|e']|]; try by intros [= <- <-].
  destruct (List.find _ us) as [u|] eqn:Hfind.
  - intros [= <- <-]. split; [done|]. intros u' [= <-].
    apply list_elem_of_In. by apply find_some in Hfind as [? _].
  - intros [= <- <-]. split.
    + intros u Hu. apply elem_of_app. by left.
    + intros u [= <-]. apply elem_of_app. right. by apply list_elem_of_singleton.
Qed.


(** ** The parse methods: renaming the remote names *)

Lemma rename_key_lookup {V} (old new : string) (d : gmap string V) (k : string) :
  rename_key old new d !! k
  = match d !! old with
    | Some v => if decide (k = new) then Some v
                else if decide (k = old) then None else d !! k
    | None => d !! k
    end.
Proof.
  unfold rename_key. destruct (d !! old) as [v|] eqn:Hold; [|done].
  destruct (decide (k = new)) as [->|Hnew]; [by rewrite lookup_insert_eq|].
  rewrite lookup_insert_ne by done.
  destruct (decide (k = old)) as [->|Hne]; [by rewrite lookup_delete_eq|].
  by rewrite lookup_delete_ne.
Qed.

(** Renaming a list of keys, none of which is another's old or new name. *)
Lemma rename_keys_lookup {V} (names : list (string * string)) :
  NoDup (names.*1 ++ names.*2) →
  ∀ d : gmap string V,
    let d' := foldl (λ d name, rename_key name.1 name.2 d) d names in
    (∀ old new, (old, new) ∈ names →
       d' !! old = None ∧
       d' !! new = match d !! old with Some v => Some v | None => d !! new end)
    ∧ (∀ k, k ∉ names.*1 → k ∉ names.*2 → d' !! k = d !! k).
Proof.
  induction names as [|[old0 new0] names IH]; intros Hnodup d; simpl.
  - split; [by intros ? ? ?%elem_of_nil|done].
  - simpl in Hnodup. apply NoDup_cons in Hnodup as [Hold0 Hnodup].
    assert (Hnodup' : NoDup (names.*1 ++ names.*2)).
    { apply NoDup_app in Hnodup as (H1 & H2 & H3). apply NoDup_cons in H3 as [_ H3].
      apply NoDup_app. split_and!; [done| |done].
      intros x Hx Hx'. apply (H2 x Hx). by right. }
    assert (Hnew0 : (new0 ∉ names.*1) ∧ (new0 ∉ names.*2) ∧ new0 ≠ old0).
    { apply NoDup_app in Hnodup as (H1 & H2 & H3). apply NoDup_cons in H3 as [H3 _].
      split_and!; [|done|].
      - intros Hx. apply (H2 new0 Hx). by left.
      - intros ->. apply Hold0, elem_of_app. right. by left. }
    assert (Hold0' : (old0 ∉ names.*1) ∧ (old0 ∉ names.*2)).
    { split; intros Hx; apply Hold0, elem_of_app; [by left|right; by right]. }
    destruct Hnew0 as (Hn1 & Hn2 & Hn3). destruct Hold0' as [Ho1 Ho2].
    destruct (IH Hnodup' (rename_key old0 new0 d)) as [Hin Hout]. split.
    + intros old new [[= -> ->]|Hpair]%elem_of_cons.
      * rewrite !Hout by done. rewrite !rename_key_lookup.
        destruct (d !! old0) as [v|]; [|done].
        rewrite decide_False by done. rewrite !decide_True by done. done.
      * destruct (Hin old new Hpair) as [-> ->]. split; [done|].
        assert (old ∈ names.*1) as Ho by (apply list_elem_of_fmap; by exists (old, new)).
        assert (new ∈ names.*2) as Hn by (apply list_elem_of_fmap; by exists (old, new)).
        rewrite !rename_key_lookup. destruct (d !! old0) as [v|]; [|done].
        assert (old ≠ new0) by (by intros ->).
        assert (old ≠ old0) by (by intros ->).
        assert (new ≠ new0) by (by intros ->).
        assert (new ≠ old0) by (by intros ->).
        by rewrite !decide_False by done.
    + intros k [Hk0 Hk1]%not_elem_of_cons [Hk2 Hk3]%not_elem_of_cons.
      rewrite Hout by done. rewrite rename_key_lookup.
      destruct (d !! old0) as [v|]; [|done].
      by rewrite !decide_False by done.
Qed.

(** The names [ReactionableModelMixin.parse] renames. *)
Lemma reaction_renames {V} (d : gmap string V) :
  foldl (λ response reaction,
           rename_key (remote_count_field reaction) (count_field reaction) response)
        d reaction_types
  = foldl (λ d name, rename_key name.1 name.2 d) d
      ((λ r, (remote_count_field r, count_field r)) <$> reaction_types).
Proof. reflexivity. Qed.

(** X18: [ReactionableModelMixin.parse] hands the next [parse] the
    response with the six remote counts renamed: no ['<reaction>_count']
    key is left, each ['<reaction>s_count'] holds the value that was
    under the remote name when there was one (replacing what was there)
    and is as before otherwise, and every other key is untouched. *)
Theorem ReactionableModelMixin_parse_renames {S V}
    (super_parse : gmap string V → M S (gmap string V)) (response : gmap string V) :
  ∃ response',
    ReactionableModelMixin_parse super_parse response = super_parse response'
    ∧ (∀ r, r ∈ reaction_types →
         response' !! remote_count_field r = None ∧
         response' !! count_field r
         = match response !! remote_count_field r with
           | Some v => Some v
           | None => response !! count_field r
           end)
    ∧ (∀ k, (∀ r, r ∈ reaction_types → k ≠ remote_count_field r ∧ k ≠ count_field r) →
            response' !! k = response !! k).
Proof.
  eexists. split; [reflexivity|]. rewrite reaction_renames.
  destruct (rename_keys_lookup
              ((λ r, (remote_count_field r, count_field r)) <$> reaction_types)
              ltac:(vm_decide) response) as [Hin Hout].
  split.
  - intros r Hr. apply Hin. apply list_elem_of_fmap. by exists r.
  - intros k Hk. apply Hout.
    + intros ([old new] & -> & (r & [= -> ->] & Hr)%list_elem_of_fmap)%list_elem_of_fmap.
      by destruct (Hk r Hr) as [? _].
    + intros ([old new] & -> & (r & [= -> ->] & Hr)%list_elem_of_fmap)%list_elem_of_fmap.
      by destruct (Hk r Hr) as [_ ?].
Qed.

(** A response without remote names is passed on as it is. *)
Lemma rename_keys_absent {V} (names : list (string * string)) : ∀ d : gmap string V,
  (∀ old, old ∈ names.*1 → d !! old = None) →
  foldl (λ d name, rename_key name.1 name.2 d) d names = d.
Proof.
  induction names as [|[old new] names IH]; intros d Habsent; [done|].
  simpl. unfold rename_key at 2. simpl. rewrite (Habsent old) by by left.
  apply IH. intros old' Hold'. apply Habsent. by right.
Qed.

(** X19: parsing is idempotent on the response: what
    [ReactionableModelMixin.parse] passes on, parsed again, is passed on
    unchanged. *)
Theorem ReactionableModelMixin_parse_twice {S V}
    (super_parse : gmap string V → M S (gmap string V)) (response response' : gmap string V)
    (s s' : S) :
  ReactionableModelMixin_parse ret response s = (Ok response', s') →
  s' = s ∧
  ReactionableModelMixin_parse super_parse response' = super_parse response'.
Proof.
  unfold ReactionableModelMixin_parse at 1. unfold ret. intros [= <- <-].
  split; [done|]. unfold ReactionableModelMixin_parse. f_equal.
  rewrite !reaction_renames. apply rename_keys_absent.
  intros old ((old' & new) & -> & Hin)%list_elem_of_fmap.
  destruct (rename_keys_lookup
              ((λ r, (remote_count_field r, count_field r)) <$> reaction_types)
              ltac:(vm_decide) response) as [Hlookup _].
  by destruct (Hlookup old' new Hin) as [? _].
Qed.

Lemma ReactionableModelMixin_parse_twice_witness :
  ReactionableModelMixin_parse (S := unit) ret
    (dict_of [("love_count", "3"); ("wows_count", "1")]) tt
  = (Ok (dict_of [("loves_count", "3"); ("wows_count", "1")]), tt)
  ∧ ReactionableModelMixin_parse (S := unit) ret
      (dict_of [("loves_count", "3"); ("wows_count", "1")])
    = ret (dict_of [("loves_count", "3"); ("wows_count", "1")]).
Proof.
  assert (Hrun : ReactionableModelMixin_parse (S := unit) ret
                   (dict_of [("love_count", "3"); ("wows_count", "1")]) tt
                 = (Ok (dict_of [("loves_count", "3"); ("wows_count", "1")]), tt))
    by (vm_compute; reflexivity).
  split; [exact Hrun|].
  exact (proj2 (ReactionableModelMixin_parse_twice ret _ _ _ _ Hrun)).
Defined.

(** Two renamings with four different names commute. *)
Lemma rename_key_comm {V} (old1 new1 old2 new2 : string) (d : gmap string V) :
  old1 ≠ old2 → old1 ≠ new2 → new1 ≠ old2 → new1 ≠ new2 →
  rename_key old1 new1 (rename_key old2 new2 d)
  = rename_key old2 new2 (rename_key old1 new1 d).
Proof.
  intros H1 H2 H3 H4. apply map_eq. intros k.
  rewrite !rename_key_lookup.
  destruct (d !! old1) as [v1|], (d !! old2) as [v2|];
    repeat case_decide; simplify_eq; done.
Qed.

Lemma rename_key_comm_fold {V} (old new : string) (names : list (string * string)) :
  ∀ d : gmap string V,
    (∀ o n, (o, n) ∈ names → old ≠ o ∧ old ≠ n ∧ new ≠ o ∧ new ≠ n) →
    rename_key old new (foldl (λ d name, rename_key name.1 name.2 d) d names)
    = foldl (λ d name, rename_key name.1 name.2 d) (rename_key old new d) names.
Proof.
  induction names as [|[o n] names IH]; intros d Hne; [done|].
  simpl. rewrite IH by (intros; apply Hne; by right).
  f_equal. destruct (Hne o n) as (?&?&?&?); [by left|].
  by apply rename_key_comm.
Qed.

Section parse_order.
Context `{Host} {V : Type}.

(** X20: the order of the mixins among the bases does not matter for
    the response: [LikableModelMixin.parse], [ReactionableModelMixin.parse]
    and [AuthorableModelMixin.parse] may call one another in any order,
    the next [parse] receives the same dictionary and the result is the
    same. *)
Theorem parse_order_irrelevant
    (super_parse : gmap string V → M Authored (gmap string V)) (response : gmap string V) :
  LikableModelMixin_parse (ReactionableModelMixin_parse super_parse) response
  = ReactionableModelMixin_parse (LikableModelMixin_parse super_parse) response
  ∧ LikableModelMixin_parse (AuthorableModelMixin_parse super_parse) response
    = AuthorableModelMixin_parse (LikableModelMixin_parse super_parse) response
  ∧ ReactionableModelMixin_parse (AuthorableModelMixin_parse super_parse) response
    = AuthorableModelMixin_parse (ReactionableModelMixin_parse super_parse) response.
Proof.
  split_and!.
  - unfold LikableModelMixin_parse, ReactionableModelMixin_parse. f_equal.
    rewrite !reaction_renames. symmetry. apply rename_key_comm_fold.
    intros o n (r & [= -> ->] & Hr)%list_elem_of_fmap. revert Hr.
    unfold reaction_types. rewrite !elem_of_cons, elem_of_nil.
    intros Hin; destruct_or!; subst; done.
  - unfold LikableModelMixin_parse, AuthorableModelMixin_parse.
    by rewrite rename_key_comm.
  - unfold ReactionableModelMixin_parse, AuthorableModelMixin_parse.
    rewrite !reaction_renames. rewrite rename_key_comm_fold; [done|].
    intros o n (r & [= -> ->] & Hr)%list_elem_of_fmap. revert Hr.
    unfold reaction_types. rewrite !elem_of_cons, elem_of_nil.
    intros Hin; destruct_or!; subst; done.
Qed.

(** X21: [AuthorableModelMixin.parse] renames ['from'] to
    ['author_json'] for the next [parse] and then looks at the record:
    an author already set is kept and the resolver is not called; an
    unset author with a non-empty [author_json] becomes what the resolver
    returns; what the resolver raises, [UnknownResourceType] included,
    leaves [parse]. *)
Theorem AuthorableModelMixin_parse_author
    (super_parse : gmap string V → M Authored (gmap string V))
    (response response' : gmap string V) (a a1 : Authored) :
  super_parse (rename_key "from" "author_json" response) a = (Ok response', a1) →
  (∀ u, author a1 = Some u →
        AuthorableModelMixin_parse super_parse response a = (Ok response', a1))
  ∧ (author_json a1 = None ∨ author_json a1 = Some ∅ →
     AuthorableModelMixin_parse super_parse response a = (Ok response', a1))
  ∧ (∀ resource u us,
       author a1 = None → author_json a1 = Some resource → resource ≠ ∅ →
       get_or_create_from_small_resource resource (author_users a1) = (Ok u, us) →
       AuthorableModelMixin_parse super_parse response a
       = (Ok response',
          {| author := Some u; author_json := Some resource; author_users := us |}))
  ∧ (∀ resource e us,
       author a1 = None → author_json a1 = Some resource → resource ≠ ∅ →
       get_or_create_from_small_resource resource (author_users a1) = (Raise e, us) →
       AuthorableModelMixin_parse super_parse response a
       = (Raise e,
          {| author := None; author_json := Some resource; author_users := us |})).
Proof.
  intros Hsuper. unfold AuthorableModelMixin_parse. munfold.
  rewrite Hsuper. split_and!.
  - intros u ->. done.
  - intros [Hnone|Hempty].
    + rewrite Hnone. by destruct (author a1).
    + rewrite Hempty. destruct (author a1); [done|].
      by rewrite decide_False by (by intros Hne; apply Hne).
  - intros resource u us Ha Hj Hne Hres. rewrite Ha, Hj.
    rewrite decide_True by done.
    unfold on_author_users, set_author. rewrite Hres. cbn. by rewrite Hj.
  - intros resource e us Ha Hj Hne Hres. rewrite Ha, Hj.
    rewrite decide_True by done.
    unfold on_author_users. rewrite Hres. cbn. by rewrite Ha, Hj.
Qed.

End parse_order.

(** A record without author whose base [parse] stores the author's
    resource: the author is resolved. *)
Lemma AuthorableModelMixin_parse_author_witness :
  AuthorableModelMixin_parse (H := sample_host [] Model_save) (V := string)
    (λ response a, (Ok response,
                    {| author := author a;
                       author_json := Some (dict_of [("id", "100"); ("name", "A")]);
                       author_users := author_users a |}))
    ∅ {| author := None; author_json := None; author_users := [sample_user 1 100] |}
  = (Ok ∅, {| author := Some (sample_user 1 100);
              author_json := Some (dict_of [("id", "100"); ("name", "A")]);
              author_users := [sample_user 1 100] |}).
Proof.
  pose proof (AuthorableModelMixin_parse_author (H := sample_host [] Model_save)
                (V := string)
                (λ response a, (Ok response,
                    {| author := author a;
                       author_json := Some (dict_of [("id", "100"); ("name", "A")]);
                       author_users := author_users a |}))
                ∅ ∅
                {| author := None; author_json := None;
                   author_users := [sample_user 1 100] |}
                {| author := None;
                   author_json := Some (dict_of [("id", "100"); ("name", "A")]);
                   author_users := [sample_user 1 100] |}
                eq_refl) as (_ & _ & Hresolves & _).
  apply (Hresolves (dict_of [("id", "100"); ("name", "A")]) (sample_user 1 100)
           [sample_user 1 100]); [reflexivity|reflexivity| |vm_compute; reflexivity].
  intros Hempty. apply (f_equal (λ d : gmap string string, d !! "id")) in Hempty.
  vm_compute in Hempty. discriminate.
Defined.
